(** * Token lifecycle, one-time codes and rate-limit resolution

    A shallow embedding of the authentication core of the FastAPI
    boilerplate: [app/core/security.py], [app/core/utils/redis_storage.py],
    [app/api/dependencies.py], [app/api/v1/auth.py] and the two handlers of
    [app/api/v1/users.py] that touch tokens or create principals.

    Handlers are state transformers over a [World] (the SQL tables, the
    Redis cache, the job queue, the pending background tasks); a Python
    exception is an explicit [Raise] outcome.  Third-party libraries
    (python-jose, bcrypt, uuid) and the process settings are the fields of
    a [Platform]; everything is executable once a platform is given. *)

From Stdlib Require Import ZArith String Ascii Bool Lia.
From stdpp Require Import base option list gmap strings.

Local Open Scope string_scope.
Local Open Scope list_scope.
Local Open Scope Z_scope.

(* ===================================================================== *)
(** ** Python values the handlers look at *)
(* ===================================================================== *)

(** [class TokenType(str, Enum)] of security.py. *)
Inductive TokenType := ACCESS | REFRESH | RESET_PASSWORD | VERIFY_ACCOUNT.

(** The [str] value of a member: what is written into the JWT claim and
    what [!=] compares against in [verify_token]. *)
Definition TokenType_value (t : TokenType) : string :=
  match t with
  | ACCESS => "access"
  | REFRESH => "refresh"
  | RESET_PASSWORD => "reset_password"
  | VERIFY_ACCOUNT => "verify_account"
  end.

(** [f"{token_type}"]: the module imports [datetime.UTC], so it runs on
    Python 3.11 or later, where formatting a [(str, Enum)] member gives the
    qualified member name.  Only injectivity matters below. *)
Definition TokenType_format (t : TokenType) : string :=
  match t with
  | ACCESS => "TokenType.ACCESS"
  | REFRESH => "TokenType.REFRESH"
  | RESET_PASSWORD => "TokenType.RESET_PASSWORD"
  | VERIFY_ACCOUNT => "TokenType.VERIFY_ACCOUNT"
  end.

(** Truthiness of a [str]: [if s:] / [if not s:]. *)
Definition str_truthy (s : string) : bool := negb (String.eqb s "").

(** Truthiness of a [str | None]. *)
Definition opt_str_truthy (o : option string) : bool :=
  match o with
  | Some s => str_truthy s
  | None => false
  end.

(** [c in s] for a one-character [c]. *)
Fixpoint str_contains (c : ascii) (s : string) : bool :=
  match s with
  | EmptyString => false
  | String a rest => Ascii.eqb a c || str_contains c rest
  end.

(** ["@" in username_or_email]. *)
Definition contains_at (s : string) : bool := str_contains "@"%char s.

(** The claims of a decoded JWT, as [payload.get] sees them. *)
Module Claims.
Record t := mk {
  sub : option string;
  token_type : option string;
  exp : option Z
}.
End Claims.

(** Why [jwt.decode] raised: every one of them is a [JWTError]. *)
Inductive JWTFailure :=
| BadSignature
| ExpiredSignature
| Malformed
| BadClaims.

(** [TokenData] of core/schemas.py. *)
Record TokenData := { username_or_email : string }.

(** [Token] of schemas/auth.py: the login and refresh response. *)
Module Token.
Record t := mk {
  access_token : string;
  refresh_token : string;
  token_type : string
}.
End Token.

(** The exception classes of core/exceptions/http_exceptions.py. *)
Inductive ErrorKind :=
| Unauthorized
| Forbidden
| NotFound
| DuplicateValue
| RateLimit
| BadRequest.

(** What a handler can raise. *)
Inductive PyException :=
| JWTError (why : JWTFailure)
| HTTPException (kind : ErrorKind) (detail : string)
| TypeError
| ConnectionError.

Inductive Outcome (A : Type) :=
| Return (a : A)
| Raise (e : PyException).
Arguments Return {A} a.
Arguments Raise {A} e.

(* ===================================================================== *)
(** ** Rows of the tables *)
(* ===================================================================== *)

Module User.
Record t := mk {
  id : nat;
  name : string;
  username : string;
  email : string;
  hashed_password : string;
  is_active : bool;
  is_superuser : bool;
  tier_id : option nat;
  is_deleted : bool;
  last_login : option Z
}.
End User.

Module BlacklistEntry.
Record t := mk { token : string; expires_at : Z }.
End BlacklistEntry.

Module Tier.
Record t := mk { id : nat; name : string }.
End Tier.

Module RateLimitRule.
Record t := mk { tier_id : nat; path : string; limit : nat; period : Z }.
End RateLimitRule.

(** [AuthUserCreate] / [UserCreate]: [UserBase] plus the plain password. *)
Module UserCreate.
Record t := mk {
  name : string;
  username : string;
  email : string;
  password : string
}.
End UserCreate.

(** A job handed to arq by [redis_queue.enqueue]. *)
Module Job.
Record t := mk {
  job_id : string;
  function_name : string;
  kwargs : list (string * string)
}.
End Job.

(** A task registered with [background_tasks.add_task]. *)
Module BackgroundTask.
Record t := mk { func : string; kwargs : list (string * string) }.
End BackgroundTask.

(* ===================================================================== *)
(** ** The stores *)
(* ===================================================================== *)

(** The Redis server behind [redis_storage]: whether the client can reach
    it, and its keys with their value and absolute deadline (seconds);
    [None] is a key without expiry. *)
Record RedisServer := {
  reachable : bool;
  keyspace : gmap string (string * option Z)
}.

(** Who a rate-limit counter belongs to: [user["id"]] or
    [request.client.host]. *)
Abbreviation Subject := (nat + string)%type.

Record World := {
  users : list User.t;
  token_blacklist : list BlacklistEntry.t;
  tiers : list Tier.t;
  rate_limits : list RateLimitRule.t;
  cache : RedisServer;
  queue_reachable : bool;
  queue_jobs : list Job.t;
  task_status : gmap string string;
  background_tasks : list BackgroundTask.t;
  counters : gmap (Subject * string) (nat * Z);
  entropy : nat
}.

(** Field updates, spelled out once. *)
Definition with_users (us : list User.t) (w : World) : World :=
  {| users := us; token_blacklist := token_blacklist w; tiers := tiers w;
     rate_limits := rate_limits w; cache := cache w;
     queue_reachable := queue_reachable w; queue_jobs := queue_jobs w;
     task_status := task_status w; background_tasks := background_tasks w;
     counters := counters w; entropy := entropy w |}.

Definition with_token_blacklist (bl : list BlacklistEntry.t) (w : World) : World :=
  {| users := users w; token_blacklist := bl; tiers := tiers w;
     rate_limits := rate_limits w; cache := cache w;
     queue_reachable := queue_reachable w; queue_jobs := queue_jobs w;
     task_status := task_status w; background_tasks := background_tasks w;
     counters := counters w; entropy := entropy w |}.

Definition with_cache (c : RedisServer) (w : World) : World :=
  {| users := users w; token_blacklist := token_blacklist w; tiers := tiers w;
     rate_limits := rate_limits w; cache := c;
     queue_reachable := queue_reachable w; queue_jobs := queue_jobs w;
     task_status := task_status w; background_tasks := background_tasks w;
     counters := counters w; entropy := entropy w |}.

Definition with_queue (js : list Job.t) (st : gmap string string) (w : World) : World :=
  {| users := users w; token_blacklist := token_blacklist w; tiers := tiers w;
     rate_limits := rate_limits w; cache := cache w;
     queue_reachable := queue_reachable w; queue_jobs := js;
     task_status := st; background_tasks := background_tasks w;
     counters := counters w; entropy := entropy w |}.

Definition with_background_tasks (ts : list BackgroundTask.t) (w : World) : World :=
  {| users := users w; token_blacklist := token_blacklist w; tiers := tiers w;
     rate_limits := rate_limits w; cache := cache w;
     queue_reachable := queue_reachable w; queue_jobs := queue_jobs w;
     task_status := task_status w; background_tasks := ts;
     counters := counters w; entropy := entropy w |}.

Definition with_counters (cs : gmap (Subject * string) (nat * Z)) (w : World) : World :=
  {| users := users w; token_blacklist := token_blacklist w; tiers := tiers w;
     rate_limits := rate_limits w; cache := cache w;
     queue_reachable := queue_reachable w; queue_jobs := queue_jobs w;
     task_status := task_status w; background_tasks := background_tasks w;
     counters := cs; entropy := entropy w |}.

Definition with_entropy (n : nat) (w : World) : World :=
  {| users := users w; token_blacklist := token_blacklist w; tiers := tiers w;
     rate_limits := rate_limits w; cache := cache w;
     queue_reachable := queue_reachable w; queue_jobs := queue_jobs w;
     task_status := task_status w; background_tasks := background_tasks w;
     counters := counters w; entropy := n |}.

(* ===================================================================== *)
(** ** The handler monad: state plus exceptions *)
(* ===================================================================== *)

Definition M (A : Type) : Type := World -> Outcome A * World.

Definition ret {A} (a : A) : M A := fun w => (Return a, w).

Definition raise {A} (e : PyException) : M A := fun w => (Raise e, w).

Definition bind {A B} (m : M A) (k : A -> M B) : M B :=
  fun w =>
    match m w with
    | (Return a, w') => k a w'
    | (Raise e, w') => (Raise e, w')
    end.

(** [try: body except JWTError: handler]; writes made by [body] before it
    raised stay (every CRUD call commits on its own). *)
Definition try_except_JWTError {A} (body : M A) (handler : M A) : M A :=
  fun w =>
    match body w with
    | (Raise (JWTError _), w') => handler w'
    | r => r
    end.

Definition gets {A} (f : World -> A) : M A := fun w => (Return (f w), w).

Definition modify (f : World -> World) : M unit := fun w => (Return tt, f w).

Declare Scope handler_scope.
Delimit Scope handler_scope with handler.
Notation "x <- m ;; k" := (bind m (fun x => k))
  (at level 100, m at next level, right associativity) : handler_scope.
Notation "m ;; k" := (bind m (fun _ => k))
  (at level 100, right associativity) : handler_scope.

Local Open Scope handler_scope.

(* ===================================================================== *)
(** ** Libraries and settings *)
(* ===================================================================== *)

(** python-jose, bcrypt and uuid, with the secret key and algorithm of the
    settings folded into the codec, and the constants taken from
    [settings].  [jwt_decode now token] is
    [jwt.decode(token, SECRET_KEY, algorithms=[ALGORITHM])] run at time
    [now]; [sanitize_path] is the helper of schemas/rate_limit.py and the
    two [USER_DEFAULT_...] are the column defaults of models/user.py,
    neither of which is among the sources. *)
Class Platform := {
  jwt_encode : Claims.t -> string;
  jwt_decode : Z -> string -> JWTFailure + Claims.t;
  bcrypt_checkpw : string -> string -> bool;
  bcrypt_hashpw : nat -> string -> string;
  uuid4 : nat -> string;
  sanitize_path : string -> string;
  ACCESS_TOKEN_EXPIRE_MINUTES : Z;
  REFRESH_TOKEN_EXPIRE_DAYS : Z;
  DEFAULT_LIMIT : nat;
  DEFAULT_PERIOD : Z;
  USER_DEFAULT_IS_ACTIVE : bool;
  USER_DEFAULT_IS_SUPERUSER : bool
}.

(** The next value of the process's random source ([uuid.uuid4()],
    [bcrypt.gensalt()]). *)
Definition fresh : M nat :=
  fun w => (Return (entropy w), with_entropy (S (entropy w)) w).

(* ===================================================================== *)
(** ** The credential store and the blacklist table *)
(* ===================================================================== *)

(** One keyword filter of a FastCRUD call: [id=], [username=], [email=],
    [is_deleted=]. *)
Inductive UserFilter :=
| ById (i : nat)
| ByUsername (s : string)
| ByEmail (s : string)
| ByIsDeleted (b : bool).

Definition user_matches (u : User.t) (f : UserFilter) : bool :=
  match f with
  | ById i => Nat.eqb (User.id u) i
  | ByUsername s => String.eqb (User.username u) s
  | ByEmail s => String.eqb (User.email u) s
  | ByIsDeleted b => Bool.eqb (User.is_deleted u) b
  end.

Definition user_selected (filters : list UserFilter) (u : User.t) : bool :=
  forallb (user_matches u) filters.

(** Modelled from the spec: crud/crud_users.py is not among the sources;
    the Credential Store's [findBy...] returns the first row matching all
    the filters, or nothing. *)
Definition crud_users_get (filters : list UserFilter) : M (option User.t) :=
  gets (fun db => find (user_selected filters) (users db)).

(** Modelled from the spec: [existsBy...] of the Credential Store. *)
Definition crud_users_exists (filters : list UserFilter) : M bool :=
  gets (fun db => existsb (user_selected filters) (users db)).

(** The fields an [update] call of the handlers sets. *)
Inductive UserPatch :=
| SetLastLogin (at_time : Z)
| SetIsActive (b : bool)
| SetHashedPassword (h : string).

Definition apply_patch (p : UserPatch) (u : User.t) : User.t :=
  match p with
  | SetLastLogin z =>
      User.mk (User.id u) (User.name u) (User.username u) (User.email u)
        (User.hashed_password u) (User.is_active u) (User.is_superuser u)
        (User.tier_id u) (User.is_deleted u) (Some z)
  | SetIsActive b =>
      User.mk (User.id u) (User.name u) (User.username u) (User.email u)
        (User.hashed_password u) b (User.is_superuser u)
        (User.tier_id u) (User.is_deleted u) (User.last_login u)
  | SetHashedPassword h =>
      User.mk (User.id u) (User.name u) (User.username u) (User.email u)
        h (User.is_active u) (User.is_superuser u)
        (User.tier_id u) (User.is_deleted u) (User.last_login u)
  end.

(** Modelled from the spec: [update(fields)] of the Credential Store,
    on the rows matching the filters. *)
Definition crud_users_update (object : UserPatch) (filters : list UserFilter) : M unit :=
  modify (fun db =>
    with_users
      (map (fun u => if user_selected filters u then apply_patch object u else u)
           (users db))
      db).

Definition soft_delete (u : User.t) : User.t :=
  User.mk (User.id u) (User.name u) (User.username u) (User.email u)
    (User.hashed_password u) (User.is_active u) (User.is_superuser u)
    (User.tier_id u) true (User.last_login u).

(** Modelled from the spec: [softDelete] sets [is_deleted] and leaves the
    row, and its other fields, in place. *)
Definition crud_users_delete (filters : list UserFilter) : M unit :=
  modify (fun db =>
    with_users
      (map (fun u => if user_selected filters u then soft_delete u else u)
           (users db))
      db).

(** The primary key the database gives the next row. *)
Definition next_id (us : list User.t) : nat :=
  S (fold_right Nat.max 0%nat (map User.id us)).

(** What a creation schema hands to [create]: [AuthUserCreateInternal]
    gives every field, [UserCreateInternal] leaves the flags to the
    column defaults ([None] here). *)
Module NewUser.
Record t := mk {
  name : string;
  username : string;
  email : string;
  hashed_password : string;
  is_superuser : option bool;
  is_active : option bool;
  last_login : option Z
}.
End NewUser.

(** Modelled from the spec: [create] of the Credential Store; the new
    row has a fresh id, no tier and is not deleted. *)
Definition crud_users_create `{Platform} (object : NewUser.t) : M User.t :=
  fun db =>
    let row :=
      User.mk (next_id (users db))
        (NewUser.name object) (NewUser.username object) (NewUser.email object)
        (NewUser.hashed_password object)
        (default USER_DEFAULT_IS_ACTIVE (NewUser.is_active object))
        (default USER_DEFAULT_IS_SUPERUSER (NewUser.is_superuser object))
        None false (NewUser.last_login object) in
    (Return row, with_users (users db ++ [row]) db).

(** Modelled from the spec: core/db/crud_token_blacklist.py is not among
    the sources; [isRevoked] is an exact existence check on the token. *)
Definition crud_token_blacklist_exists (token : string) : M bool :=
  gets (fun db =>
    existsb (fun e => String.eqb (BlacklistEntry.token e) token)
            (token_blacklist db)).

(** Modelled from the spec: [revoke] records [{token, expires_at}]. *)
Definition crud_token_blacklist_create (object : BlacklistEntry.t) : M unit :=
  modify (fun db => with_token_blacklist (token_blacklist db ++ [object]) db).

(** Modelled from the spec: crud/crud_tier.py is not among the sources;
    a user without tier ([tier_id] is NULL) matches no tier. *)
Definition crud_tiers_get (id : option nat) : M (option Tier.t) :=
  gets (fun db =>
    match id with
    | Some i => find (fun t => Nat.eqb (Tier.id t) i) (tiers db)
    | None => None
    end).

(** Modelled from the spec: crud/crud_rate_limit.py is not among the
    sources; the rule of a tier for exactly this path. *)
Definition crud_rate_limits_get (tier_id : nat) (path : string)
  : M (option RateLimitRule.t) :=
  gets (fun db =>
    find (fun r => Nat.eqb (RateLimitRule.tier_id r) tier_id
                   && String.eqb (RateLimitRule.path r) path)
         (rate_limits db)).

(* ===================================================================== *)
(** ** core/utils/redis_storage.py *)
(* ===================================================================== *)

(** A key is visible strictly before its deadline. *)
Definition redis_live (now : Z) (e : string * option Z) : bool :=
  match e.2 with
  | Some deadline => now <? deadline
  | None => true
  end.

(** What the server answers to GET at time [now]. *)
Definition redis_value (now : Z) (key : string) (r : RedisServer) : option string :=
  match keyspace r !! key with
  | Some e => if redis_live now e then Some e.1 else None
  | None => None
  end.

(** [RedisStorage.set]: SET key value [EX expire].  A lost connection
    and the server's refusal of a non-positive expiry are both caught by
    [except Exception] and turned into [False]. *)
Definition RedisStorage_set (now : Z) (key value : string) (expire : option Z)
  : M bool :=
  fun w =>
    let r := cache w in
    if negb (reachable r) then (Return false, w)
    else
      match expire with
      | Some seconds =>
          if seconds <=? 0 then (Return false, w)
          else (Return true,
                with_cache {| reachable := reachable r;
                              keyspace := <[key := (value, Some (now + seconds))]>
                                            (keyspace r) |} w)
      | None =>
          (Return true,
           with_cache {| reachable := reachable r;
                         keyspace := <[key := (value, None)]> (keyspace r) |} w)
      end.

(** [RedisStorage.get]: GETDEL when [delete], GET otherwise; any
    exception is caught and turned into [None]. *)
Definition RedisStorage_get (now : Z) (key : string) (delete : bool)
  : M (option string) :=
  fun w =>
    let r := cache w in
    if negb (reachable r) then (Return None, w)
    else if delete then
      (Return (redis_value now key r),
       with_cache {| reachable := reachable r;
                     keyspace := base.delete key (keyspace r) |} w)
    else (Return (redis_value now key r), w).

(** [RedisStorage.delete]. *)
Definition RedisStorage_delete (key : string) : M bool :=
  fun w =>
    let r := cache w in
    if negb (reachable r) then (Return false, w)
    else (Return true,
          with_cache {| reachable := reachable r;
                        keyspace := base.delete key (keyspace r) |} w).

(** [RedisStorage.exists]. *)
Definition RedisStorage_exists (now : Z) (key : string) : M bool :=
  fun w =>
    let r := cache w in
    if negb (reachable r) then (Return false, w)
    else (Return (bool_decide (is_Some (redis_value now key r))), w).

(* ===================================================================== *)
(** ** core/utils/queue.py *)
(* ===================================================================== *)

(** [RedisQueue.enqueue]: hands the job to arq and records it as pending
    under [task_status:<job_id>]; a failure is logged and raised again.
    The status blob is kept as its status word. *)
Definition redis_queue_enqueue `{Platform} (function_name : string)
    (kwargs : list (string * string)) : M string :=
  fun w =>
    if negb (queue_reachable w) then (Raise ConnectionError, w)
    else
      let job_id := uuid4 (entropy w) in
      (Return job_id,
       with_entropy (S (entropy w))
         (with_queue (queue_jobs w ++ [Job.mk job_id function_name kwargs])
                     (<["task_status:" +:+ job_id := "pending"]> (task_status w))
                     w)).

(* ===================================================================== *)
(** ** core/security.py *)
(* ===================================================================== *)

Section Security.
Context `{Platform}.

Definition RESET_PASSWORD_EXPIRE_MINUTES : Z := 30.
Definition VERIFY_ACCOUNT_EXPIRE_DAYS : Z := 7.

Definition minutes (n : Z) : Z := n * 60.
Definition days (n : Z) : Z := n * 86400.

Definition verify_password (plain_password hashed_password : string) : M bool :=
  ret (bcrypt_checkpw plain_password hashed_password).

Definition get_password_hash (password : string) : M string :=
  salt <- fresh;;
  ret (bcrypt_hashpw salt password).

(** [int(expires.timestamp() - datetime.now(UTC).timestamp())]: the clock
    is read a second time, a fraction of a second after the reading that
    [expires] was computed from, and [int] truncates the difference: the
    whole seconds left are one fewer than the seconds between [now] and
    [expires]. *)
Definition seconds_left (now expires : Z) : Z := expires - now - 1.

(** The code is stored for [seconds_left] seconds: 1799 for a password
    reset and 604799 for an account verification, counted in the store
    from [now]. *)
Definition create_verification_token (now : Z) (email : string)
    (token_type : TokenType) : M string :=
  seed <- fresh;;
  let token := uuid4 seed in
  let expires :=
    match token_type with
    | RESET_PASSWORD => now + minutes RESET_PASSWORD_EXPIRE_MINUTES
    | _ => now + days VERIFY_ACCOUNT_EXPIRE_DAYS
    end in
  let key := TokenType_format token_type +:+ ":" +:+ token in
  let expire_seconds := seconds_left now expires in
  RedisStorage_set now key email (Some expire_seconds);;
  ret token.

Definition verify_token_from_redis (now : Z) (token : string)
    (token_type : TokenType) : M (option string) :=
  let key := TokenType_format token_type +:+ ":" +:+ token in
  email <- RedisStorage_get now key true;;
  if opt_str_truthy email then ret email else ret None.

(** [dict | Literal[False]]: [None] is the [False] of the source. *)
Definition authenticate_user (username_or_email password : string)
  : M (option User.t) :=
  db_user <- (if contains_at username_or_email
              then crud_users_get [ByEmail username_or_email; ByIsDeleted false]
              else crud_users_get [ByUsername username_or_email; ByIsDeleted false]);;
  match db_user with
  | None => ret None
  | Some db_user =>
      correct <- verify_password password (User.hashed_password db_user);;
      if negb correct then ret None else ret (Some db_user)
  end.

(** [data={"sub": ...}]. *)
Definition sub_only (subject : string) : Claims.t :=
  Claims.mk (Some subject) None None.

(** [to_encode.update({"exp": expire, "token_type": ...})]. *)
Definition update_claims (data : Claims.t) (expire : Z) (t : TokenType) : Claims.t :=
  Claims.mk (Claims.sub data) (Some (TokenType_value t)) (Some expire).

(** Truthiness of a [timedelta | None]: the zero duration is falsy. *)
Definition timedelta_or (expires_delta : option Z) (otherwise : Z) : Z :=
  match expires_delta with
  | Some d => if d =? 0 then otherwise else d
  | None => otherwise
  end.

Definition create_access_token (now : Z) (data : Claims.t)
    (expires_delta : option Z) : M string :=
  let expire := now + timedelta_or expires_delta (minutes ACCESS_TOKEN_EXPIRE_MINUTES) in
  let to_encode := update_claims data expire ACCESS in
  ret (jwt_encode to_encode).

Definition create_refresh_token (now : Z) (data : Claims.t)
    (expires_delta : option Z) : M string :=
  let expire := now + timedelta_or expires_delta (days REFRESH_TOKEN_EXPIRE_DAYS) in
  let to_encode := update_claims data expire REFRESH in
  ret (jwt_encode to_encode).

(** [jwt.decode(token, SECRET_KEY, algorithms=[ALGORITHM])] as a call
    that can raise. *)
Definition jwt_decode_call (now : Z) (token : string) : M Claims.t :=
  match jwt_decode now token with
  | inl why => raise (JWTError why)
  | inr payload => ret payload
  end.

(** [token_type != expected_token_type], the claim being a [str] or
    missing. *)
Definition claim_differs (token_type : option string) (expected : TokenType) : bool :=
  match token_type with
  | Some s => negb (String.eqb s (TokenType_value expected))
  | None => true
  end.

Definition verify_token (now : Z) (token : string)
    (expected_token_type : TokenType) : M (option TokenData) :=
  is_blacklisted <- crud_token_blacklist_exists token;;
  if is_blacklisted then ret None
  else
    try_except_JWTError
      (payload <- jwt_decode_call now token;;
       let username_or_email := Claims.sub payload in
       let token_type := Claims.token_type payload in
       match username_or_email with
       | None => ret None
       | Some subject =>
           if claim_differs token_type expected_token_type then ret None
           else ret (Some {| username_or_email := subject |})
       end)
      (ret None).

(** [datetime.fromtimestamp(payload.get("exp"))]: a missing claim is
    [None], on which the call raises [TypeError]. *)
Definition datetime_fromtimestamp (exp : option Z) : M Z :=
  match exp with
  | Some seconds => ret seconds
  | None => raise TypeError
  end.

(** [for x in xs: body]. *)
Fixpoint for_each {A} (xs : list A) (body : A -> M unit) : M unit :=
  match xs with
  | [] => ret tt
  | x :: rest => body x;; for_each rest body
  end.

Definition blacklist_tokens (now : Z) (access_token refresh_token : string)
  : M unit :=
  for_each [access_token; refresh_token] (fun token =>
    payload <- jwt_decode_call now token;;
    expires_at <- datetime_fromtimestamp (Claims.exp payload);;
    crud_token_blacklist_create (BlacklistEntry.mk token expires_at)).

Definition blacklist_token (now : Z) (token : string) : M unit :=
  payload <- jwt_decode_call now token;;
  expires_at <- datetime_fromtimestamp (Claims.exp payload);;
  crud_token_blacklist_create (BlacklistEntry.mk token expires_at).

End Security.

(* ===================================================================== *)
(** ** Request bodies (schemas/auth.py) *)
(* ===================================================================== *)

Module RefreshToken.
Record t := mk { refresh_token : string }.
End RefreshToken.

Module EmailVerification.
Record t := mk { email : string; token : string }.
End EmailVerification.

Module PasswordResetRequest.
Record t := mk { email : string }.
End PasswordResetRequest.

Module PasswordReset.
Record t := mk { email : string; token : string; new_password : string }.
End PasswordReset.

(** What [rate_limiter_dependency] reads of the request. *)
Module Request.
Record t := mk { url_path : string; client_host : string }.
End Request.

(* ===================================================================== *)
(** ** api/dependencies.py *)
(* ===================================================================== *)

Section Dependencies.
Context `{Platform}.

Definition get_current_user (now : Z) (token : string) : M User.t :=
  token_data <- verify_token now token ACCESS;;
  match token_data with
  | None => raise (HTTPException Unauthorized "User not authenticated.")
  | Some token_data =>
      user <- (if contains_at (username_or_email token_data)
               then crud_users_get [ByEmail (username_or_email token_data);
                                    ByIsDeleted false]
               else crud_users_get [ByUsername (username_or_email token_data);
                                    ByIsDeleted false]);;
      match user with
      | None => raise (HTTPException Unauthorized "User not found or has been deleted.")
      | Some user =>
          if negb (User.is_active user)
          then raise (HTTPException Unauthorized
                        "Account is not activated. Please verify your email first.")
          else ret user
      end
  end.

Definition get_current_superuser (current_user : User.t) : M User.t :=
  if negb (User.is_superuser current_user)
  then raise (HTTPException Forbidden "You do not have enough privileges.")
  else ret current_user.

(** Modelled from the spec: core/utils/rate_limit.py is not among the
    sources.  The path is normalised, the counter of (subject, path) is
    incremented, a first increment in a window sets its expiry [period]
    seconds ahead, and the call is limited when the count after the
    increment exceeds [limit]. *)
Definition is_rate_limited (now : Z) (user_id : Subject) (path : string)
    (limit : nat) (period : Z) : M bool :=
  fun w =>
    let key := (user_id, sanitize_path path) in
    let running :=
      match counters w !! key with
      | Some (n, deadline) => if now <? deadline then Some (n, deadline) else None
      | None => None
      end in
    let entry :=
      match running with
      | Some (n, deadline) => (S n, deadline)
      | None => (1%nat, now + period)
      end in
    (Return (Nat.ltb limit entry.1),
     with_counters (<[key := entry]> (counters w)) w).

(** The branches of [rate_limiter_dependency] that choose
    [(user_id, limit, period)]; the two warnings are log lines only. *)
Definition resolve_rate_limit (request : Request.t) (path : string)
    (user : option User.t) : M (Subject * nat * Z) :=
  match user with
  | Some user =>
      let user_id : Subject := inl (User.id user) in
      tier <- crud_tiers_get (User.tier_id user);;
      match tier with
      | Some tier =>
          rate_limit <- crud_rate_limits_get (Tier.id tier) path;;
          match rate_limit with
          | Some rate_limit =>
              ret (user_id, RateLimitRule.limit rate_limit,
                   RateLimitRule.period rate_limit)
          | None => ret (user_id, DEFAULT_LIMIT, DEFAULT_PERIOD)
          end
      | None => ret (user_id, DEFAULT_LIMIT, DEFAULT_PERIOD)
      end
  | None =>
      let user_id : Subject := inr (Request.client_host request) in
      ret (user_id, DEFAULT_LIMIT, DEFAULT_PERIOD)
  end.

(** [user] is what [get_optional_user] produced: [None] for a caller
    without a valid access token.  The wait for the application's
    start-up event is not part of the model. *)
Definition rate_limiter_dependency (now : Z) (request : Request.t)
    (user : option User.t) : M unit :=
  let path := sanitize_path (Request.url_path request) in
  chosen <- resolve_rate_limit request path user;;
  let '(user_id, limit, period) := chosen in
  is_limited <- is_rate_limited now user_id path limit period;;
  if is_limited then raise (HTTPException RateLimit "Rate limit exceeded.")
  else ret tt.

End Dependencies.

(* ===================================================================== *)
(** ** api/v1/auth.py *)
(* ===================================================================== *)

Section Auth.
Context `{Platform}.

Definition login_for_access_token (now : Z) (username password : string)
  : M Token.t :=
  user <- authenticate_user username password;;
  match user with
  | None => raise (HTTPException Unauthorized "Wrong username, email or password.")
  | Some user =>
      if negb (User.is_active user)
      then raise (HTTPException Unauthorized
                    "Account is not activated. Please verify your email first.")
      else
        let access_token_expires := minutes ACCESS_TOKEN_EXPIRE_MINUTES in
        access_token <- create_access_token now (sub_only (User.username user))
                          (Some access_token_expires);;
        refresh_token <- create_refresh_token now (sub_only (User.username user))
                           None;;
        crud_users_update (SetLastLogin now) [ById (User.id user)];;
        ret (Token.mk access_token refresh_token "bearer")
  end.

Definition refresh_access_token (now : Z) (refresh_data : RefreshToken.t)
  : M Token.t :=
  let refresh_token := RefreshToken.refresh_token refresh_data in
  if negb (str_truthy refresh_token)
  then raise (HTTPException Unauthorized "Refresh token missing.")
  else
    user_data <- verify_token now refresh_token REFRESH;;
    match user_data with
    | None => raise (HTTPException Unauthorized "Invalid refresh token.")
    | Some user_data =>
        user <- crud_users_get [ByUsername (username_or_email user_data)];;
        match user with
        | None => raise (HTTPException Unauthorized "User is not active.")
        | Some user =>
            if negb (User.is_active user)
            then raise (HTTPException Unauthorized "User is not active.")
            else
              new_access_token <-
                create_access_token now (sub_only (username_or_email user_data)) None;;
              new_refresh_token <-
                create_refresh_token now (sub_only (username_or_email user_data)) None;;
              ret (Token.mk new_access_token new_refresh_token "bearer")
        end
    end.

Definition logout (now : Z) (refresh_data : RefreshToken.t)
    (access_token : string) : M string :=
  try_except_JWTError
    (let refresh_token := RefreshToken.refresh_token refresh_data in
     if negb (str_truthy refresh_token)
     then raise (HTTPException Unauthorized "Refresh token not found")
     else
       blacklist_tokens now access_token refresh_token;;
       ret "Logged out successfully")
    (raise (HTTPException Unauthorized "Invalid token.")).

Definition register_user (now : Z) (user_in : UserCreate.t) : M string :=
  username_taken <- crud_users_exists [ByUsername (UserCreate.username user_in)];;
  if username_taken
  then raise (HTTPException BadRequest "Username already exists")
  else
    email_taken <- crud_users_exists [ByEmail (UserCreate.email user_in)];;
    if email_taken
    then raise (HTTPException BadRequest "Email already exists")
    else
      hashed_password <- get_password_hash (UserCreate.password user_in);;
      let user_internal :=
        NewUser.mk (UserCreate.name user_in) (UserCreate.username user_in)
          (UserCreate.email user_in) hashed_password
          (Some false) (Some false) None in
      user <- crud_users_create user_internal;;
      token <- create_verification_token now (User.email user) VERIFY_ACCOUNT;;
      redis_queue_enqueue "send_email"
        [("email", User.email user); ("name", User.name user);
         ("verification_code", token)];;
      ret "User registered successfully. Please check your email for verification.".

Definition verify_account (now : Z) (verification : EmailVerification.t)
  : M string :=
  email <- verify_token_from_redis now (EmailVerification.token verification)
             VERIFY_ACCOUNT;;
  match email with
  | None => raise (HTTPException BadRequest "Invalid or expired verification token")
  | Some email =>
      user <- crud_users_get [ByEmail email];;
      match user with
      | None => raise (HTTPException NotFound "User not found")
      | Some user =>
          if User.is_active user then ret "Account already verified"
          else
            crud_users_update (SetIsActive true) [ById (User.id user)];;
            ret "Account verified successfully"
      end
  end.

(** [background_tasks.add_task(func, **kwargs)]. *)
Definition add_task (func : string) (kwargs : list (string * string)) : M unit :=
  modify (fun w =>
    with_background_tasks (background_tasks w ++ [BackgroundTask.mk func kwargs]) w).

Definition request_password_reset (now : Z) (request : PasswordResetRequest.t)
  : M string :=
  user <- crud_users_get [ByEmail (PasswordResetRequest.email request)];;
  match user with
  | None =>
      ret "If your email is registered, you will receive password reset instructions"
  | Some user =>
      token <- create_verification_token now (User.email user) RESET_PASSWORD;;
      add_task "send_verification_email"
        [("email", User.email user); ("name", User.name user);
         ("verification_code", token)];;
      ret "If your email is registered, you will receive password reset instructions"
  end.

Definition reset_password (now : Z) (reset_data : PasswordReset.t) : M string :=
  email <- verify_token_from_redis now (PasswordReset.token reset_data)
             RESET_PASSWORD;;
  match email with
  | None => raise (HTTPException BadRequest "Invalid or expired reset token")
  | Some email =>
      user <- crud_users_get [ByEmail email];;
      match user with
      | None => raise (HTTPException NotFound "User not found")
      | Some user =>
          hashed_password <- get_password_hash (PasswordReset.new_password reset_data);;
          crud_users_update (SetHashedPassword hashed_password) [ById (User.id user)];;
          ret "Password reset successfully"
      end
  end.

End Auth.

(* ===================================================================== *)
(** ** api/v1/users.py: the two handlers that create principals or
       revoke tokens *)
(* ===================================================================== *)

Section Users.
Context `{Platform}.

(** [current_user] and [token] are what the dependencies
    [get_current_user] and [oauth2_scheme] produced. *)
Definition delete_user_me (now : Z) (current_user : User.t) (token : string)
  : M string :=
  crud_users_delete [ByUsername (User.username current_user)];;
  blacklist_token now token;;
  ret "User deleted".

Definition create_user (user : UserCreate.t) : M User.t :=
  email_row <- crud_users_exists [ByEmail (UserCreate.email user)];;
  if email_row
  then raise (HTTPException DuplicateValue "Email is already registered")
  else
    username_row <- crud_users_exists [ByUsername (UserCreate.username user)];;
    if username_row
    then raise (HTTPException DuplicateValue "Username not available")
    else
      hashed_password <- get_password_hash (UserCreate.password user);;
      let user_internal :=
        NewUser.mk (UserCreate.name user) (UserCreate.username user)
          (UserCreate.email user) hashed_password None None None in
      created_user <- crud_users_create user_internal;;
      ret created_user.

End Users.

(* ===================================================================== *)
(** ** Requests and runs *)
(* ===================================================================== *)

(** One call of a handler, with the instant it runs at. *)
Inductive Call :=
| Login (now : Z) (username password : string)
| Refresh (now : Z) (refresh_data : RefreshToken.t)
| Logout (now : Z) (refresh_data : RefreshToken.t) (access_token : string)
| RegisterUser (now : Z) (user_in : UserCreate.t)
| VerifyAccount (now : Z) (verification : EmailVerification.t)
| RequestPasswordReset (now : Z) (request : PasswordResetRequest.t)
| ResetPassword (now : Z) (reset_data : PasswordReset.t)
| DeleteUserMe (now : Z) (current_user : User.t) (token : string)
| CreateUser (user : UserCreate.t)
| RateLimiter (now : Z) (request : Request.t) (user : option User.t).

(** The world a call leaves behind, whatever it answered. *)
Definition after `{Platform} (c : Call) (w : World) : World :=
  match c with
  | Login now u p => (login_for_access_token now u p w).2
  | Refresh now rd => (refresh_access_token now rd w).2
  | Logout now rd a => (logout now rd a w).2
  | RegisterUser now u => (register_user now u w).2
  | VerifyAccount now v => (verify_account now v w).2
  | RequestPasswordReset now r => (request_password_reset now r w).2
  | ResetPassword now r => (reset_password now r w).2
  | DeleteUserMe now u t => (delete_user_me now u t w).2
  | CreateUser u => (create_user u w).2
  | RateLimiter now r u => (rate_limiter_dependency now r u w).2
  end.

(** The blacklist holds an entry for the token. *)
Definition blacklisted (token : string) (w : World) : bool :=
  existsb (fun e => String.eqb (BlacklistEntry.token e) token) (token_blacklist w).

(** A token is revoked when the blacklist holds it, which is the case
    once a logout that presented it, or the deletion of its owner's
    account, has returned; it stays so through every later call. *)
Inductive revoked `{Platform} (token : string) : World -> Prop :=
| revoked_listed w :
    blacklisted token w = true ->
    revoked token w
| revoked_by_logout now refresh_data access_token msg w w' :
    logout now refresh_data access_token w = (Return msg, w') ->
    token = access_token \/ token = RefreshToken.refresh_token refresh_data ->
    revoked token w'
| revoked_by_deletion now current_user msg w w' :
    delete_user_me now current_user token w = (Return msg, w') ->
    revoked token w'
| revoked_still c w :
    revoked token w ->
    revoked token (after c w).

(* ===================================================================== *)
(** ** A concrete platform and world, for evaluation *)
(* ===================================================================== *)

Module Demo.

(** A toy codec: four well-formed tokens, everything else is garbage. *)
Definition claims_of (token : string) : option Claims.t :=
  if String.eqb token "access.alice"
  then Some (Claims.mk (Some "alice") (Some "access") (Some 5000))
  else if String.eqb token "refresh.alice"
  then Some (Claims.mk (Some "alice") (Some "refresh") (Some 900000))
  else if String.eqb token "access.carol"
  then Some (Claims.mk (Some "carol") (Some "access") (Some 5000))
  else if String.eqb token "refresh.carol"
  then Some (Claims.mk (Some "carol") (Some "refresh") (Some 900000))
  else None.

Definition decode (now : Z) (token : string) : JWTFailure + Claims.t :=
  match claims_of token with
  | Some c =>
      match Claims.exp c with
      | Some e => if e <? now then inl ExpiredSignature else inr c
      | None => inr c
      end
  | None => inl Malformed
  end.

Definition encode (c : Claims.t) : string :=
  default "" (Claims.token_type c) +:+ "." +:+ default "" (Claims.sub c).

Fixpoint tally (n : nat) : string :=
  match n with
  | O => ""
  | S k => "i" +:+ tally k
  end.

#[export] Instance platform : Platform := {|
  jwt_encode := encode;
  jwt_decode := decode;
  bcrypt_checkpw := fun plain hashed => String.eqb ("$2b$" +:+ plain) hashed;
  bcrypt_hashpw := fun _ plain => "$2b$" +:+ plain;
  uuid4 := fun n => "uuid-" +:+ tally n;
  sanitize_path := fun p => p;
  ACCESS_TOKEN_EXPIRE_MINUTES := 30;
  REFRESH_TOKEN_EXPIRE_DAYS := 7;
  DEFAULT_LIMIT := 10%nat;
  DEFAULT_PERIOD := 3600;
  USER_DEFAULT_IS_ACTIVE := false;
  USER_DEFAULT_IS_SUPERUSER := false
|}.

(** alice is active, bob has not verified his address, carol is active
    and soft-deleted. *)
Definition alice : User.t :=
  User.mk 1 "Alice" "alice" "a@x.com" "$2b$wonderland" true false (Some 1%nat) false None.
Definition bob : User.t :=
  User.mk 2 "Bob" "bob" "b@x.com" "$2b$builder" false false None false None.
Definition carol : User.t :=
  User.mk 3 "Carol" "carol" "c@x.com" "$2b$singing" true false None true None.

Definition world : World := {|
  users := [alice; bob; carol];
  token_blacklist := [];
  tiers := [Tier.mk 1 "free"];
  rate_limits := [RateLimitRule.mk 1 "/api/v1/posts" 3 60];
  cache := {| reachable := true;
              keyspace := {[ "TokenType.VERIFY_ACCOUNT:code-bob" := ("b@x.com", Some 604800) ]} |};
  queue_reachable := true;
  queue_jobs := [];
  task_status := ∅;
  background_tasks := [];
  counters := ∅;
  entropy := 0
|}.

(** The world once alice has logged out at time 10. *)
Definition after_logout : World :=
  (logout 10 (RefreshToken.mk "refresh.alice") "access.alice" world).2.

(** The world once only alice's access token has been revoked. *)
Definition after_first_revocation : World :=
  with_token_blacklist [BlacklistEntry.mk "access.alice" 5000] world.

(** The world with a code ["v"] stored under ["k"] for ten seconds at
    time 0. *)
Definition with_code : World :=
  (RedisStorage_set 0 "k" "v" (Some 10) world).2.

Definition bob_verification : EmailVerification.t :=
  EmailVerification.mk "b@x.com" "code-bob".

(** A registration under alice's username and an unused address. *)
Definition second_alice : UserCreate.t :=
  UserCreate.mk "Alice II" "alice" "alice2@x.com" "Str1ngst!".

End Demo.

(** Why a verification fails: the token is on the blacklist, the codec
    rejects it (bad signature, expired, malformed, bad claims), it carries
    no subject, or its declared type is not the expected one. *)
Inductive failure_cause `{Platform} (now : Z) (token : string)
    (expected : TokenType) (db : World) : Prop :=
| cause_blacklisted :
    blacklisted token db = true ->
    failure_cause now token expected db
| cause_rejected why :
    jwt_decode now token = inl why ->
    failure_cause now token expected db
| cause_no_subject payload :
    jwt_decode now token = inr payload ->
    Claims.sub payload = None ->
    failure_cause now token expected db
| cause_wrong_type payload :
    jwt_decode now token = inr payload ->
    Claims.token_type payload <> Some (TokenType_value expected) ->
    failure_cause now token expected db.

(** A computation never removes a blacklist entry. *)
Definition keeps_blacklist {A} (m : M A) : Prop :=
  forall w, exists extra, token_blacklist (m w).2 = token_blacklist w ++ extra.

(** The filter a login or an access token selects its principal with:
    by email when the name contains an at sign, by username otherwise. *)
Definition login_key (username_or_email : string) : UserFilter :=
  if contains_at username_or_email then ByEmail username_or_email
  else ByUsername username_or_email.

(** The principal a name stands for: the first row under [login_key]
    that is not soft-deleted. *)
Definition principal_for (username_or_email : string) (db : World)
  : option User.t :=
  find (fun u => user_matches u (login_key username_or_email)
                 && negb (User.is_deleted u))
       (users db).

(** Why a login is turned away without saying more: no row goes by that
    name, every row that does is soft-deleted, or the password is not
    the principal's. *)
Inductive bad_credentials `{Platform} (username_or_email password : string)
    (db : World) : Prop :=
| absent_principal :
    (forall u, In u (users db) ->
               user_matches u (login_key username_or_email) = false) ->
    bad_credentials username_or_email password db
| deleted_principal :
    (forall u, In u (users db) ->
               user_matches u (login_key username_or_email) = true ->
               User.is_deleted u = true) ->
    bad_credentials username_or_email password db
| password_mismatch u :
    principal_for username_or_email db = Some u ->
    bcrypt_checkpw password (User.hashed_password u) = false ->
    bad_credentials username_or_email password db.

(** The one answer to bad credentials, and the answer to an account that
    has not been activated. *)
Definition wrong_credentials : PyException :=
  HTTPException Unauthorized "Wrong username, email or password.".

Definition not_activated : PyException :=
  HTTPException Unauthorized
    "Account is not activated. Please verify your email first.".

(** Some row carries this email address. *)
Definition registered (email : string) (db : World) : bool :=
  existsb (fun u => String.eqb (User.email u) email) (users db).

(** The key a one-time code is stored under. *)
Definition code_key (token_type : TokenType) (token : string) : string :=
  TokenType_format token_type +:+ ":" +:+ token.

(* ===================================================================== *)
(** ** More of api/dependencies.py: the optional user *)
(* ===================================================================== *)

(** [s.partition(" ")]: the text before the first space, the space, the
    text after it; the whole text and two empty strings when there is no
    space. *)
Fixpoint partition_space (s : string) : string * string * string :=
  match s with
  | EmptyString => ("", "", "")
  | String c rest =>
      if Ascii.eqb c " "%char then ("", " ", rest)
      else let '(head, sep, tail) := partition_space rest in
           (String c head, sep, tail)
  end.

(** [c.lower()] on the letters A to Z; every other byte is kept, which is
    all that comparing with ["bearer"] can see. *)
Definition ascii_lower (c : ascii) : ascii :=
  let n := nat_of_ascii c in
  if (Nat.leb 65 n && Nat.leb n 90)%bool then ascii_of_nat (n + 32) else c.

Fixpoint str_lower (s : string) : string :=
  match s with
  | EmptyString => EmptyString
  | String c rest => String (ascii_lower c) (str_lower rest)
  end.

(** [try: body except Exception: handler] (the [except HTTPException]
    clause before it answers the same, after a different log line). *)
Definition try_except_Exception {A} (body : M A) (handler : M A) : M A :=
  fun w =>
    match body w with
    | (Raise _, w') => handler w'
    | r => r
    end.

Section OptionalUser.
Context `{Platform}.

(** [authorization] is [request.headers.get("Authorization")]. *)
Definition get_optional_user (now : Z) (authorization : option string)
  : M (option User.t) :=
  let token := authorization in
  if negb (opt_str_truthy token) then ret None
  else
    try_except_Exception
      (let '(token_type, _, token_value) := partition_space (default "" token) in
       if negb (String.eqb (str_lower token_type) "bearer")
          || negb (str_truthy token_value)
       then ret None
       else
         token_data <- verify_token now token_value ACCESS;;
         match token_data with
         | None => ret None
         | Some token_data =>
             user <- (if contains_at (username_or_email token_data)
                      then crud_users_get [ByEmail (username_or_email token_data);
                                           ByIsDeleted false]
                      else crud_users_get [ByUsername (username_or_email token_data);
                                           ByIsDeleted false]);;
             match user with
             | None => ret None
             | Some user =>
                 if negb (User.is_active user) then ret None else ret (Some user)
             end
         end)
      (ret None).

(** An endpoint whose signature asks for [Depends(get_current_user)]:
    the dependency runs first, and the handler only with its result. *)
Definition with_current_user {A} (now : Z) (token : string)
    (endpoint : User.t -> M A) : M A :=
  current_user <- get_current_user now token;;
  endpoint current_user.

(** An endpoint declared with
    [dependencies=[Depends(get_current_superuser)]]. *)
Definition with_superuser {A} (now : Z) (token : string) (endpoint : M A)
  : M A :=
  current_user <- get_current_user now token;;
  get_current_superuser current_user;;
  endpoint.

End OptionalUser.

(* ===================================================================== *)
(** ** More of api/v1/users.py *)
(* ===================================================================== *)

(** Modelled from the spec: [update(fields)] of the Credential Store for
    a tier change, on the rows matching the filters. *)
Definition crud_users_update_tier (tier_id : nat) (filters : list UserFilter)
  : M unit :=
  modify (fun db =>
    with_users
      (map (fun u =>
              if user_selected filters u
              then User.mk (User.id u) (User.name u) (User.username u)
                     (User.email u) (User.hashed_password u) (User.is_active u)
                     (User.is_superuser u) (Some tier_id) (User.is_deleted u)
                     (User.last_login u)
              else u)
           (users db))
      db).

(** Modelled from the spec: [purge], the irreversible removal of the rows
    matching the filters. *)
Definition crud_users_db_delete (filters : list UserFilter) : M unit :=
  modify (fun db =>
    with_users (List.filter (fun u => negb (user_selected filters u)) (users db)) db).

(** The page size of FastCRUD's [get_multi] for a caller that passes no
    [limit]. *)
Definition GET_MULTI_DEFAULT_LIMIT : nat := 100.

(** [crud_rate_limits.get_multi(db=db, tier_id=...)["data"]], called with
    neither [offset] nor [limit]: FastCRUD answers with its first page,
    the first [GET_MULTI_DEFAULT_LIMIT] rules of the tier, taken here in
    the order of the table. *)
Definition crud_rate_limits_get_multi (tier_id : nat)
  : M (list RateLimitRule.t) :=
  gets (fun db =>
    firstn GET_MULTI_DEFAULT_LIMIT
      (List.filter (fun r => Nat.eqb (RateLimitRule.tier_id r) tier_id)
         (rate_limits db))).

Definition read_user_me (current_user : User.t) : M User.t :=
  ret current_user.

(** The user and the value stored under ["tier_rate_limits"]. *)
Definition read_user_me_rate_limits (current_user : User.t)
  : M (User.t * list RateLimitRule.t) :=
  match User.tier_id current_user with
  | None => ret (current_user, [])
  | Some _ =>
      db_tier <- crud_tiers_get (User.tier_id current_user);;
      match db_tier with
      | None => raise (HTTPException NotFound "Tier not found")
      | Some db_tier =>
          db_rate_limits <- crud_rate_limits_get_multi (Tier.id db_tier);;
          ret (current_user, db_rate_limits)
      end
  end.

Definition read_user (username : string) : M User.t :=
  db_user <- crud_users_get [ByUsername username; ByIsDeleted false];;
  match db_user with
  | None => raise (HTTPException NotFound "User not found")
  | Some db_user => ret db_user
  end.

Definition delete_user (username : string) : M string :=
  db_user <- crud_users_get [ByUsername username];;
  match db_user with
  | None => raise (HTTPException NotFound "User not found")
  | Some _ =>
      crud_users_delete [ByUsername username];;
      ret "User deleted"
  end.

Definition delete_db_user (username : string) : M string :=
  db_user <- crud_users_exists [ByUsername username];;
  if negb db_user then raise (HTTPException NotFound "User not found")
  else
    crud_users_db_delete [ByUsername username];;
    ret "User deleted from the database".

(** [values] is the [tier_id] of the [UserTierUpdate] body. *)
Definition update_user_tier (username : string) (values : nat) : M string :=
  db_user <- crud_users_get [ByUsername username];;
  match db_user with
  | None => raise (HTTPException NotFound "User not found")
  | Some db_user =>
      db_tier <- crud_tiers_get (Some values);;
      match db_tier with
      | None => raise (HTTPException NotFound "Tier not found")
      | Some _ =>
          crud_users_update_tier values [ByUsername username];;
          ret ("User " +:+ User.name db_user +:+ " Tier updated")
      end
  end.

(** The superuser's calls, each behind its dependency. *)
Inductive AdminCall :=
| AdminCreateUser (user : UserCreate.t)
| AdminDeleteUser (username : string)
| AdminDeleteDbUser (username : string)
| AdminUpdateUserTier (username : string) (tier_id : nat).

Definition after_admin `{Platform} (now : Z) (token : string) (c : AdminCall)
    (w : World) : World :=
  match c with
  | AdminCreateUser u => (with_superuser now token (create_user u) w).2
  | AdminDeleteUser u => (with_superuser now token (delete_user u) w).2
  | AdminDeleteDbUser u => (with_superuser now token (delete_db_user u) w).2
  | AdminUpdateUserTier u t => (with_superuser now token (update_user_tier u t) w).2
  end.

(** What identifies a row, and the tables in which no two rows share any
    of id, username or email. *)
Definition unique_principals (w : World) : Prop :=
  NoDup (map User.id (users w)) /\
  NoDup (map User.username (users w)) /\
  NoDup (map User.email (users w)).

(** A computation that leads from a table without clashes to a table
    without clashes. *)
Definition keeps_unique {A} (m : M A) : Prop :=
  forall w, unique_principals w -> unique_principals (m w).2.

(* ===================================================================== *)
(** ** migrations/versions/cd7553a9a2fb_2_add_first_super_user.py *)
(* ===================================================================== *)

(** The [ADMIN_...] settings the migration reads. *)
Module Admin.
Record t := mk {
  name : string;
  username : string;
  email : string;
  password : string
}.
End Admin.

Section Migration.
Context `{Platform}.

(** [upgrade()]: nothing when some row is a superuser, else the insert of
    the administrator, active and not deleted; the database fills in the
    id and leaves tier and last login empty. *)
Definition upgrade (settings : Admin.t) : M unit :=
  existing_user <- gets (fun db => find User.is_superuser (users db));;
  match existing_user with
  | Some _ => ret tt
  | None =>
      hashed_password <- get_password_hash (Admin.password settings);;
      _ <- fresh;;
      modify (fun db =>
        with_users
          (users db ++
             [User.mk (next_id (users db)) (Admin.name settings)
                (Admin.username settings) (Admin.email settings) hashed_password
                true true None false None])
          db)
  end.

(** [downgrade()]: deletes the rows under the administrator's username. *)
Definition downgrade (settings : Admin.t) : M unit :=
  modify (fun db =>
    with_users
      (List.filter
         (fun u => negb (String.eqb (User.username u) (Admin.username settings)))
              (users db))
      db).

End Migration.

(* ===================================================================== *)
(** ** schemas/auth.py: the password pattern *)
(* ===================================================================== *)

(** The pieces the pattern is made of: the two anchors, and a set of
    characters repeated at least so many times ([+] is at least once). *)
Inductive Atom :=
| Bol
| Eol
| Many (least : nat) (member : ascii -> bool).

Definition is_digit (c : ascii) : bool :=
  let n := nat_of_ascii c in (Nat.leb 48 n && Nat.leb n 57)%bool.
Definition is_upper (c : ascii) : bool :=
  let n := nat_of_ascii c in (Nat.leb 65 n && Nat.leb n 90)%bool.
Definition is_lower (c : ascii) : bool :=
  let n := nat_of_ascii c in (Nat.leb 97 n && Nat.leb n 122)%bool.
Definition is_alnum (c : ascii) : bool := is_lower c || is_upper c || is_digit c.
(** [.]: anything but a line feed. *)
Definition is_dot (c : ascii) : bool := negb (Ascii.eqb c "010"%char).

(** [^.{8,}|[0-9]+|[A-Z]+|[a-z]+|[^a-zA-Z0-9]+$]: alternation binds
    loosest, so the anchors belong to the first and the last branch
    only. *)
Definition PASSWORD_PATTERN : list (list Atom) :=
  [ [Bol; Many 8 is_dot];
    [Many 1 is_digit];
    [Many 1 is_upper];
    [Many 1 is_lower];
    [Many 1 (fun c => negb (is_alnum c)); Eol] ].

(** Zero or more members of the set, then [k]. *)
Fixpoint star_set (member : ascii -> bool) (k : string -> bool) (s : string) : bool :=
  k s ||
  match s with
  | String c rest => member c && star_set member k rest
  | EmptyString => false
  end.

(** One or more members of the set past the first [least], then [k]. *)
Fixpoint at_least (least : nat) (member : ascii -> bool) (k : string -> bool)
    (s : string) : bool :=
  match least with
  | O => star_set member k s
  | S n =>
      match s with
      | String c rest => member c && at_least n member k rest
      | EmptyString => false
      end
  end.

(** Does the sequence match at the head of [s]?  [at_start] tells whether
    [s] is the whole text. *)
Fixpoint match_here (atoms : list Atom) (at_start : bool) (s : string) : bool :=
  match atoms with
  | [] => true
  | Bol :: rest => at_start && match_here rest at_start s
  | Eol :: rest => String.eqb s "" && match_here rest at_start s
  | Many O member :: rest =>
      match_here rest at_start s
      || match s with
         | String c tail => member c && star_set member (match_here rest false) tail
         | EmptyString => false
         end
  | Many (S n) member :: rest =>
      match s with
      | String c tail => member c && at_least n member (match_here rest false) tail
      | EmptyString => false
      end
  end.

Definition match_any (pattern : list (list Atom)) (at_start : bool) (s : string)
  : bool :=
  existsb (fun atoms => match_here atoms at_start s) pattern.

(** A match anywhere in the text: how the default engine of the
    validation library applies a pattern. *)
Fixpoint search_from (pattern : list (list Atom)) (at_start : bool) (s : string)
  : bool :=
  match_any pattern at_start s ||
  match s with
  | String _ rest => search_from pattern false rest
  | EmptyString => false
  end.

Definition pattern_search (pattern : list (list Atom)) (s : string) : bool :=
  search_from pattern true s.

(** A match at the head of the text: how [re.match] applies it. *)
Definition pattern_match (pattern : list (list Atom)) (s : string) : bool :=
  match_any pattern true s.

(* ===================================================================== *)
(** ** A second concrete platform, whose codec reads back a login *)
(* ===================================================================== *)

Module Lab.

(** The two tokens a login of alice at second 3200 produces: thirty
    minutes and seven days of life. *)
Definition claims_of (token : string) : option Claims.t :=
  if String.eqb token "access.alice"
  then Some (Claims.mk (Some "alice") (Some "access") (Some 5000))
  else if String.eqb token "refresh.alice"
  then Some (Claims.mk (Some "alice") (Some "refresh") (Some 608000))
  else None.

Definition decode (now : Z) (token : string) : JWTFailure + Claims.t :=
  match claims_of token with
  | Some c =>
      match Claims.exp c with
      | Some e => if e <? now then inl ExpiredSignature else inr c
      | None => inr c
      end
  | None => inl Malformed
  end.

Definition platform : Platform := {|
  jwt_encode := Demo.encode;
  jwt_decode := decode;
  bcrypt_checkpw := fun plain hashed => String.eqb ("$2b$" +:+ plain) hashed;
  bcrypt_hashpw := fun _ plain => "$2b$" +:+ plain;
  uuid4 := fun n => "uuid-" +:+ Demo.tally n;
  sanitize_path := fun p => p;
  ACCESS_TOKEN_EXPIRE_MINUTES := 30;
  REFRESH_TOKEN_EXPIRE_DAYS := 7;
  DEFAULT_LIMIT := 10%nat;
  DEFAULT_PERIOD := 3600;
  USER_DEFAULT_IS_ACTIVE := false;
  USER_DEFAULT_IS_SUPERUSER := false
|}.

(** The demo world with the cache out of reach. *)
Definition cache_down : World :=
  with_cache {| reachable := false; keyspace := keyspace (cache Demo.world) |}
    Demo.world.

(** The demo world with the queue out of reach. *)
Definition queue_down : World := {|
  users := users Demo.world;
  token_blacklist := token_blacklist Demo.world;
  tiers := tiers Demo.world;
  rate_limits := rate_limits Demo.world;
  cache := cache Demo.world;
  queue_reachable := false;
  queue_jobs := queue_jobs Demo.world;
  task_status := task_status Demo.world;
  background_tasks := background_tasks Demo.world;
  counters := counters Demo.world;
  entropy := entropy Demo.world
|}.

Definition dave : UserCreate.t :=
  UserCreate.mk "Dave" "dave" "d@x.com" "Str1ngst!".

Definition admin : Admin.t :=
  Admin.mk "Admin" "admin" "admin@x.com" "s3cret".

End Lab.

(* ===================================================================== *)
(** * Properties *)
(* ===================================================================== *)

Section Properties.
Context `{Platform}.

(** ** The blacklist only grows *)

Lemma keeps_ret {A} (a : A) : keeps_blacklist (ret a).
Proof. intros w. exists []. simpl. by rewrite app_nil_r. Qed.

Lemma keeps_raise {A} (e : PyException) : keeps_blacklist (@raise A e).
Proof. intros w. exists []. simpl. by rewrite app_nil_r. Qed.

Lemma keeps_gets {A} (f : World -> A) : keeps_blacklist (gets f).
Proof. intros w. exists []. simpl. by rewrite app_nil_r. Qed.

Lemma keeps_bind {A B} (m : M A) (k : A -> M B) :
  keeps_blacklist m -> (forall a, keeps_blacklist (k a)) ->
  keeps_blacklist (bind m k).
Proof.
  intros Hm Hk w. unfold bind.
  destruct (Hm w) as [e1 E1]. destruct (m w) as [[a|e] w1]; simpl in *.
  - destruct (Hk a w1) as [e2 E2]. exists (e1 ++ e2).
    by rewrite E2, E1, app_assoc.
  - by exists e1.
Qed.

Lemma keeps_try {A} (body handler : M A) :
  keeps_blacklist body -> keeps_blacklist handler ->
  keeps_blacklist (try_except_JWTError body handler).
Proof.
  intros Hb Hh w. unfold try_except_JWTError.
  destruct (Hb w) as [e1 E1]. destruct (body w) as [[a|e] w1]; simpl in *.
  - by exists e1.
  - destruct e; try by exists e1.
    destruct (Hh w1) as [e2 E2]. exists (e1 ++ e2).
    by rewrite E2, E1, app_assoc.
Qed.

(** An update of the world that leaves the blacklist field alone. *)
Lemma keeps_modify (f : World -> World) :
  (forall w, token_blacklist (f w) = token_blacklist w) ->
  keeps_blacklist (modify f).
Proof. intros Hf w. exists []. simpl. by rewrite Hf, app_nil_r. Qed.

Lemma keeps_fresh : keeps_blacklist fresh.
Proof. intros w. exists []. simpl. by rewrite app_nil_r. Qed.

Lemma keeps_blacklist_create e : keeps_blacklist (crud_token_blacklist_create e).
Proof. intros w. by exists [e]. Qed.

Lemma keeps_users_create o : keeps_blacklist (crud_users_create o).
Proof. intros w. exists []. simpl. by rewrite app_nil_r. Qed.

Lemma keeps_redis_set now k v ex : keeps_blacklist (RedisStorage_set now k v ex).
Proof.
  intros w. exists []. unfold RedisStorage_set.
  destruct (reachable (cache w)); simpl; [|by rewrite app_nil_r].
  destruct ex as [s|]; [destruct (s <=? 0)|]; simpl; by rewrite app_nil_r.
Qed.

Lemma keeps_redis_get now k d : keeps_blacklist (RedisStorage_get now k d).
Proof.
  intros w. exists []. unfold RedisStorage_get.
  destruct (reachable (cache w)), d; simpl; by rewrite app_nil_r.
Qed.

Lemma keeps_enqueue f kw : keeps_blacklist (redis_queue_enqueue f kw).
Proof.
  intros w. exists []. unfold redis_queue_enqueue.
  destruct (queue_reachable w); simpl; by rewrite app_nil_r.
Qed.

Lemma keeps_is_rate_limited now s p l d :
  keeps_blacklist (is_rate_limited now s p l d).
Proof. intros w. exists []. simpl. by rewrite app_nil_r. Qed.

Create HintDb keeps discriminated.
#[local] Hint Resolve keeps_ret keeps_raise keeps_gets keeps_fresh
  keeps_blacklist_create keeps_users_create keeps_redis_set keeps_redis_get
  keeps_enqueue keeps_is_rate_limited : keeps.

(** Walks down a handler: one rule per construct of the monad, a case
    split per branch of the source. *)
Ltac keeps_step :=
  match goal with
  | |- keeps_blacklist (bind _ _) => apply keeps_bind; [| intros ?]
  | |- keeps_blacklist (try_except_JWTError _ _) => apply keeps_try
  | |- keeps_blacklist (modify _) => apply keeps_modify; intros ?; reflexivity
  | |- keeps_blacklist (match ?x with _ => _ end) => destruct x
  | |- keeps_blacklist _ => solve [auto with keeps]
  end.

Ltac keeps := repeat keeps_step.

Lemma keeps_verify_token now t e : keeps_blacklist (verify_token now t e).
Proof.
  unfold verify_token, crud_token_blacklist_exists, jwt_decode_call. keeps.
Qed.

Lemma keeps_authenticate_user u p : keeps_blacklist (authenticate_user u p).
Proof. unfold authenticate_user, crud_users_get, verify_password. keeps. Qed.

Lemma keeps_blacklist_token now t : keeps_blacklist (blacklist_token now t).
Proof.
  unfold blacklist_token, jwt_decode_call, datetime_fromtimestamp. keeps.
Qed.

Lemma keeps_blacklist_tokens now a r : keeps_blacklist (blacklist_tokens now a r).
Proof.
  unfold blacklist_tokens, for_each, jwt_decode_call, datetime_fromtimestamp.
  keeps.
Qed.

Lemma keeps_create_verification_token now e t :
  keeps_blacklist (create_verification_token now e t).
Proof. unfold create_verification_token. keeps. Qed.

Lemma keeps_verify_token_from_redis now t ty :
  keeps_blacklist (verify_token_from_redis now t ty).
Proof. unfold verify_token_from_redis. keeps. Qed.

#[local] Hint Resolve keeps_verify_token keeps_authenticate_user
  keeps_blacklist_token keeps_blacklist_tokens keeps_create_verification_token
  keeps_verify_token_from_redis : keeps.

(** Every handler leaves the entries of the blacklist in place. *)
Lemma after_keeps_blacklist (c : Call) (w : World) :
  exists extra, token_blacklist (after c w) = token_blacklist w ++ extra.
Proof.
  destruct c; simpl;
    match goal with |- context [(?m w).2] => enough (keeps_blacklist m) by auto end.
  - unfold login_for_access_token, create_access_token, create_refresh_token,
      crud_users_update. keeps.
  - unfold refresh_access_token, create_access_token, create_refresh_token,
      crud_users_get. keeps.
  - unfold logout. keeps.
  - unfold register_user, crud_users_exists, get_password_hash. keeps.
  - unfold verify_account, crud_users_get, crud_users_update. keeps.
  - unfold request_password_reset, crud_users_get, add_task. keeps.
  - unfold reset_password, crud_users_get, crud_users_update, get_password_hash.
    keeps.
  - unfold delete_user_me, crud_users_delete. keeps.
  - unfold create_user, crud_users_exists, get_password_hash. keeps.
  - unfold rate_limiter_dependency, resolve_rate_limit, crud_tiers_get,
      crud_rate_limits_get. keeps.
Qed.

Lemma blacklisted_app token w extra w' :
  token_blacklist w' = token_blacklist w ++ extra ->
  blacklisted token w = true -> blacklisted token w' = true.
Proof.
  unfold blacklisted. intros -> Hb. rewrite existsb_app, Hb. reflexivity.
Qed.

Lemma blacklisted_after token c w :
  blacklisted token w = true -> blacklisted token (after c w) = true.
Proof.
  destruct (after_keeps_blacklist c w) as [extra E]. eauto using blacklisted_app.
Qed.

(** ** verify_token *)

(** The whole of [verify_token] as one expression: it answers without
    raising and without touching the world. *)
Lemma verify_token_eval now token expected db :
  verify_token now token expected db =
  (Return
     (if blacklisted token db then None
      else match jwt_decode now token with
           | inl _ => None
           | inr payload =>
               match Claims.sub payload with
               | None => None
               | Some subject =>
                   if claim_differs (Claims.token_type payload) expected then None
                   else Some {| username_or_email := subject |}
               end
           end),
   db).
Proof.
  unfold verify_token, crud_token_blacklist_exists, bind, gets, blacklisted.
  destruct (existsb _ _); [reflexivity|].
  unfold try_except_JWTError, jwt_decode_call, bind.
  destruct (jwt_decode now token) as [why|payload]; simpl; [reflexivity|].
  destruct (Claims.sub payload); [|reflexivity].
  destruct (claim_differs _ _); reflexivity.
Qed.

Lemma claim_differs_true token_type expected :
  token_type <> Some (TokenType_value expected) ->
  claim_differs token_type expected = true.
Proof.
  destruct token_type as [s|]; simpl; [|reflexivity].
  intros Hne. destruct (String.eqb_spec s (TokenType_value expected)); [|reflexivity].
  congruence.
Qed.

Lemma claim_differs_false token_type expected :
  claim_differs token_type expected = false ->
  token_type = Some (TokenType_value expected).
Proof.
  destruct token_type as [s|]; simpl; [|discriminate].
  destruct (String.eqb_spec s (TokenType_value expected)); [congruence|discriminate].
Qed.

(** The only way to get token data out of [verify_token]. *)
Lemma verify_token_Some now token expected db data w' :
  verify_token now token expected db = (Return (Some data), w') ->
  blacklisted token db = false /\
  exists payload,
    jwt_decode now token = inr payload /\
    Claims.sub payload = Some (username_or_email data) /\
    Claims.token_type payload = Some (TokenType_value expected).
Proof.
  rewrite verify_token_eval. intros [= E _].
  destruct (blacklisted token db); [discriminate|]. split; [reflexivity|].
  destruct (jwt_decode now token) as [|payload]; [discriminate|].
  exists payload. destruct (Claims.sub payload) as [s|]; [|discriminate].
  destruct (claim_differs _ _) eqn:Hd; [discriminate|].
  injection E as <-. eauto using claim_differs_false.
Qed.

(** ** Revocation *)

Lemma blacklisted_last token exp entries w :
  token_blacklist w = entries ++ [BlacklistEntry.mk token exp] ->
  blacklisted token w = true.
Proof.
  unfold blacklisted. intros ->. rewrite existsb_app. simpl.
  rewrite String.eqb_refl. by rewrite orb_true_r.
Qed.

Lemma blacklist_token_returns now token w w' :
  blacklist_token now token w = (Return tt, w') ->
  blacklisted token w' = true.
Proof.
  unfold blacklist_token, jwt_decode_call, datetime_fromtimestamp, bind.
  destruct (jwt_decode now token) as [|payload]; simpl; [discriminate|].
  destruct (Claims.exp payload) as [exp|]; simpl; [|discriminate].
  intros [= <-]. by eapply blacklisted_last.
Qed.

(** What one round of the loop of [blacklist_tokens] does. *)
Lemma blacklist_token_run now token w :
  blacklist_token now token w =
  match jwt_decode now token with
  | inl why => (Raise (JWTError why), w)
  | inr payload =>
      match Claims.exp payload with
      | None => (Raise TypeError, w)
      | Some exp =>
          (Return tt,
           with_token_blacklist
             (token_blacklist w ++ [BlacklistEntry.mk token exp]) w)
      end
  end.
Proof.
  unfold blacklist_token, jwt_decode_call, datetime_fromtimestamp, bind.
  destruct (jwt_decode now token) as [|payload]; simpl; [reflexivity|].
  destruct (Claims.exp payload); reflexivity.
Qed.

(** The loop is the single-token revocation, run on the access token and
    then on the refresh token. *)
Lemma blacklist_tokens_run now access_token refresh_token w :
  blacklist_tokens now access_token refresh_token w =
  match blacklist_token now access_token w with
  | (Return _, w1) => blacklist_token now refresh_token w1
  | (Raise e, w1) => (Raise e, w1)
  end.
Proof.
  unfold blacklist_tokens, for_each. fold (blacklist_token now access_token).
  fold (blacklist_token now refresh_token). unfold bind at 1.
  destruct (blacklist_token now access_token w) as [[[]|e] w1]; [|reflexivity].
  unfold bind, ret. destruct (blacklist_token now refresh_token w1) as [[[]|e] w2];
    reflexivity.
Qed.

Lemma logout_returns now refresh_data access_token msg w w' :
  logout now refresh_data access_token w = (Return msg, w') ->
  blacklisted access_token w' = true /\
  blacklisted (RefreshToken.refresh_token refresh_data) w' = true.
Proof.
  unfold logout, try_except_JWTError.
  destruct (str_truthy _); simpl; [|discriminate].
  unfold bind at 1. rewrite blacklist_tokens_run.
  destruct (blacklist_token now access_token w) as [[[]|e] w1] eqn:E1.
  - destruct (blacklist_token now _ w1) as [[[]|e] w2] eqn:E2.
    + intros [= _ <-]. split; [|by eapply blacklist_token_returns].
      apply blacklist_token_returns in E1.
      rewrite blacklist_token_run in E2.
      destruct (jwt_decode now _) as [|p]; [discriminate|].
      destruct (Claims.exp p); [|discriminate]. injection E2 as <-.
      eapply blacklisted_app; [|exact E1]. reflexivity.
    + destruct e; discriminate.
  - destruct e; discriminate.
Qed.

Lemma delete_user_me_returns now current_user token msg w w' :
  delete_user_me now current_user token w = (Return msg, w') ->
  blacklisted token w' = true.
Proof.
  unfold delete_user_me, crud_users_delete, modify. unfold bind at 1.
  unfold bind at 1.
  destruct (blacklist_token now token _) as [[[]|e] w1] eqn:E; [|discriminate].
  intros [= _ <-]. by eapply blacklist_token_returns.
Qed.

Lemma revoked_blacklisted token w :
  revoked token w -> blacklisted token w = true.
Proof.
  induction 1
    as [w Hb|now rd a msg w w' Hrun [->| ->]|now u msg w w' Hrun|c w _ IH].
  - exact Hb.
  - by apply logout_returns in Hrun as [? _].
  - by apply logout_returns in Hrun as [_ ?].
  - by eapply delete_user_me_returns.
  - by apply blacklisted_after.
Qed.

(** C1: a token revoked by logout or by the deletion of the account is
    never verified again, whatever type is expected, whenever it is
    presented and whether or not it would still decode: the existence
    check on the blacklist comes first. *)
Theorem revoked_token_never_verifies (token : string) (db : World)
    (later : Z) (expected : TokenType) :
  revoked token db ->
  verify_token later token expected db = (Return None, db).
Proof.
  intros Hrev. rewrite verify_token_eval.
  by rewrite (revoked_blacklisted _ _ Hrev).
Qed.

(** C6: whatever makes the verification fail (a blacklist entry, a bad
    signature, an expired or malformed token, a missing subject, a
    declared type other than the expected one), the answer is the same
    [None] and nothing else; a token of the wrong type never verifies. *)
Theorem verify_token_fails_uniformly (now : Z) (token : string)
    (expected : TokenType) (db : World) :
  failure_cause now token expected db ->
  verify_token now token expected db = (Return None, db).
Proof.
  intros Hcause. rewrite verify_token_eval.
  destruct (blacklisted token db) eqn:Hb; [reflexivity|].
  destruct Hcause as [Hb'|why E|payload E Hs|payload E Ht].
  - congruence.
  - by rewrite E.
  - by rewrite E, Hs.
  - rewrite E. destruct (Claims.sub payload); [|reflexivity].
    by rewrite claim_differs_true.
Qed.

(** Nothing but those causes makes it fail. *)
Lemma verify_token_None_cause now token expected db w' :
  verify_token now token expected db = (Return None, w') ->
  failure_cause now token expected db.
Proof.
  rewrite verify_token_eval. intros [= E _].
  destruct (blacklisted token db) eqn:Hb; [by apply cause_blacklisted|].
  destruct (jwt_decode now token) as [why|payload] eqn:Ed;
    [by eapply cause_rejected|].
  destruct (Claims.sub payload) as [s|] eqn:Es; [|by eapply cause_no_subject].
  destruct (claim_differs _ _) eqn:Hd; [|discriminate].
  eapply cause_wrong_type; [exact Ed|]. intros Ht. rewrite Ht in Hd.
  simpl in Hd. by rewrite String.eqb_refl in Hd.
Qed.

(** What a logout does, case by case: the revocations run in order, the
    first failure ends the call, and what was recorded before it stays. *)
Lemma logout_run now refresh_data access_token w :
  logout now refresh_data access_token w =
  let refresh_token := RefreshToken.refresh_token refresh_data in
  if negb (str_truthy refresh_token)
  then (Raise (HTTPException Unauthorized "Refresh token not found"), w)
  else
    match jwt_decode now access_token with
    | inl _ => (Raise (HTTPException Unauthorized "Invalid token."), w)
    | inr access_payload =>
        match Claims.exp access_payload with
        | None => (Raise TypeError, w)
        | Some access_exp =>
            let w1 :=
              with_token_blacklist
                (token_blacklist w ++ [BlacklistEntry.mk access_token access_exp]) w in
            match jwt_decode now refresh_token with
            | inl _ => (Raise (HTTPException Unauthorized "Invalid token."), w1)
            | inr refresh_payload =>
                match Claims.exp refresh_payload with
                | None => (Raise TypeError, w1)
                | Some refresh_exp =>
                    (Return "Logged out successfully",
                     with_token_blacklist
                       (token_blacklist w ++
                          [BlacklistEntry.mk access_token access_exp;
                           BlacklistEntry.mk refresh_token refresh_exp]) w)
                end
            end
        end
    end.
Proof.
  unfold logout, try_except_JWTError. cbv zeta.
  destruct (str_truthy _); cbn [negb]; [|reflexivity].
  unfold bind at 1. rewrite blacklist_tokens_run, blacklist_token_run.
  destruct (jwt_decode now access_token) as [|pa]; [reflexivity|].
  destruct (Claims.exp pa) as [ea|]; [|reflexivity].
  rewrite blacklist_token_run.
  destruct (jwt_decode now _) as [|pr]; [reflexivity|].
  destruct (Claims.exp pr) as [er|]; [|reflexivity].
  unfold ret, with_token_blacklist. cbn [token_blacklist].
  by rewrite <- app_assoc.
Qed.

(** C7: a logout with two tokens that can be revoked answers "Logged out
    successfully" and appends both to the blacklist, the access token
    first; it reports success in no other case, so a returned logout means
    two new entries, one for each presented token; and when the access
    token can be revoked and the refresh token cannot (it does not decode,
    or it carries no expiry), the logout raises (a decoding failure as
    Unauthorized "Invalid token."), the refresh token is not recorded, and
    the entry for the access token stays. *)
Theorem logout_success_needs_both (now : Z) (refresh_data : RefreshToken.t)
    (access_token : string) (w : World) :
  (forall access_payload access_exp refresh_payload refresh_exp,
      str_truthy (RefreshToken.refresh_token refresh_data) = true ->
      jwt_decode now access_token = inr access_payload ->
      Claims.exp access_payload = Some access_exp ->
      jwt_decode now (RefreshToken.refresh_token refresh_data) = inr refresh_payload ->
      Claims.exp refresh_payload = Some refresh_exp ->
      exists w',
        logout now refresh_data access_token w =
          (Return "Logged out successfully", w') /\
        w' = with_token_blacklist
               (token_blacklist w ++
                  [BlacklistEntry.mk access_token access_exp;
                   BlacklistEntry.mk (RefreshToken.refresh_token refresh_data)
                     refresh_exp]) w /\
        blacklisted access_token w' = true /\
        blacklisted (RefreshToken.refresh_token refresh_data) w' = true) /\
  (forall msg w',
      logout now refresh_data access_token w = (Return msg, w') ->
      msg = "Logged out successfully" /\
      (exists access_exp refresh_exp,
          token_blacklist w' =
            token_blacklist w ++
              [BlacklistEntry.mk access_token access_exp;
               BlacklistEntry.mk (RefreshToken.refresh_token refresh_data)
                 refresh_exp]) /\
      blacklisted access_token w' = true /\
      blacklisted (RefreshToken.refresh_token refresh_data) w' = true) /\
  (forall access_payload access_exp,
      str_truthy (RefreshToken.refresh_token refresh_data) = true ->
      jwt_decode now access_token = inr access_payload ->
      Claims.exp access_payload = Some access_exp ->
      (forall refresh_payload,
          jwt_decode now (RefreshToken.refresh_token refresh_data)
            = inr refresh_payload ->
          Claims.exp refresh_payload = None) ->
      exists w',
        logout now refresh_data access_token w =
          (Raise match jwt_decode now (RefreshToken.refresh_token refresh_data) with
                 | inl _ => HTTPException Unauthorized "Invalid token."
                 | inr _ => TypeError
                 end,
           w') /\
        w' = with_token_blacklist
               (token_blacklist w ++ [BlacklistEntry.mk access_token access_exp]) w /\
        blacklisted access_token w' = true /\
        blacklisted (RefreshToken.refresh_token refresh_data) w'
          = blacklisted (RefreshToken.refresh_token refresh_data) w).
Proof.
  split; [|split].
  - intros pa ea pr er Hsupplied Ha Hea Hr Her.
    eexists. split; [|split; [reflexivity|]].
    + rewrite logout_run. cbv zeta. by rewrite Hsupplied, Ha, Hea, Hr, Her.
    + unfold blacklisted. cbn [token_blacklist with_token_blacklist].
      rewrite !existsb_app. cbn [existsb]. rewrite !String.eqb_refl.
      by rewrite !orb_true_r.
  - intros msg w'. rewrite logout_run. cbv zeta.
    destruct (str_truthy _); cbn [negb]; [|discriminate].
    destruct (jwt_decode now access_token) as [|pa]; [discriminate|].
    destruct (Claims.exp pa) as [ea|]; [|discriminate].
    destruct (jwt_decode now _) as [|pr]; [discriminate|].
    destruct (Claims.exp pr) as [er|]; [|discriminate].
    intros [= <- <-]. split; [reflexivity|]. split; [by exists ea, er|].
    unfold blacklisted. cbn [token_blacklist with_token_blacklist].
    rewrite !existsb_app. cbn [existsb]. rewrite !String.eqb_refl.
    by rewrite !orb_true_r.
  - intros pa ea Hsupplied Ha Hea Hbad.
    eexists. split; [|split; [reflexivity|]].
    + rewrite logout_run. cbv zeta. rewrite Hsupplied, Ha, Hea. cbn [negb].
      destruct (jwt_decode now (RefreshToken.refresh_token refresh_data))
        as [|pr]; [reflexivity|].
      by rewrite (Hbad pr eq_refl).
    + unfold blacklisted. cbn [token_blacklist with_token_blacklist].
      rewrite !existsb_app. cbn [existsb]. rewrite String.eqb_refl.
      split; [by rewrite orb_true_r|].
      cbn [BlacklistEntry.token].
      destruct (String.eqb_spec access_token
                  (RefreshToken.refresh_token refresh_data)) as [Heq|Hne].
      * rewrite <- Heq in Hbad. specialize (Hbad pa Ha). congruence.
      * by rewrite !orb_false_r.
Qed.

(** ** One-time codes *)

Lemma redis_value_delete now key up (keys : gmap string (string * option Z)) :
  redis_value now key {| reachable := up; keyspace := delete key keys |} = None.
Proof. unfold redis_value. simpl. by rewrite lookup_delete_eq. Qed.


(** The three steps of a code's life, for a positive time to live. *)
Lemma code_life_cycle now first key value ttl w :
  reachable (cache w) = true ->
  0 < ttl ->
  first < now + ttl ->
  exists w1 w2,
    RedisStorage_set now key value (Some ttl) w = (Return true, w1) /\
    RedisStorage_get first key true w1 = (Return (Some value), w2) /\
    forall second, RedisStorage_get second key true w2 = (Return None, w2).
Proof.
  intros Hup Hpos Hlive.
  unfold RedisStorage_set. rewrite Hup. cbn [negb].
  replace (ttl <=? 0) with false by (symmetry; apply Z.leb_gt; lia).
  eexists. eexists. split; [reflexivity|]. split.
  - unfold RedisStorage_get, redis_value. simpl.
    rewrite lookup_insert_eq. unfold redis_live. simpl.
    replace (first <? now + ttl) with true by (symmetry; apply Z.ltb_lt; lia).
    reflexivity.
  - intros second. unfold RedisStorage_get. simpl.
    rewrite redis_value_delete. f_equal. unfold with_cache. simpl.
    by rewrite delete_delete_eq.
Qed.

(** The same at the level of security.py: a code issued for a non-empty
    address is accepted once, while its whole seconds last, and never
    again. *)
Lemma verification_code_single_use now first email token_type w :
  reachable (cache w) = true ->
  str_truthy email = true ->
  first < now + match token_type with
                | RESET_PASSWORD => minutes RESET_PASSWORD_EXPIRE_MINUTES - 1
                | _ => days VERIFY_ACCOUNT_EXPIRE_DAYS - 1
                end ->
  exists token w1 w2,
    create_verification_token now email token_type w = (Return token, w1) /\
    verify_token_from_redis first token token_type w1 = (Return (Some email), w2) /\
    forall second,
      verify_token_from_redis second token token_type w2 = (Return None, w2).
Proof.
  intros Hup Hemail Hlive.
  set (ttl := match token_type with
              | RESET_PASSWORD => minutes RESET_PASSWORD_EXPIRE_MINUTES - 1
              | _ => days VERIFY_ACCOUNT_EXPIRE_DAYS - 1
              end) in *.
  assert (0 < ttl) as Hpos
    by (unfold ttl, minutes, days, RESET_PASSWORD_EXPIRE_MINUTES,
          VERIFY_ACCOUNT_EXPIRE_DAYS; destruct token_type; lia).
  set (key := TokenType_format token_type +:+ ":" +:+ uuid4 (entropy w)).
  set (w0 := with_entropy (S (entropy w)) w).
  destruct (code_life_cycle now first key email ttl w0)
    as (w1 & w2 & Hset & Hget & Hgone); [exact Hup|lia|lia|].
  exists (uuid4 (entropy w)), w1, w2. split; [|split].
  - unfold create_verification_token, fresh, bind at 1.
    replace (seconds_left now
               match token_type with
               | RESET_PASSWORD => now + minutes RESET_PASSWORD_EXPIRE_MINUTES
               | _ => now + days VERIFY_ACCOUNT_EXPIRE_DAYS
               end) with ttl
      by (unfold ttl, seconds_left; destruct token_type; lia).
    fold key w0. unfold bind. rewrite Hset. reflexivity.
  - unfold verify_token_from_redis, bind. fold key. rewrite Hget.
    cbn [opt_str_truthy]. by rewrite Hemail.
  - intros second. unfold verify_token_from_redis, bind. fold key.
    by rewrite Hgone.
Qed.

(** ** Lookups in the user table *)

Lemma find_pointwise {A} (p q : A -> bool) (l : list A) :
  (forall x, p x = q x) -> find p l = find q l.
Proof.
  intros E. induction l as [|x l IH]; simpl; [reflexivity|].
  rewrite E, IH. reflexivity.
Qed.

(** A row-wise rewrite that does not move rows in or out of a selection
    commutes with taking the first selected row. *)
Lemma find_map_stable {A} (p : A -> bool) (f : A -> A) (l : list A) :
  (forall x, p (f x) = p x) -> find p (map f l) = option_map f (find p l).
Proof.
  intros E. induction l as [|x l IH]; simpl; [reflexivity|].
  rewrite E. destruct (p x); [reflexivity|exact IH].
Qed.

Lemma find_None_all {A} (p : A -> bool) (l : list A) :
  (forall x, In x l -> p x = false) -> find p l = None.
Proof.
  induction l as [|x l IH]; simpl; intros Hall; [reflexivity|].
  rewrite (Hall x) by auto. auto.
Qed.

Lemma find_existsb_false {A} (p : A -> bool) (l : list A) :
  existsb p l = false -> find p l = None.
Proof.
  induction l as [|x l IH]; simpl; [reflexivity|].
  destruct (p x); simpl; [discriminate|exact IH].
Qed.

Lemma find_existsb_true {A} (p : A -> bool) (l : list A) :
  existsb p l = true -> exists x, find p l = Some x.
Proof.
  induction l as [|x l IH]; simpl; [discriminate|].
  destruct (p x); simpl; eauto.
Qed.

Lemma selected_by_email email u :
  user_selected [ByEmail email] u = String.eqb (User.email u) email.
Proof. unfold user_selected. simpl. apply andb_true_r. Qed.

Lemma selected_by_username username u :
  user_selected [ByUsername username] u = String.eqb (User.username u) username.
Proof. unfold user_selected. simpl. apply andb_true_r. Qed.

Lemma selected_by_id i u :
  user_selected [ById i] u = Nat.eqb (User.id u) i.
Proof. unfold user_selected. simpl. apply andb_true_r. Qed.

Lemma selected_live key u :
  user_selected [key; ByIsDeleted false] u =
  user_matches u key && negb (User.is_deleted u).
Proof.
  unfold user_selected. simpl. rewrite andb_true_r.
  by destruct (User.is_deleted u).
Qed.

Lemma find_live_principal s db :
  find (user_selected [login_key s; ByIsDeleted false]) (users db) =
  principal_for s db.
Proof. apply find_pointwise, selected_live. Qed.

Lemma principal_for_deleted s db :
  (forall u, In u (users db) -> user_matches u (login_key s) = true ->
             User.is_deleted u = true) ->
  principal_for s db = None.
Proof.
  intros Hdel. apply find_None_all. intros u Hin.
  destruct (user_matches u (login_key s)) eqn:Hm; [|reflexivity].
  by rewrite (Hdel u Hin Hm).
Qed.

(** ** Verify-account *)

Lemma verify_token_from_redis_eval now token token_type w :
  verify_token_from_redis now token token_type w =
  if reachable (cache w)
  then
    let value := redis_value now (code_key token_type token) (cache w) in
    (Return (if opt_str_truthy value then value else None),
     with_cache {| reachable := true;
                   keyspace := delete (code_key token_type token)
                                 (keyspace (cache w)) |} w)
  else (Return None, w).
Proof.
  unfold verify_token_from_redis, RedisStorage_get, bind, code_key.
  destruct (reachable (cache w)); simpl; [|reflexivity].
  destruct (opt_str_truthy _); reflexivity.
Qed.

Lemma verify_account_eval now verification w :
  verify_account now verification w =
  match verify_token_from_redis now (EmailVerification.token verification)
          VERIFY_ACCOUNT w with
  | (Return (Some email), w0) =>
      match find (user_selected [ByEmail email]) (users w0) with
      | Some user =>
          if User.is_active user then (Return "Account already verified", w0)
          else (Return "Account verified successfully",
                with_users
                  (map (fun u => if user_selected [ById (User.id user)] u
                                 then apply_patch (SetIsActive true) u else u)
                       (users w0))
                  w0)
      | None => (Raise (HTTPException NotFound "User not found"), w0)
      end
  | (Return None, w0) =>
      (Raise (HTTPException BadRequest "Invalid or expired verification token"), w0)
  | (Raise e, w0) => (Raise e, w0)
  end.
Proof.
  unfold verify_account, bind.
  destruct (verify_token_from_redis _ _ _ w) as [[[email|]|e] w0]; try reflexivity.
  unfold crud_users_get, gets.
  destruct (find _ (users w0)) as [user|]; [|reflexivity].
  destruct (User.is_active user); reflexivity.
Qed.

(** Once the code is gone, the request is refused and nothing changes. *)
Lemma verify_account_code_gone now verification w :
  reachable (cache w) = true ->
  keyspace (cache w) !! code_key VERIFY_ACCOUNT (EmailVerification.token verification)
    = None ->
  verify_account now verification w =
    (Raise (HTTPException BadRequest "Invalid or expired verification token"), w).
Proof.
  intros Hup Hgone. rewrite verify_account_eval, verify_token_from_redis_eval, Hup.
  unfold redis_value. rewrite Hgone. cbn [opt_str_truthy]. f_equal.
  rewrite delete_id by exact Hgone.
  destruct w as [? ? ? ? [up keys] ? ? ? ? ? ?]. simpl in Hup. by subst up.
Qed.

(** C3, as the code has it: a verify-account with a live code of a
    registered address succeeds, leaves the principal active (changing
    nothing when it already was) and dispatches no notification; it
    consumes the code, so the same verify-account repeated is answered
    with BadRequest, at whatever time. *)
Theorem verify_account_consumes_code (now : Z)
    (verification : EmailVerification.t) (w : World) (email : string)
    (user : User.t) :
  reachable (cache w) = true ->
  redis_value now (code_key VERIFY_ACCOUNT (EmailVerification.token verification))
    (cache w) = Some email ->
  str_truthy email = true ->
  find (user_selected [ByEmail email]) (users w) = Some user ->
  exists w1,
    verify_account now verification w =
      (Return (if User.is_active user then "Account already verified"
               else "Account verified successfully"), w1) /\
    (User.is_active user = true -> users w1 = users w) /\
    (exists user',
        find (user_selected [ByEmail email]) (users w1) = Some user' /\
        User.id user' = User.id user /\
        User.is_active user' = true) /\
    queue_jobs w1 = queue_jobs w /\
    background_tasks w1 = background_tasks w /\
    forall later,
      verify_account later verification w1 =
        (Raise (HTTPException BadRequest "Invalid or expired verification token"),
         w1).
Proof.
  intros Hup Hcode Hemail Hfind.
  rewrite verify_account_eval, verify_token_from_redis_eval, Hup.
  cbv zeta. rewrite Hcode. cbn [opt_str_truthy]. rewrite Hemail.
  change (users (with_cache _ w)) with (users w). rewrite Hfind.
  destruct (User.is_active user) eqn:Hactive.
  - eexists. split; [reflexivity|].
    split; [reflexivity|]. split; [by exists user|].
    split; [reflexivity|]. split; [reflexivity|].
    intros later. apply verify_account_code_gone; [reflexivity|].
    apply lookup_delete_eq.
  - eexists. split; [reflexivity|].
    split; [discriminate|]. split.
    + change (users (with_users ?us _)) with us.
      rewrite find_map_stable, Hfind.
      * eexists. split; [reflexivity|].
        rewrite selected_by_id, Nat.eqb_refl. by split.
      * intros u. rewrite !selected_by_email.
        by destruct (user_selected _ u).
    + split; [reflexivity|]. split; [reflexivity|].
      intros later. apply verify_account_code_gone; [reflexivity|].
      apply lookup_delete_eq.
Qed.

(** ** Request-password-reset *)

Lemma registered_find email db :
  find (user_selected [ByEmail email]) (users db) =
  find (fun u => String.eqb (User.email u) email) (users db).
Proof. apply find_pointwise. intros u. apply selected_by_email. Qed.

(** C5: the answer to a password-reset request is the same message
    whether or not the address is registered, and for an unregistered
    address the world is left exactly as it was: no code in the cache,
    no background task, no job. *)
Theorem password_reset_enumeration_safe (now1 now2 : Z)
    (request1 request2 : PasswordResetRequest.t) (db1 db2 : World) :
  registered (PasswordResetRequest.email request1) db1 = true ->
  registered (PasswordResetRequest.email request2) db2 = false ->
  (request_password_reset now1 request1 db1).1 =
    (request_password_reset now2 request2 db2).1 /\
  request_password_reset now2 request2 db2 =
    (Return "If your email is registered, you will receive password reset instructions",
     db2) /\
  keyspace (cache (request_password_reset now2 request2 db2).2) = keyspace (cache db2) /\
  background_tasks (request_password_reset now2 request2 db2).2 = background_tasks db2 /\
  queue_jobs (request_password_reset now2 request2 db2).2 = queue_jobs db2.
Proof.
  intros Hreg Hunreg.
  assert (request_password_reset now2 request2 db2 =
    (Return "If your email is registered, you will receive password reset instructions",
     db2)) as Hrun2.
  { unfold request_password_reset, bind, crud_users_get, gets.
    rewrite registered_find, find_existsb_false by exact Hunreg. reflexivity. }
  rewrite Hrun2. repeat split.
  unfold request_password_reset, bind at 1, crud_users_get, gets.
  rewrite registered_find.
  destruct (find_existsb_true _ _ Hreg) as [user ->].
  unfold create_verification_token, fresh, RedisStorage_set, add_task, modify, bind, ret.
  cbn [cache with_entropy reachable].
  destruct (reachable (cache db1)); cbn [negb]; [|reflexivity].
  destruct (_ <=? 0); reflexivity.
Qed.

(** In the registered run, with the cache reachable, a code is stored
    and one task is scheduled: the two runs differ in their effects
    only. *)
Lemma password_reset_registered_effects now request db user :
  find (user_selected [ByEmail (PasswordResetRequest.email request)]) (users db)
    = Some user ->
  reachable (cache db) = true ->
  exists db',
    request_password_reset now request db =
      (Return "If your email is registered, you will receive password reset instructions",
       db') /\
    redis_value now (code_key RESET_PASSWORD (uuid4 (entropy db))) (cache db')
      = Some (User.email user) /\
    background_tasks db' =
      background_tasks db ++
        [BackgroundTask.mk "send_verification_email"
           [("email", User.email user); ("name", User.name user);
            ("verification_code", uuid4 (entropy db))]].
Proof.
  intros Hfind Hup.
  unfold request_password_reset, bind at 1, crud_users_get, gets. rewrite Hfind.
  unfold create_verification_token, fresh, RedisStorage_set, add_task, modify, bind, ret.
  cbn [cache with_entropy]. rewrite Hup. cbn [negb].
  replace (seconds_left now (now + minutes RESET_PASSWORD_EXPIRE_MINUTES)) with 1799
    by (unfold seconds_left, minutes, RESET_PASSWORD_EXPIRE_MINUTES; lia).
  cbn. eexists. split; [reflexivity|]. split; [|reflexivity].
  unfold redis_value, code_key. cbn. rewrite lookup_insert_eq.
  unfold redis_live. cbn.
  replace (now <? now + 1799) with true by (symmetry; apply Z.ltb_lt; lia).
  reflexivity.
Qed.

(** ** Login *)

Lemma authenticate_user_eval username_or_email password db :
  authenticate_user username_or_email password db =
  (Return match principal_for username_or_email db with
          | Some u =>
              if bcrypt_checkpw password (User.hashed_password u) then Some u
              else None
          | None => None
          end,
   db).
Proof.
  unfold authenticate_user, bind at 1.
  assert ((if contains_at username_or_email
           then crud_users_get [ByEmail username_or_email; ByIsDeleted false]
           else crud_users_get [ByUsername username_or_email; ByIsDeleted false]) db
          = (Return (principal_for username_or_email db), db)) as ->.
  { rewrite <- find_live_principal. unfold login_key, crud_users_get, gets.
    by destruct (contains_at username_or_email). }
  destruct (principal_for username_or_email db) as [u|]; [|reflexivity].
  unfold verify_password, bind, ret.
  by destruct (bcrypt_checkpw _ _).
Qed.

Lemma login_eval now username password db :
  login_for_access_token now username password db =
  match principal_for username db with
  | Some u =>
      if bcrypt_checkpw password (User.hashed_password u) then
        if User.is_active u then
          (Return
             (Token.mk
                (jwt_encode (update_claims (sub_only (User.username u))
                               (now + timedelta_or
                                        (Some (minutes ACCESS_TOKEN_EXPIRE_MINUTES))
                                        (minutes ACCESS_TOKEN_EXPIRE_MINUTES))
                               ACCESS))
                (jwt_encode (update_claims (sub_only (User.username u))
                               (now + days REFRESH_TOKEN_EXPIRE_DAYS) REFRESH))
                "bearer"),
           with_users
             (map (fun r => if user_selected [ById (User.id u)] r
                            then apply_patch (SetLastLogin now) r else r)
                  (users db))
             db)
        else (Raise not_activated, db)
      else (Raise wrong_credentials, db)
  | None => (Raise wrong_credentials, db)
  end.
Proof.
  unfold login_for_access_token, bind at 1. rewrite authenticate_user_eval.
  destruct (principal_for username db) as [u|]; [|reflexivity].
  destruct (bcrypt_checkpw _ _); [|reflexivity].
  destruct (User.is_active u); reflexivity.
Qed.

(** C8: bad credentials (no such principal, a soft-deleted one, or a
    wrong password) all get the one generic Unauthorized answer; right
    credentials of an account that is not active get the distinct
    account-not-activated answer; and the principal is looked up by email
    when the name contains an at sign, by username otherwise, among the
    rows that are not soft-deleted. *)
Theorem login_rejections (now : Z) (username password : string) (db : World) :
  (bad_credentials username password db ->
   login_for_access_token now username password db = (Raise wrong_credentials, db)) /\
  (forall u,
      principal_for username db = Some u ->
      bcrypt_checkpw password (User.hashed_password u) = true ->
      User.is_active u = false ->
      login_for_access_token now username password db = (Raise not_activated, db)) /\
  not_activated <> wrong_credentials /\
  (authenticate_user username password db).1 =
    Return (u ← find (user_selected
                        [if contains_at username then ByEmail username
                         else ByUsername username;
                         ByIsDeleted false])
                     (users db);
            if bcrypt_checkpw password (User.hashed_password u) then Some u
            else None).
Proof.
  split; [|split; [|split]].
  - intros Hbad. rewrite login_eval.
    destruct Hbad as [Habsent|Hdel|u Hu Hpw].
    + rewrite principal_for_deleted; [reflexivity|].
      intros u Hin Hm. rewrite (Habsent u Hin) in Hm. discriminate.
    + by rewrite principal_for_deleted.
    + by rewrite Hu, Hpw.
  - intros u Hu Hpw Hinactive. rewrite login_eval. by rewrite Hu, Hpw, Hinactive.
  - discriminate.
  - rewrite authenticate_user_eval. cbn [fst]. f_equal.
    fold (login_key username). rewrite find_live_principal.
    by destruct (principal_for username db).
Qed.

(** ** Rate-limit resolution *)

(** The dependency hands exactly the resolved triple, and the sanitized
    path, to the limiter. *)
Lemma rate_limiter_dependency_run now request user db subject limit period :
  resolve_rate_limit request (sanitize_path (Request.url_path request)) user db
    = (Return (subject, limit, period), db) ->
  rate_limiter_dependency now request user db =
  match is_rate_limited now subject (sanitize_path (Request.url_path request))
          limit period db with
  | (Return true, w') => (Raise (HTTPException RateLimit "Rate limit exceeded."), w')
  | (Return false, w') => (Return tt, w')
  | (Raise e, w') => (Raise e, w')
  end.
Proof.
  intros Hres. unfold rate_limiter_dependency, bind at 1. rewrite Hres.
  unfold bind. destruct (is_rate_limited _ _ _ _ _ db) as [[[]|e] w']; reflexivity.
Qed.

(** C9: the rule of the user's tier for exactly this path when both the
    tier and the rule exist; the process-wide default, and no error, when
    the user has no tier, the tier is not found or it has no rule for the
    path; the default, keyed by the client's address, for a caller that
    is not authenticated.  The dependency resolves on the sanitized path
    and limits with what was resolved. *)
Theorem rate_limit_resolution (now : Z) (request : Request.t) (path : string)
    (user : option User.t) (db : World) :
  (forall u tier rule,
      user = Some u ->
      crud_tiers_get (User.tier_id u) db = (Return (Some tier), db) ->
      crud_rate_limits_get (Tier.id tier) path db = (Return (Some rule), db) ->
      resolve_rate_limit request path user db =
        (Return (inl (User.id u), RateLimitRule.limit rule, RateLimitRule.period rule),
         db)) /\
  (forall u,
      user = Some u ->
      User.tier_id u = None \/
      crud_tiers_get (User.tier_id u) db = (Return None, db) \/
      (exists tier,
          crud_tiers_get (User.tier_id u) db = (Return (Some tier), db) /\
          crud_rate_limits_get (Tier.id tier) path db = (Return None, db)) ->
      resolve_rate_limit request path user db =
        (Return (inl (User.id u), DEFAULT_LIMIT, DEFAULT_PERIOD), db)) /\
  (user = None ->
   resolve_rate_limit request path user db =
     (Return (inr (Request.client_host request), DEFAULT_LIMIT, DEFAULT_PERIOD), db)) /\
  (forall subject limit period,
      resolve_rate_limit request (sanitize_path (Request.url_path request)) user db
        = (Return (subject, limit, period), db) ->
      rate_limiter_dependency now request user db =
      match is_rate_limited now subject (sanitize_path (Request.url_path request))
              limit period db with
      | (Return true, w') =>
          (Raise (HTTPException RateLimit "Rate limit exceeded."), w')
      | (Return false, w') => (Return tt, w')
      | (Raise e, w') => (Raise e, w')
      end).
Proof.
  split; [|split; [|split]].
  - intros u tier rule -> Htier Hrule.
    unfold resolve_rate_limit, bind at 1. rewrite Htier.
    unfold bind. by rewrite Hrule.
  - intros u -> [Hnone|[Htier|(tier & Htier & Hrule)]].
    + unfold resolve_rate_limit, bind, crud_tiers_get, gets. by rewrite Hnone.
    + unfold resolve_rate_limit, bind. by rewrite Htier.
    + unfold resolve_rate_limit, bind at 1. rewrite Htier.
      unfold bind. by rewrite Hrule.
  - by intros ->.
  - intros subject limit period. apply rate_limiter_dependency_run.
Qed.

(** ** Refresh and soft-deleted principals *)

Lemma principal_for_username_deleted username db :
  contains_at username = false ->
  (forall q, In q (users db) -> User.username q = username ->
             User.is_deleted q = true) ->
  principal_for username db = None.
Proof.
  intros Hat Hdel. apply principal_for_deleted. intros u Hin.
  unfold login_key. rewrite Hat. simpl. intros Hm.
  apply Hdel; [exact Hin|]. by apply String.eqb_eq.
Qed.

Lemma get_current_user_eval now token db :
  get_current_user now token db =
  match verify_token now token ACCESS db with
  | (Return (Some token_data), _) =>
      match principal_for (username_or_email token_data) db with
      | Some user =>
          if User.is_active user then (Return user, db)
          else (Raise not_activated, db)
      | None =>
          (Raise (HTTPException Unauthorized "User not found or has been deleted."),
           db)
      end
  | _ => (Raise (HTTPException Unauthorized "User not authenticated."), db)
  end.
Proof.
  unfold get_current_user, bind at 1. rewrite verify_token_eval.
  destruct (if blacklisted token db then _ else _) as [token_data|]; [|reflexivity].
  unfold bind.
  assert ((if contains_at (username_or_email token_data)
           then crud_users_get [ByEmail (username_or_email token_data);
                                ByIsDeleted false]
           else crud_users_get [ByUsername (username_or_email token_data);
                                ByIsDeleted false]) db
          = (Return (principal_for (username_or_email token_data) db), db)) as ->.
  { rewrite <- find_live_principal. unfold login_key, crud_users_get, gets.
    by destruct (contains_at _). }
  destruct (principal_for _ db) as [user|]; [|reflexivity].
  by destruct (User.is_active user).
Qed.

(** C10: a refresh token of a principal that is soft-deleted and still
    active, valid and not blacklisted, is exchanged for a fresh pair,
    while a login under the same username and an access token of the
    same principal are both turned away. *)
Theorem refresh_accepts_soft_deleted (now : Z) (refresh_data : RefreshToken.t)
    (db : World) (payload : Claims.t) (p : User.t) :
  str_truthy (RefreshToken.refresh_token refresh_data) = true ->
  blacklisted (RefreshToken.refresh_token refresh_data) db = false ->
  jwt_decode now (RefreshToken.refresh_token refresh_data) = inr payload ->
  Claims.sub payload = Some (User.username p) ->
  Claims.token_type payload = Some (TokenType_value REFRESH) ->
  find (user_selected [ByUsername (User.username p)]) (users db) = Some p ->
  User.is_deleted p = true ->
  User.is_active p = true ->
  contains_at (User.username p) = false ->
  (forall q, In q (users db) -> User.username q = User.username p ->
             User.is_deleted q = true) ->
  refresh_access_token now refresh_data db =
    (Return
       (Token.mk
          (jwt_encode (update_claims (sub_only (User.username p))
                         (now + minutes ACCESS_TOKEN_EXPIRE_MINUTES) ACCESS))
          (jwt_encode (update_claims (sub_only (User.username p))
                         (now + days REFRESH_TOKEN_EXPIRE_DAYS) REFRESH))
          "bearer"),
     db) /\
  (forall password,
      login_for_access_token now (User.username p) password db =
        (Raise wrong_credentials, db)) /\
  (forall access_token claims,
      blacklisted access_token db = false ->
      jwt_decode now access_token = inr claims ->
      Claims.sub claims = Some (User.username p) ->
      Claims.token_type claims = Some (TokenType_value ACCESS) ->
      get_current_user now access_token db =
        (Raise (HTTPException Unauthorized "User not found or has been deleted."),
         db)).
Proof.
  intros Hsupplied Hfree Hdecode Hsub Htype Hrow Hdeleted Hactive Hat Hall.
  split; [|split].
  - unfold refresh_access_token. rewrite Hsupplied. cbn [negb].
    unfold bind at 1. rewrite verify_token_eval, Hfree, Hdecode, Hsub, Htype.
    cbn [claim_differs]. rewrite String.eqb_refl. cbn [negb username_or_email].
    unfold bind at 1, crud_users_get, gets. rewrite Hrow, Hactive. reflexivity.
  - intros password. rewrite login_eval.
    by rewrite principal_for_username_deleted.
  - intros access_token claims Hfree' Hdecode' Hsub' Htype'.
    rewrite get_current_user_eval, verify_token_eval, Hfree', Hdecode', Hsub', Htype'.
    cbn [claim_differs]. rewrite String.eqb_refl. cbn [negb username_or_email].
    by rewrite principal_for_username_deleted.
Qed.

(** ** Register *)

(** The register handler answers a taken username or email with
    BadRequest and leaves the table as it is. *)
Lemma register_user_taken now user_in db :
  existsb (user_selected [ByUsername (UserCreate.username user_in)]) (users db)
  || existsb (user_selected [ByEmail (UserCreate.email user_in)]) (users db) = true ->
  exists detail,
    register_user now user_in db = (Raise (HTTPException BadRequest detail), db).
Proof.
  unfold register_user, bind, crud_users_exists, gets.
  destruct (existsb _ _); simpl; [eauto|].
  intros ->. eauto.
Qed.

(** The superuser's creation handler answers the same collisions with
    DuplicateValue. *)
Lemma create_user_taken user db :
  existsb (user_selected [ByUsername (UserCreate.username user)]) (users db)
  || existsb (user_selected [ByEmail (UserCreate.email user)]) (users db) = true ->
  exists detail,
    create_user user db = (Raise (HTTPException DuplicateValue detail), db).
Proof.
  unfold create_user, bind, crud_users_exists, gets.
  destruct (existsb (user_selected [ByEmail _]) _); simpl; [eauto|].
  rewrite orb_false_r. intros ->. eauto.
Qed.

End Properties.

(* ===================================================================== *)
(** * The properties at work on the concrete world *)
(* ===================================================================== *)

Section Evaluation.
Existing Instance Demo.platform.

(** alice logs out, logs in again, and her old access token is still
    refused. *)
Lemma revoked_token_never_verifies_witness :
  revoked "access.alice" (after (Login 15 "alice" "wonderland") Demo.after_logout) /\
  verify_token 20 "access.alice" ACCESS
    (after (Login 15 "alice" "wonderland") Demo.after_logout)
  = (Return None, after (Login 15 "alice" "wonderland") Demo.after_logout).
Proof.
  assert (revoked "access.alice"
            (after (Login 15 "alice" "wonderland") Demo.after_logout)) as Hrev.
  { apply revoked_still.
    apply (revoked_by_logout _ 10 (RefreshToken.mk "refresh.alice") "access.alice"
             "Logged out successfully" Demo.world).
    - vm_compute. reflexivity.
    - left. reflexivity. }
  split; [exact Hrev|].
  apply (revoked_token_never_verifies "access.alice" _ 20 ACCESS Hrev).
Defined.

(** A refresh token presented where an access token is expected. *)
Lemma verify_token_fails_uniformly_witness :
  failure_cause 10 "refresh.alice" ACCESS Demo.world /\
  verify_token 10 "refresh.alice" ACCESS Demo.world = (Return None, Demo.world).
Proof.
  assert (failure_cause 10 "refresh.alice" ACCESS Demo.world) as Hcause.
  { apply (cause_wrong_type _ _ _ _
             (Claims.mk (Some "alice") (Some "refresh") (Some 900000))).
    - vm_compute. reflexivity.
    - simpl. discriminate. }
  split; [exact Hcause|].
  apply (verify_token_fails_uniformly 10 "refresh.alice" ACCESS Demo.world Hcause).
Defined.

(** Two logouts of alice at time 10.  With her two tokens the logout
    succeeds and both are on the blacklist; with her access token and a
    refresh token that is garbage it is Unauthorized, with the access
    token on the blacklist all the same and nothing recorded for the
    garbage. *)
Lemma logout_success_needs_both_witness :
  (logout 10 (RefreshToken.mk "refresh.alice") "access.alice" Demo.world =
     (Return "Logged out successfully", Demo.after_logout) /\
   token_blacklist Demo.after_logout =
     [BlacklistEntry.mk "access.alice" 5000;
      BlacklistEntry.mk "refresh.alice" 900000] /\
   blacklisted "access.alice" Demo.after_logout = true /\
   blacklisted "refresh.alice" Demo.after_logout = true) /\
  (logout 10 (RefreshToken.mk "garbage") "access.alice" Demo.world =
     (Raise (HTTPException Unauthorized "Invalid token."),
      Demo.after_first_revocation) /\
   blacklisted "access.alice" Demo.after_first_revocation = true /\
   blacklisted "garbage" Demo.after_first_revocation = false).
Proof.
  split.
  - destruct (logout_success_needs_both 10 (RefreshToken.mk "refresh.alice")
                "access.alice" Demo.world) as (Hboth & _ & _).
    destruct (Hboth (Claims.mk (Some "alice") (Some "access") (Some 5000)) 5000
                (Claims.mk (Some "alice") (Some "refresh") (Some 900000)) 900000)
      as (w' & Hrun & Hw' & Ha & Hr); try reflexivity.
    assert (w' = Demo.after_logout) as Hsame by (rewrite Hw'; reflexivity).
    rewrite Hsame in Hrun, Ha, Hr.
    split; [exact Hrun|]. split; [reflexivity|]. split; [exact Ha|exact Hr].
  - destruct (logout_success_needs_both 10 (RefreshToken.mk "garbage")
                "access.alice" Demo.world) as (_ & _ & Hfails).
    destruct (Hfails (Claims.mk (Some "alice") (Some "access") (Some 5000)) 5000)
      as (w' & Hrun & Hw' & Ha & Hr); try reflexivity.
    { intros refresh_payload. discriminate. }
    assert (w' = Demo.after_first_revocation) as Hsame
      by (rewrite Hw'; reflexivity).
    rewrite Hsame in Hrun, Ha, Hr.
    split; [exact Hrun|]. split; [exact Ha|exact Hr].
Defined.


(** C3's counterexample: bob verifies his account with his code, and the
    same request sent again is refused. *)
Lemma verify_account_repeat_refused :
  (verify_account 10 Demo.bob_verification Demo.world).1 =
    Return "Account verified successfully" /\
  (verify_account 20 Demo.bob_verification
     (verify_account 10 Demo.bob_verification Demo.world).2).1 =
    Raise (HTTPException BadRequest "Invalid or expired verification token").
Proof. vm_compute. split; reflexivity. Qed.

Lemma verify_account_consumes_code_witness :
  exists w1,
    verify_account 10 Demo.bob_verification Demo.world =
      (Return "Account verified successfully", w1) /\
    (exists user',
        find (user_selected [ByEmail "b@x.com"]) (users w1) = Some user' /\
        User.id user' = 2%nat /\ User.is_active user' = true) /\
    queue_jobs w1 = [] /\
    forall later,
      verify_account later Demo.bob_verification w1 =
        (Raise (HTTPException BadRequest "Invalid or expired verification token"),
         w1).
Proof.
  destruct (verify_account_consumes_code 10 Demo.bob_verification Demo.world
              "b@x.com" Demo.bob)
    as (w1 & Hrun & _ & Hactive & Hjobs & _ & Hagain).
  - reflexivity.
  - vm_compute. reflexivity.
  - reflexivity.
  - reflexivity.
  - exists w1. repeat split; assumption.
Defined.

(** C4's failing input: a registration under a taken username is
    answered with BadRequest, where the creation handler answers the same
    input with DuplicateValue; neither adds a row. *)
Lemma register_collision_is_bad_request :
  register_user 10 Demo.second_alice Demo.world =
    (Raise (HTTPException BadRequest "Username already exists"), Demo.world) /\
  create_user Demo.second_alice Demo.world =
    (Raise (HTTPException DuplicateValue "Username not available"), Demo.world).
Proof. split; reflexivity. Qed.

Lemma password_reset_enumeration_safe_witness :
  (request_password_reset 10 (PasswordResetRequest.mk "a@x.com") Demo.world).1 =
    (request_password_reset 10 (PasswordResetRequest.mk "nobody@x.com") Demo.world).1 /\
  request_password_reset 10 (PasswordResetRequest.mk "nobody@x.com") Demo.world =
    (Return "If your email is registered, you will receive password reset instructions",
     Demo.world).
Proof.
  destruct (password_reset_enumeration_safe 10 10
              (PasswordResetRequest.mk "a@x.com")
              (PasswordResetRequest.mk "nobody@x.com") Demo.world Demo.world)
    as (Hsame & Hrun & _).
  - reflexivity.
  - reflexivity.
  - split; assumption.
Defined.

(** A wrong password for alice, and bob's right password before he has
    verified his address. *)
Lemma login_rejections_witness :
  login_for_access_token 10 "alice" "guess" Demo.world =
    (Raise wrong_credentials, Demo.world) /\
  login_for_access_token 10 "bob" "builder" Demo.world =
    (Raise not_activated, Demo.world).
Proof.
  split.
  - apply (proj1 (login_rejections 10 "alice" "guess" Demo.world)).
    apply (password_mismatch _ _ _ Demo.alice); reflexivity.
  - apply (proj1 (proj2 (login_rejections 10 "bob" "builder" Demo.world)) Demo.bob);
      reflexivity.
Defined.

(** alice's tier has a rule for the path; an anonymous caller gets the
    default under its address. *)
Lemma rate_limit_resolution_witness :
  resolve_rate_limit (Request.mk "/api/v1/posts" "10.0.0.7") "/api/v1/posts"
    (Some Demo.alice) Demo.world =
    (Return (inl 1%nat, 3%nat, 60), Demo.world) /\
  resolve_rate_limit (Request.mk "/api/v1/posts" "10.0.0.7") "/api/v1/posts"
    None Demo.world =
    (Return (inr "10.0.0.7", 10%nat, 3600), Demo.world).
Proof.
  split.
  - apply (proj1 (rate_limit_resolution 0 (Request.mk "/api/v1/posts" "10.0.0.7")
                    "/api/v1/posts" (Some Demo.alice) Demo.world)
             Demo.alice (Tier.mk 1 "free") (RateLimitRule.mk 1 "/api/v1/posts" 3 60));
      reflexivity.
  - exact (proj1 (proj2 (proj2
             (rate_limit_resolution 0 (Request.mk "/api/v1/posts" "10.0.0.7")
                "/api/v1/posts" None Demo.world))) eq_refl).
Defined.

(** carol is soft-deleted and active: her refresh token still works, her
    password does not. *)
Lemma refresh_accepts_soft_deleted_witness :
  refresh_access_token 10 (RefreshToken.mk "refresh.carol") Demo.world =
    (Return (Token.mk "access.carol" "refresh.carol" "bearer"), Demo.world) /\
  login_for_access_token 10 "carol" "singing" Demo.world =
    (Raise wrong_credentials, Demo.world) /\
  get_current_user 10 "access.carol" Demo.world =
    (Raise (HTTPException Unauthorized "User not found or has been deleted."),
     Demo.world).
Proof.
  destruct (refresh_accepts_soft_deleted 10 (RefreshToken.mk "refresh.carol")
              Demo.world (Claims.mk (Some "carol") (Some "refresh") (Some 900000))
              Demo.carol)
    as (Hrefresh & Hlogin & Haccess); try reflexivity.
  - intros q [<-|[<-|[<-|[]]]]; simpl; intros; (reflexivity || discriminate).
  - split; [exact Hrefresh|]. split; [apply Hlogin|].
    apply (Haccess "access.carol"
             (Claims.mk (Some "carol") (Some "access") (Some 5000)));
      reflexivity.
Defined.

End Evaluation.

(* ===================================================================== *)
(** * Further properties of the code *)
(* ===================================================================== *)

Section Further.
Context `{Platform}.

(** ** The cache *)

Lemma RedisStorage_set_stored now key value expire w w1 :
  RedisStorage_set now key value expire w = (Return true, w1) ->
  reachable (cache w) = true /\
  w1 = with_cache
         {| reachable := true;
            keyspace := <[key := (value, (fun ttl => now + ttl) <$> expire)]>
                          (keyspace (cache w)) |} w /\
  (forall ttl, expire = Some ttl -> 0 < ttl).
Proof.
  unfold RedisStorage_set.
  destruct (reachable (cache w)); cbn [negb]; [|discriminate].
  destruct expire as [ttl|]; cbn [fmap option_fmap option_map].
  - destruct (Z.leb_spec ttl 0); [discriminate|].
    intros [= <-]. repeat split. by intros ? [= <-].
  - intros [= <-]. repeat split. discriminate.
Qed.

(** X1: a value stored with a time to live is read back, by a get that
    does not consume, as often as one likes and without changing the
    store, until the deadline; from the deadline on every get finds
    nothing, whether or not anything has swept the key; [exists] agrees
    with [get]. *)
Theorem stored_value_visible_until_deadline (now t : Z) (key value : string)
    (ttl : Z) (w w1 : World) :
  RedisStorage_set now key value (Some ttl) w = (Return true, w1) ->
  (t < now + ttl ->
   RedisStorage_get t key false w1 = (Return (Some value), w1)) /\
  (now + ttl <= t ->
   forall delete, (RedisStorage_get t key delete w1).1 = Return None) /\
  RedisStorage_exists t key w1 = (Return (bool_decide (t < now + ttl)), w1).
Proof.
  intros Hset. apply RedisStorage_set_stored in Hset as (_ & -> & _).
  cbn [fmap option_fmap option_map].
  assert (forall up,
    redis_value t key
      {| reachable := up;
         keyspace := <[key := (value, Some (now + ttl))]> (keyspace (cache w)) |}
    = if t <? now + ttl then Some value else None) as Hval.
  { intros up. unfold redis_value. cbn [keyspace].
    rewrite lookup_insert_eq. reflexivity. }
  split; [|split].
  - intros Hlive. unfold RedisStorage_get. cbn [cache with_cache reachable negb].
    rewrite Hval. by rewrite (proj2 (Z.ltb_lt _ _) Hlive).
  - intros Hdead delete. unfold RedisStorage_get.
    cbn [cache with_cache reachable negb]. rewrite Hval.
    rewrite (proj2 (Z.ltb_ge _ _) Hdead). by destruct delete.
  - unfold RedisStorage_exists. cbn [cache with_cache reachable negb].
    rewrite Hval. f_equal. f_equal.
    destruct (Z.ltb_spec t (now + ttl)).
    + rewrite (bool_decide_eq_true_2 (t < now + ttl)) by lia.
      apply bool_decide_eq_true_2. eauto.
    + rewrite (bool_decide_eq_false_2 (t < now + ttl)) by lia.
      apply bool_decide_eq_false_2. by intros [? ?].
Qed.

(** X2: storing under a key, deleting it or reading it, consuming or not,
    never changes what is read under another key. *)
Theorem other_keys_untouched (now t : Z) (key other value : string)
    (expire : option Z) (delete : bool) (w : World) :
  other <> key ->
  redis_value t other (cache (RedisStorage_set now key value expire w).2)
    = redis_value t other (cache w) /\
  redis_value t other (cache (RedisStorage_get now key delete w).2)
    = redis_value t other (cache w) /\
  redis_value t other (cache (RedisStorage_delete key w).2)
    = redis_value t other (cache w).
Proof.
  intros Hne. unfold RedisStorage_set, RedisStorage_get, RedisStorage_delete.
  destruct (reachable (cache w)); cbn [negb]; [|done].
  split; [|split].
  - destruct expire as [ttl|]; [destruct (ttl <=? 0); [done|]|];
      unfold redis_value; cbn; by rewrite lookup_insert_ne.
  - destruct delete; [|done]. unfold redis_value. cbn.
    by rewrite lookup_delete_ne.
  - unfold redis_value. cbn. by rewrite lookup_delete_ne.
Qed.

(** ** One-time codes in the handlers *)

Lemma code_key_inj t1 t2 token1 token2 :
  code_key t1 token1 = code_key t2 token2 -> t1 = t2 /\ token1 = token2.
Proof.
  unfold code_key. destruct t1, t2; simpl; intros E; by simplify_eq.
Qed.

Lemma reset_password_eval now reset_data w :
  reset_password now reset_data w =
  match verify_token_from_redis now (PasswordReset.token reset_data)
          RESET_PASSWORD w with
  | (Return (Some email), w0) =>
      match find (user_selected [ByEmail email]) (users w0) with
      | Some user =>
          (Return "Password reset successfully",
           with_users
             (map (fun u =>
                     if user_selected [ById (User.id user)] u
                     then apply_patch
                            (SetHashedPassword
                               (bcrypt_hashpw (entropy w0)
                                  (PasswordReset.new_password reset_data))) u
                     else u)
                  (users w0))
             (with_entropy (S (entropy w0)) w0))
      | None => (Raise (HTTPException NotFound "User not found"), w0)
      end
  | (Return None, w0) =>
      (Raise (HTTPException BadRequest "Invalid or expired reset token"), w0)
  | (Raise e, w0) => (Raise e, w0)
  end.
Proof.
  unfold reset_password, bind at 1.
  destruct (verify_token_from_redis _ _ _ w) as [[[email|]|e] w0]; try reflexivity.
  unfold bind at 1, crud_users_get, gets.
  destruct (find _ (users w0)) as [user|]; reflexivity.
Qed.

(** What [verify_token_from_redis] does to the world: at most the key
    asked for goes. *)
Lemma verify_token_from_redis_world now token token_type w :
  exists keys,
    (verify_token_from_redis now token token_type w).2
      = with_cache {| reachable := reachable (cache w); keyspace := keys |} w /\
    (reachable (cache w) = false -> keys = keyspace (cache w)) /\
    (forall other, other <> code_key token_type token ->
                   keys !! other = keyspace (cache w) !! other).
Proof.
  rewrite verify_token_from_redis_eval.
  destruct (reachable (cache w)) eqn:Hup; cbn [snd].
  - eexists. split; [reflexivity|]. split; [discriminate|].
    intros other Hne. by apply lookup_delete_ne.
  - exists (keyspace (cache w)). split; [|by split].
    destruct w as [? ? ? ? [up keys] ? ? ? ? ? ?]. simpl in *. by subst up.
Qed.

(** X3: a verify-account or reset-password request whose code is unknown
    or expired, or that arrives while the cache cannot be reached, is
    answered with BadRequest; no principal is touched, no code stored
    under another key is consumed, and when the cache was unreachable the
    code asked for is not consumed either. *)
Theorem unknown_code_refused (now : Z) (verification : EmailVerification.t)
    (reset_data : PasswordReset.t) (w : World) :
  (reachable (cache w) = false \/
   redis_value now (code_key VERIFY_ACCOUNT (EmailVerification.token verification))
     (cache w) = None ->
   exists w',
     verify_account now verification w =
       (Raise (HTTPException BadRequest "Invalid or expired verification token"), w') /\
     users w' = users w /\
     (reachable (cache w) = false -> w' = w) /\
     forall other,
       other <> code_key VERIFY_ACCOUNT (EmailVerification.token verification) ->
       keyspace (cache w') !! other = keyspace (cache w) !! other) /\
  (reachable (cache w) = false \/
   redis_value now (code_key RESET_PASSWORD (PasswordReset.token reset_data))
     (cache w) = None ->
   exists w',
     reset_password now reset_data w =
       (Raise (HTTPException BadRequest "Invalid or expired reset token"), w') /\
     users w' = users w /\
     (reachable (cache w) = false -> w' = w) /\
     forall other,
       other <> code_key RESET_PASSWORD (PasswordReset.token reset_data) ->
       keyspace (cache w') !! other = keyspace (cache w) !! other).
Proof.
  split; intros Hcode.
  - rewrite verify_account_eval.
    destruct (verify_token_from_redis_world now
                (EmailVerification.token verification) VERIFY_ACCOUNT w)
      as (keys & Hw & Hdown & Hother).
    rewrite verify_token_from_redis_eval in *.
    destruct (reachable (cache w)) eqn:Hup.
    + destruct Hcode as [|Hnone]; [discriminate|]. cbv zeta. rewrite Hnone.
      cbn [opt_str_truthy]. eexists. split; [reflexivity|].
      split; [reflexivity|]. split; [discriminate|].
      intros other Hne. cbn. by apply lookup_delete_ne.
    + exists w. repeat split.
  - rewrite reset_password_eval.
    rewrite verify_token_from_redis_eval.
    destruct (reachable (cache w)) eqn:Hup.
    + destruct Hcode as [|Hnone]; [discriminate|]. cbv zeta. rewrite Hnone.
      cbn [opt_str_truthy]. eexists. split; [reflexivity|].
      split; [reflexivity|]. split; [discriminate|].
      intros other Hne. cbn. by apply lookup_delete_ne.
    + exists w. repeat split.
Qed.

(** What [create_verification_token] does: it always answers with the
    next identifier, and stores the address under it when the cache can be
    reached. *)
Lemma create_verification_token_eval now email token_type w :
  create_verification_token now email token_type w =
  (Return (uuid4 (entropy w)),
   if reachable (cache w)
   then with_cache
          {| reachable := true;
             keyspace :=
               <[code_key token_type (uuid4 (entropy w)) :=
                   (email,
                    Some (now + match token_type with
                                | RESET_PASSWORD =>
                                    minutes RESET_PASSWORD_EXPIRE_MINUTES - 1
                                | _ => days VERIFY_ACCOUNT_EXPIRE_DAYS - 1
                                end))]>
                 (keyspace (cache w)) |}
          (with_entropy (S (entropy w)) w)
   else with_entropy (S (entropy w)) w).
Proof.
  unfold create_verification_token, fresh, bind at 1, code_key.
  set (ttl := match token_type with
              | RESET_PASSWORD => minutes RESET_PASSWORD_EXPIRE_MINUTES - 1
              | _ => days VERIFY_ACCOUNT_EXPIRE_DAYS - 1
              end).
  replace (seconds_left now
             match token_type with
             | RESET_PASSWORD => now + minutes RESET_PASSWORD_EXPIRE_MINUTES
             | _ => now + days VERIFY_ACCOUNT_EXPIRE_DAYS
             end) with ttl
    by (unfold ttl, seconds_left; destruct token_type; lia).
  assert ((ttl <=? 0) = false) as Hpos
    by (apply Z.leb_gt; unfold ttl, minutes, days, RESET_PASSWORD_EXPIRE_MINUTES,
          VERIFY_ACCOUNT_EXPIRE_DAYS; destruct token_type; lia).
  unfold bind, RedisStorage_set, ret. cbn [cache with_entropy].
  destruct (reachable (cache w)); cbn [negb]; [|reflexivity].
  rewrite Hpos. reflexivity.
Qed.

Lemma request_password_reset_eval now request w :
  request_password_reset now request w =
  match find (user_selected [ByEmail (PasswordResetRequest.email request)])
          (users w) with
  | Some user =>
      match create_verification_token now (User.email user) RESET_PASSWORD w with
      | (Return token, w1) =>
          (Return "If your email is registered, you will receive password reset instructions",
           with_background_tasks
             (background_tasks w1 ++
                [BackgroundTask.mk "send_verification_email"
                   [("email", User.email user); ("name", User.name user);
                    ("verification_code", token)]])
             w1)
      | (Raise e, w1) => (Raise e, w1)
      end
  | None =>
      (Return "If your email is registered, you will receive password reset instructions",
       w)
  end.
Proof.
  unfold request_password_reset, bind at 1, crud_users_get, gets.
  destruct (find _ (users w)) as [user|]; [|reflexivity].
  unfold bind at 1.
  destruct (create_verification_token _ _ _ w) as [[token|e] w1]; reflexivity.
Qed.

(** X4: when the cache cannot be reached, a password-reset request for a
    registered address still answers with the usual message and schedules
    the mail, but the code it mails was never stored: the cache is as it
    was, and a reset-password with that code is refused. *)
Theorem reset_code_lost_when_cache_down (now : Z)
    (request : PasswordResetRequest.t) (w : World) (user : User.t) :
  find (user_selected [ByEmail (PasswordResetRequest.email request)]) (users w)
    = Some user ->
  reachable (cache w) = false ->
  exists w1,
    request_password_reset now request w =
      (Return "If your email is registered, you will receive password reset instructions",
       w1) /\
    background_tasks w1 =
      background_tasks w ++
        [BackgroundTask.mk "send_verification_email"
           [("email", User.email user); ("name", User.name user);
            ("verification_code", uuid4 (entropy w))]] /\
    cache w1 = cache w /\
    forall later address new_password,
      reset_password later (PasswordReset.mk address (uuid4 (entropy w)) new_password) w1
      = (Raise (HTTPException BadRequest "Invalid or expired reset token"), w1).
Proof.
  intros Hfind Hdown.
  rewrite request_password_reset_eval, Hfind, create_verification_token_eval, Hdown.
  eexists. split; [reflexivity|]. split; [reflexivity|]. split; [reflexivity|].
  intros later address new_password.
  rewrite reset_password_eval, verify_token_from_redis_eval.
  cbn [cache with_background_tasks with_entropy]. by rewrite Hdown.
Qed.

(** X5: a code issued for a password reset is of no use to verify an
    account: the attempt is refused and leaves the reset code in place,
    as long as no verification code happens to carry the same
    identifier. *)
Theorem reset_code_does_not_verify (now later : Z) (email address : string)
    (w w1 : World) (token : string) :
  create_verification_token now email RESET_PASSWORD w = (Return token, w1) ->
  keyspace (cache w) !! code_key VERIFY_ACCOUNT token = None ->
  exists w2,
    verify_account later (EmailVerification.mk address token) w1 =
      (Raise (HTTPException BadRequest "Invalid or expired verification token"), w2) /\
    keyspace (cache w2) !! code_key RESET_PASSWORD token
      = keyspace (cache w1) !! code_key RESET_PASSWORD token /\
    users w2 = users w.
Proof.
  rewrite create_verification_token_eval. intros [= <- <-] Hfree.
  assert (code_key VERIFY_ACCOUNT (uuid4 (entropy w))
          <> code_key RESET_PASSWORD (uuid4 (entropy w))) as Hne
    by (intros E; apply code_key_inj in E as [? _]; discriminate).
  rewrite verify_account_eval, verify_token_from_redis_eval.
  cbn [EmailVerification.token].
  destruct (reachable (cache w)) eqn:Hup.
  - cbn [cache with_cache reachable]. cbv zeta. unfold redis_value at 1.
    cbn [keyspace]. rewrite lookup_insert_ne by congruence. rewrite Hfree.
    cbn [opt_str_truthy]. eexists. split; [reflexivity|].
    split; [|reflexivity]. cbn. by rewrite lookup_delete_ne by congruence.
  - cbn [cache with_entropy]. rewrite Hup. eexists. by repeat split.
Qed.

(** ** Sessions *)

Lemma refresh_access_token_eval now refresh_data w :
  refresh_access_token now refresh_data w =
  if str_truthy (RefreshToken.refresh_token refresh_data) then
    match verify_token now (RefreshToken.refresh_token refresh_data) REFRESH w with
    | (Return (Some user_data), _) =>
        match find (user_selected [ByUsername (username_or_email user_data)])
                (users w) with
        | Some user =>
            if User.is_active user then
              (Return
                 (Token.mk
                    (jwt_encode
                       (update_claims (sub_only (username_or_email user_data))
                          (now + minutes ACCESS_TOKEN_EXPIRE_MINUTES) ACCESS))
                    (jwt_encode
                       (update_claims (sub_only (username_or_email user_data))
                          (now + days REFRESH_TOKEN_EXPIRE_DAYS) REFRESH))
                    "bearer"),
               w)
            else (Raise (HTTPException Unauthorized "User is not active."), w)
        | None => (Raise (HTTPException Unauthorized "User is not active."), w)
        end
    | _ => (Raise (HTTPException Unauthorized "Invalid refresh token."), w)
    end
  else (Raise (HTTPException Unauthorized "Refresh token missing."), w).
Proof.
  unfold refresh_access_token.
  destruct (str_truthy _); cbn [negb]; [|reflexivity].
  unfold bind at 1. rewrite verify_token_eval.
  destruct (if blacklisted _ w then _ else _) as [user_data|]; [|reflexivity].
  unfold bind at 1, crud_users_get, gets.
  destruct (find _ (users w)) as [user|]; [|reflexivity].
  destruct (User.is_active user); reflexivity.
Qed.

Lemma ascii_lower_space c :
  Ascii.eqb (ascii_lower c) " " = Ascii.eqb c " ".
Proof. destruct c as [[] [] [] [] [] [] [] []]; reflexivity. Qed.

Lemma str_lower_space s :
  str_contains " " (str_lower s) = str_contains " " s.
Proof.
  induction s as [|c s IH]; simpl; [reflexivity|].
  by rewrite ascii_lower_space, IH.
Qed.

Lemma partition_space_app head tail :
  str_contains " " head = false ->
  partition_space (head +:+ " " +:+ tail) = (head, " ", tail).
Proof.
  induction head as [|c head IH]; simpl; [reflexivity|].
  intros Hc. apply orb_false_elim in Hc as [Hc Hrest].
  rewrite Hc, IH by exact Hrest. reflexivity.
Qed.

Lemma get_optional_user_bearer now scheme token w :
  str_lower scheme = "bearer" ->
  str_truthy token = true ->
  get_optional_user now (Some (scheme +:+ " " +:+ token)) w =
  (Return match get_current_user now token w with
          | (Return user, _) => Some user
          | (Raise _, _) => None
          end,
   w).
Proof.
  intros Hscheme Htoken.
  assert (str_contains " " scheme = false) as Hnospace
    by (rewrite <- str_lower_space, Hscheme; reflexivity).
  assert (str_truthy (scheme +:+ " " +:+ token) = true) as Hheader
    by (destruct scheme; reflexivity).
  unfold get_optional_user. cbn [opt_str_truthy from_option id]. rewrite Hheader.
  cbn [negb]. rewrite (partition_space_app _ _ Hnospace), Hscheme, Htoken.
  rewrite String.eqb_refl. cbn [negb orb]. rewrite get_current_user_eval.
  unfold try_except_Exception, bind at 1. rewrite verify_token_eval.
  destruct (if blacklisted token w then _ else _) as [token_data|]; [|reflexivity].
  unfold bind.
  assert ((if contains_at (username_or_email token_data)
           then crud_users_get [ByEmail (username_or_email token_data);
                                ByIsDeleted false]
           else crud_users_get [ByUsername (username_or_email token_data);
                                ByIsDeleted false]) w
          = (Return (principal_for (username_or_email token_data) w), w)) as ->.
  { rewrite <- find_live_principal. unfold login_key, crud_users_get, gets.
    by destruct (contains_at _). }
  destruct (principal_for _ w) as [user|]; [|reflexivity].
  by destruct (User.is_active user).
Qed.

(** X6: the optional-user dependency never raises and leaves the world
    alone; without a header, or with a header that is not a bearer
    scheme followed by a token, it finds nobody; with one (the scheme in
    any letter case) it finds exactly the user that the mandatory
    dependency would return for the token, and nobody where that one
    raises. *)
Theorem get_optional_user_agrees (now : Z) (w : World) :
  get_optional_user now None w = (Return None, w) /\
  (forall header,
      str_lower (partition_space header).1.1 <> "bearer" \/
      (partition_space header).2 = "" ->
      get_optional_user now (Some header) w = (Return None, w)) /\
  (forall scheme token,
      str_lower scheme = "bearer" ->
      str_truthy token = true ->
      get_optional_user now (Some (scheme +:+ " " +:+ token)) w =
      (Return match get_current_user now token w with
              | (Return user, _) => Some user
              | (Raise _, _) => None
              end,
       w)).
Proof.
  split; [reflexivity|]. split; [|intros scheme token; apply get_optional_user_bearer].
  intros header Hbad. unfold get_optional_user. cbn [opt_str_truthy from_option id].
  destruct (str_truthy header); cbn [negb]; [|reflexivity].
  destruct (partition_space header) as [[token_type sep] token_value].
  cbn [fst snd] in Hbad. unfold try_except_Exception.
  destruct Hbad as [Hscheme| ->].
  - destruct (String.eqb_spec (str_lower token_type) "bearer"); [done|].
    reflexivity.
  - cbn [str_truthy String.eqb negb]. by rewrite orb_true_r.
Qed.

(** X7: a revoked token ends the session everywhere: the mandatory
    dependency answers Unauthorized, the optional one finds nobody, and
    the refresh endpoint refuses it. *)
Theorem revoked_token_ends_session (token : string) (w : World) (later : Z) :
  revoked token w ->
  get_current_user later token w =
    (Raise (HTTPException Unauthorized "User not authenticated."), w) /\
  get_optional_user later (Some ("Bearer " +:+ token)) w = (Return None, w) /\
  exists detail,
    refresh_access_token later (RefreshToken.mk token) w =
      (Raise (HTTPException Unauthorized detail), w).
Proof.
  intros Hrev. apply revoked_blacklisted in Hrev.
  assert (get_current_user later token w =
            (Raise (HTTPException Unauthorized "User not authenticated."), w)) as Hcur
    by (by rewrite get_current_user_eval, verify_token_eval, Hrev).
  split; [exact Hcur|]. split.
  - destruct (str_truthy token) eqn:Htoken.
    + change ("Bearer " +:+ token) with ("Bearer" +:+ " " +:+ token).
      rewrite get_optional_user_bearer by done. by rewrite Hcur.
    + unfold str_truthy in Htoken. apply negb_false_iff, String.eqb_eq in Htoken.
      by subst token.
  - rewrite refresh_access_token_eval, verify_token_eval.
    cbn [RefreshToken.refresh_token]. rewrite Hrev.
    destruct (str_truthy token); eauto.
Qed.

Lemma find_and_Some {A} (p q : A -> bool) (l : list A) (x : A) :
  find p l = Some x -> q x = true -> find (fun y => p y && q y) l = Some x.
Proof.
  induction l as [|y l IH]; simpl; [discriminate|].
  destruct (p y) eqn:Hp; simpl.
  - intros [= ->] Hq. by rewrite Hq.
  - auto.
Qed.


Lemma find_app_Some {A} (p : A -> bool) (l1 l2 : list A) (x : A) :
  find p l1 = Some x -> find p (l1 ++ l2) = Some x.
Proof.
  induction l1 as [|y l IH]; simpl; [discriminate|].
  destruct (p y); [done|exact IH].
Qed.

Lemma found_by_username name u (us : list User.t) :
  find (user_selected [ByUsername name]) us = Some u -> User.username u = name.
Proof.
  intros Hf. apply find_some in Hf as [_ Hsel].
  rewrite selected_by_username in Hsel. by apply String.eqb_eq.
Qed.


(** The first row under a username, when it is not soft-deleted, is the
    principal the username stands for. *)
Lemma principal_for_username name u w :
  contains_at name = false ->
  find (user_selected [ByUsername name]) (users w) = Some u ->
  User.is_deleted u = false ->
  principal_for name w = Some u.
Proof.
  intros Hat Hfind Hlive. unfold principal_for, login_key. rewrite Hat.
  apply find_and_Some; [|by rewrite Hlive].
  rewrite <- Hfind. apply find_pointwise. intros x.
  by rewrite selected_by_username.
Qed.


(** An update by id that keeps username, email and the deleted flag
    commutes with every lookup the handlers make. *)
Lemma principal_for_patched name w w' i patch :
  (forall u, User.username (patch u) = User.username u /\
             User.email (patch u) = User.email u /\
             User.is_deleted (patch u) = User.is_deleted u) ->
  users w' = map (fun u => if user_selected [ById i] u then patch u else u)
               (users w) ->
  principal_for name w'
  = option_map (fun u => if user_selected [ById i] u then patch u else u)
      (principal_for name w).
Proof.
  intros Hkeep Husers. unfold principal_for. rewrite Husers.
  apply find_map_stable. intros u.
  destruct (user_selected [ById i] u); [|reflexivity].
  destruct (Hkeep u) as (Hn & He & Hd). rewrite Hd. f_equal.
  unfold login_key. destruct (contains_at name); simpl; by rewrite ?Hn, ?He.
Qed.

Lemma find_by_username_patched name (us : list User.t) i patch :
  (forall u, User.username (patch u) = User.username u) ->
  find (user_selected [ByUsername name])
    (map (fun u => if user_selected [ById i] u then patch u else u) us)
  = option_map (fun u => if user_selected [ById i] u then patch u else u)
      (find (user_selected [ByUsername name]) us).
Proof.
  intros Hkeep. apply find_map_stable. intros u.
  destruct (user_selected [ById i] u); [|reflexivity].
  by rewrite !selected_by_username, Hkeep.
Qed.

Lemma timedelta_or_same d : timedelta_or (Some d) d = d.
Proof. unfold timedelta_or. by destruct (Z.eqb_spec d 0). Qed.

(** X8: a principal who logs in with username and password gets a pair
    of tokens that work, provided the codec reads back what it has just
    signed and the two tokens are not on the blacklist: the access token
    authenticates the same principal, with the login recorded, the
    refresh token is exchanged for a new pair, and neither token passes
    for the other kind. *)
Theorem login_tokens_authenticate (now later : Z) (name password : string)
    (w : World) (u : User.t) :
  contains_at name = false ->
  find (user_selected [ByUsername name]) (users w) = Some u ->
  User.is_deleted u = false ->
  User.is_active u = true ->
  bcrypt_checkpw password (User.hashed_password u) = true ->
  jwt_decode later
    (jwt_encode (update_claims (sub_only name)
                   (now + minutes ACCESS_TOKEN_EXPIRE_MINUTES) ACCESS))
  = inr (update_claims (sub_only name)
           (now + minutes ACCESS_TOKEN_EXPIRE_MINUTES) ACCESS) ->
  jwt_decode later
    (jwt_encode (update_claims (sub_only name)
                   (now + days REFRESH_TOKEN_EXPIRE_DAYS) REFRESH))
  = inr (update_claims (sub_only name)
           (now + days REFRESH_TOKEN_EXPIRE_DAYS) REFRESH) ->
  blacklisted
    (jwt_encode (update_claims (sub_only name)
                   (now + minutes ACCESS_TOKEN_EXPIRE_MINUTES) ACCESS)) w = false ->
  blacklisted
    (jwt_encode (update_claims (sub_only name)
                   (now + days REFRESH_TOKEN_EXPIRE_DAYS) REFRESH)) w = false ->
  str_truthy
    (jwt_encode (update_claims (sub_only name)
                   (now + days REFRESH_TOKEN_EXPIRE_DAYS) REFRESH)) = true ->
  exists pair w1,
    login_for_access_token now name password w = (Return pair, w1) /\
    get_current_user later (Token.access_token pair) w1 =
      (Return (apply_patch (SetLastLogin now) u), w1) /\
    (exists fresh_pair,
        refresh_access_token later (RefreshToken.mk (Token.refresh_token pair)) w1 =
          (Return fresh_pair, w1)) /\
    verify_token later (Token.access_token pair) REFRESH w1 = (Return None, w1) /\
    verify_token later (Token.refresh_token pair) ACCESS w1 = (Return None, w1).
Proof.
  intros Hat Hfind Hlive Hactive Hpw Hda Hdr Hba Hbr Htruthy.
  pose proof (found_by_username _ _ _ Hfind) as Hname.
  pose proof (principal_for_username _ _ _ Hat Hfind Hlive) as Hprincipal.
  rewrite login_eval, Hprincipal, Hpw, Hactive, timedelta_or_same, Hname.
  eexists. eexists. split; [reflexivity|].
  cbn [Token.access_token Token.refresh_token RefreshToken.refresh_token].
  split; [|split; [|split]].
  - rewrite get_current_user_eval, verify_token_eval.
    change (blacklisted ?t (with_users _ w)) with (blacklisted t w).
    rewrite Hba, Hda. cbn [update_claims sub_only Claims.sub Claims.token_type
                            claim_differs TokenType_value].
    rewrite String.eqb_refl. cbn [negb username_or_email].
    rewrite (principal_for_patched name w _ (User.id u)
               (apply_patch (SetLastLogin now)))
      by (reflexivity || by intros []).
    rewrite Hprincipal. cbn [option_map].
    rewrite selected_by_id, Nat.eqb_refl.
    cbn [apply_patch User.is_active]. by rewrite Hactive.
  - rewrite refresh_access_token_eval.
    cbn [RefreshToken.refresh_token]. rewrite Htruthy, verify_token_eval.
    change (blacklisted ?t (with_users _ w)) with (blacklisted t w).
    rewrite Hbr, Hdr. cbn [update_claims sub_only Claims.sub Claims.token_type
                            claim_differs TokenType_value].
    rewrite String.eqb_refl. cbn [negb username_or_email users with_users].
    rewrite find_by_username_patched by (by intros []). rewrite Hfind.
    cbn [option_map]. rewrite selected_by_id, Nat.eqb_refl.
    cbn [apply_patch User.is_active]. rewrite Hactive. eauto.
  - rewrite verify_token_eval.
    change (blacklisted ?t (with_users _ w)) with (blacklisted t w).
    by rewrite Hba, Hda.
  - rewrite verify_token_eval.
    change (blacklisted ?t (with_users _ w)) with (blacklisted t w).
    by rewrite Hbr, Hdr.
Qed.

Lemma delete_user_me_eval now current_user token w :
  delete_user_me now current_user token w =
  match blacklist_token now token
          (with_users
             (map (fun u => if user_selected [ByUsername (User.username current_user)] u
                            then soft_delete u else u)
                  (users w)) w) with
  | (Return _, w') => (Return "User deleted", w')
  | (Raise e, w') => (Raise e, w')
  end.
Proof.
  unfold delete_user_me, crud_users_delete, modify. unfold bind at 1.
  unfold bind at 1.
  by destruct (blacklist_token now token _) as [[[]|e] w'].
Qed.

Lemma blacklisted_snoc token other exp entries :
  other <> token ->
  existsb (fun e => String.eqb (BlacklistEntry.token e) other)
    (entries ++ [BlacklistEntry.mk token exp])
  = existsb (fun e => String.eqb (BlacklistEntry.token e) other) entries.
Proof.
  intros Hne. rewrite existsb_app. simpl.
  destruct (String.eqb_spec token other); [congruence|].
  by rewrite !orb_false_r.
Qed.

(** X9: deleting one's own account revokes the access token that was
    presented and nothing else.  The account is only marked deleted, so a
    login under the username is refused from then on; but a refresh token
    of the account, which the deletion does not ask for, is still
    exchanged for a new pair. *)
Theorem delete_user_me_leaves_refresh (now later : Z) (current_user : User.t)
    (token refresh : string) (payload : Claims.t) (msg : string) (w w' : World) :
  delete_user_me now current_user token w = (Return msg, w') ->
  find (user_selected [ByUsername (User.username current_user)]) (users w)
    = Some current_user ->
  User.is_active current_user = true ->
  contains_at (User.username current_user) = false ->
  str_truthy refresh = true ->
  refresh <> token ->
  blacklisted refresh w = false ->
  jwt_decode later refresh = inr payload ->
  Claims.sub payload = Some (User.username current_user) ->
  Claims.token_type payload = Some (TokenType_value REFRESH) ->
  blacklisted token w' = true /\
  (forall password,
      login_for_access_token later (User.username current_user) password w' =
        (Raise wrong_credentials, w')) /\
  exists pair,
    refresh_access_token later (RefreshToken.mk refresh) w' = (Return pair, w').
Proof.
  intros Hrun Hfind Hactive Hat Htruthy Hne Hfree Hdecode Hsub Htype.
  rewrite delete_user_me_eval, blacklist_token_run in Hrun.
  destruct (jwt_decode now token) as [|claims]; [discriminate|].
  destruct (Claims.exp claims) as [exp|]; [|discriminate].
  injection Hrun as _ <-.
  split; [|split].
  - by eapply blacklisted_last.
  - intros password. rewrite login_eval.
    rewrite principal_for_username_deleted; [reflexivity|exact Hat|].
    cbn [users with_token_blacklist with_users]. intros q Hin Hq.
    apply in_map_iff in Hin as (q0 & <- & _).
    rewrite andb_true_r in *.
    destruct (String.eqb_spec (User.username q0) (User.username current_user));
      [reflexivity|congruence].
  - rewrite refresh_access_token_eval. cbn [RefreshToken.refresh_token].
    rewrite Htruthy, verify_token_eval. unfold blacklisted at 1.
    cbn [token_blacklist with_token_blacklist with_users].
    rewrite blacklisted_snoc by exact Hne. fold (blacklisted refresh w).
    rewrite Hfree, Hdecode, Hsub, Htype. cbn [claim_differs].
    rewrite String.eqb_refl. cbn [negb username_or_email users
                                    with_token_blacklist with_users].
    rewrite find_map_stable, Hfind.
    + cbn [option_map]. rewrite ?selected_by_username, ?andb_true_r, String.eqb_refl.
      cbn [soft_delete User.is_active]. rewrite Hactive. eauto.
    + intros u. rewrite ?selected_by_username, ?andb_true_r.
      destruct (String.eqb (User.username u) (User.username current_user)) eqn:E;
        cbn [soft_delete User.username]; by rewrite E.
Qed.

(** X10: a password reset logs nobody out.  It adds nothing to the
    blacklist, so every token is verified after it exactly as before,
    and a refresh token is exchanged after it exactly as before. *)
Theorem reset_password_keeps_sessions (now : Z) (reset_data : PasswordReset.t)
    (w : World) :
  token_blacklist (reset_password now reset_data w).2 = token_blacklist w /\
  (forall later token expected,
      (verify_token later token expected (reset_password now reset_data w).2).1
      = (verify_token later token expected w).1) /\
  (forall later refresh_data,
      (refresh_access_token later refresh_data (reset_password now reset_data w).2).1
      = (refresh_access_token later refresh_data w).1).
Proof.
  assert (exists keys salt us,
    (reset_password now reset_data w).2 =
      with_users us
        (with_entropy salt
           (with_cache {| reachable := reachable (cache w); keyspace := keys |} w)) /\
    forall name,
      option_map User.is_active (find (user_selected [ByUsername name]) us)
      = option_map User.is_active (find (user_selected [ByUsername name]) (users w)))
    as (keys & salt & us & -> & Hactive).
  { rewrite reset_password_eval.
    destruct (verify_token_from_redis_world now (PasswordReset.token reset_data)
                RESET_PASSWORD w) as (keys & Hw & _).
    destruct (verify_token_from_redis _ _ _ w) as [[[email|]|e] w0];
      cbn [snd] in Hw; subst w0.
    - cbn [users with_cache]. destruct (find _ (users w)) as [user|]; cbn [snd].
      + eexists keys, _, _. split; [reflexivity|]. intros name.
        rewrite find_by_username_patched by (by intros []).
        destruct (find _ (users w)) as [q|]; [|reflexivity].
        cbn [option_map]. by destruct (user_selected _ q).
      + by exists keys, (entropy w), (users w).
    - by exists keys, (entropy w), (users w).
    - by exists keys, (entropy w), (users w). }
  split; [reflexivity|]. split.
  - intros later token expected. by rewrite !verify_token_eval.
  - intros later refresh_data. rewrite !refresh_access_token_eval.
    destruct (str_truthy _); [|reflexivity]. rewrite !verify_token_eval.
    change (blacklisted ?t (with_users _ _)) with (blacklisted t w).
    destruct (if blacklisted _ w then _ else _) as [user_data|]; [|reflexivity].
    cbn [users with_users].
    specialize (Hactive (username_or_email user_data)).
    destruct (find _ us) as [q|], (find _ (users w)) as [q'|];
      cbn [option_map] in Hactive; try discriminate; [|reflexivity].
    injection Hactive as ->. by destruct (User.is_active q').
Qed.

(** ** Password reset, end to end *)



(** ** Registration, end to end *)

Lemma register_user_eval now user_in w :
  register_user now user_in w =
  if existsb (user_selected [ByUsername (UserCreate.username user_in)]) (users w)
  then (Raise (HTTPException BadRequest "Username already exists"), w)
  else if existsb (user_selected [ByEmail (UserCreate.email user_in)]) (users w)
  then (Raise (HTTPException BadRequest "Email already exists"), w)
  else
    let row :=
      User.mk (next_id (users w)) (UserCreate.name user_in)
        (UserCreate.username user_in) (UserCreate.email user_in)
        (bcrypt_hashpw (entropy w) (UserCreate.password user_in))
        false false None false None in
    match create_verification_token now (UserCreate.email user_in) VERIFY_ACCOUNT
            (with_users (users w ++ [row]) (with_entropy (S (entropy w)) w)) with
    | (Return token, w2) =>
        match redis_queue_enqueue "send_email"
                [("email", UserCreate.email user_in);
                 ("name", UserCreate.name user_in);
                 ("verification_code", token)] w2 with
        | (Return _, w3) =>
            (Return "User registered successfully. Please check your email for verification.",
             w3)
        | (Raise e, w3) => (Raise e, w3)
        end
    | (Raise e, w2) => (Raise e, w2)
    end.
Proof.
  unfold register_user, bind at 1, crud_users_exists, gets.
  destruct (existsb _ (users w)); [reflexivity|].
  unfold bind at 1. destruct (existsb _ (users w)); [reflexivity|].
  unfold bind at 1, get_password_hash, fresh, bind at 1, ret.
  unfold bind at 1, crud_users_create.
  cbn [users with_entropy NewUser.name NewUser.username NewUser.email
       NewUser.hashed_password NewUser.is_active NewUser.is_superuser
       NewUser.last_login from_option id User.email User.name].
  unfold bind at 1.
  destruct (create_verification_token _ _ _ _) as [[token|e] w2]; [|reflexivity].
  unfold bind.
  by destruct (redis_queue_enqueue _ _ w2) as [[job|e] w3].
Qed.

Lemma existsb_false_all {A} (p : A -> bool) (l : list A) :
  existsb p l = false -> forall x, In x l -> p x = false.
Proof.
  induction l as [|y l IH]; simpl; [done|].
  intros Hor x [<-|Hin]; apply orb_false_elim in Hor as [Hy Hl]; auto.
Qed.




(** X13: a registration whose mail job cannot be enqueued fails half
    way.  The caller gets the error, but the principal has been created
    and stays: the same registration sent again is refused because the
    username now exists. *)
Theorem register_enqueue_failure_leaves_account (now later : Z)
    (user_in : UserCreate.t) (w : World) :
  existsb (user_selected [ByUsername (UserCreate.username user_in)]) (users w)
    = false ->
  existsb (user_selected [ByEmail (UserCreate.email user_in)]) (users w) = false ->
  queue_reachable w = false ->
  exists w1,
    register_user now user_in w = (Raise ConnectionError, w1) /\
    users w1 =
      users w ++
        [User.mk (next_id (users w)) (UserCreate.name user_in)
           (UserCreate.username user_in) (UserCreate.email user_in)
           (bcrypt_hashpw (entropy w) (UserCreate.password user_in))
           false false None false None] /\
    queue_jobs w1 = queue_jobs w /\
    register_user later user_in w1 =
      (Raise (HTTPException BadRequest "Username already exists"), w1).
Proof.
  intros Hname_free Hemail_free Hqueue.
  rewrite register_user_eval, Hname_free, Hemail_free. cbv zeta.
  rewrite create_verification_token_eval. unfold redis_queue_enqueue.
  cbn [cache with_users with_entropy entropy].
  destruct (reachable (cache w));
    cbn [queue_reachable with_cache with_users with_entropy]; rewrite Hqueue;
    cbn [negb]; eexists; (split; [reflexivity|]); (split; [reflexivity|]);
    (split; [reflexivity|]);
    rewrite register_user_eval;
    cbn [users with_cache with_users with_entropy];
    rewrite existsb_app; simpl;
    by rewrite String.eqb_refl, orb_true_r.
Qed.

(** X14: a soft-deleted account keeps its username taken, and only a
    purge frees it.  After the superuser's delete, a registration under
    the username is refused; after the purge no row carries it, and the
    rows under other usernames are all still there. *)
Theorem username_reserved_until_purged (username msg : string)
    (w w1 : World) :
  (delete_user username w = (Return msg, w1) ->
   forall now user_in,
     UserCreate.username user_in = username ->
     register_user now user_in w1 =
       (Raise (HTTPException BadRequest "Username already exists"), w1)) /\
  (delete_db_user username w = (Return msg, w1) ->
   existsb (user_selected [ByUsername username]) (users w1) = false /\
   forall u, In u (users w1) <-> In u (users w) /\ User.username u <> username).
Proof.
  split.
  - unfold delete_user, bind at 1, crud_users_get, gets.
    destruct (find _ (users w)) as [u|] eqn:Hfind; [|discriminate].
    unfold bind, crud_users_delete, modify, ret. intros [= _ <-].
    intros now user_in Hname. rewrite register_user_eval, Hname.
    cbn [users with_users].
    replace (existsb _ _) with true; [reflexivity|]. symmetry.
    apply find_some in Hfind as [Hin Hsel]. apply existsb_exists.
    exists (soft_delete u). split.
    + apply in_map_iff. exists u. unfold user_selected in Hsel. simpl in Hsel.
      by rewrite Hsel.
    + rewrite selected_by_username in *. exact Hsel.
  - unfold delete_db_user, bind at 1, crud_users_exists, gets.
    destruct (existsb _ (users w)); cbn [negb]; [|discriminate].
    unfold bind, crud_users_db_delete, modify, ret. intros [= _ <-].
    cbn [users with_users]. split.
    + apply not_true_is_false. intros Hex.
      apply existsb_exists in Hex as (u & Hin & Hsel).
      apply filter_In in Hin as [_ Hkeep].
      unfold user_selected in Hsel, Hkeep. simpl in Hsel, Hkeep.
      by rewrite Hsel in Hkeep.
    + intros u. rewrite filter_In. unfold user_selected. simpl.
      rewrite andb_true_r.
      destruct (String.eqb_spec (User.username u) username) as [E|E]; simpl;
        intuition congruence.
Qed.

(** ** No two principals share an id, a username or an email *)

Lemma unique_same_rows w w' :
  map User.id (users w') = map User.id (users w) ->
  map User.username (users w') = map User.username (users w) ->
  map User.email (users w') = map User.email (users w) ->
  unique_principals w -> unique_principals w'.
Proof. unfold unique_principals. by intros -> -> ->. Qed.

Lemma unique_same_users w w' :
  users w' = users w -> unique_principals w -> unique_principals w'.
Proof. unfold unique_principals. by intros ->. Qed.

Lemma unique_ret {A} (a : A) : keeps_unique (ret a).
Proof. by intros w. Qed.

Lemma unique_raise {A} (e : PyException) : keeps_unique (@raise A e).
Proof. by intros w. Qed.

Lemma unique_gets {A} (f : World -> A) : keeps_unique (gets f).
Proof. by intros w. Qed.

Lemma unique_bind {A B} (m : M A) (k : A -> M B) :
  keeps_unique m -> (forall a, keeps_unique (k a)) -> keeps_unique (bind m k).
Proof.
  intros Hm Hk w Hw. unfold bind. specialize (Hm w Hw).
  destruct (m w) as [[a|e] w1]; [|exact Hm]. by apply Hk.
Qed.

Lemma unique_try_JWTError {A} (body handler : M A) :
  keeps_unique body -> keeps_unique handler ->
  keeps_unique (try_except_JWTError body handler).
Proof.
  intros Hb Hh w Hw. unfold try_except_JWTError. specialize (Hb w Hw).
  destruct (body w) as [[a|e] w1]; [exact Hb|].
  destruct e; try exact Hb. by apply Hh.
Qed.

(** A step that does not touch the user table. *)
Lemma unique_frame {A} (m : M A) :
  (forall w, users (m w).2 = users w) -> keeps_unique m.
Proof. intros Hm w. apply unique_same_users, Hm. Qed.

(** A row-wise rewrite that keeps id, username and email. *)
Lemma unique_rewrite (f : User.t -> User.t) :
  (forall u, User.id (f u) = User.id u /\
             User.username (f u) = User.username u /\
             User.email (f u) = User.email u) ->
  keeps_unique (modify (fun db => with_users (map f (users db)) db)).
Proof.
  intros Hf w. apply unique_same_rows; cbn [snd modify users with_users];
    rewrite map_map; apply map_ext; intros u; by destruct (Hf u) as (? & ? & ?).
Qed.

Lemma NoDup_map_filter {A B} (f : A -> B) (p : A -> bool) (l : list A) :
  NoDup (map f l) -> NoDup (map f (List.filter p l)).
Proof.
  induction l as [|x l IH]; simpl; [done|].
  rewrite NoDup_cons. intros [Hx Hl]. destruct (p x); simpl; [|auto].
  apply NoDup_cons. split; [|auto]. intros Hin. apply Hx.
  apply list_elem_of_In, in_map_iff in Hin as (y & Hy & Hin).
  apply filter_In in Hin as [Hin _].
  apply list_elem_of_In, in_map_iff. eauto.
Qed.

Lemma unique_purge (p : User.t -> bool) :
  keeps_unique (modify (fun db => with_users (List.filter p (users db)) db)).
Proof.
  intros w (Hid & Hname & Hemail). cbn [snd modify].
  repeat split; cbn [users with_users]; by apply NoDup_map_filter.
Qed.

Lemma next_id_above (us : list User.t) u :
  In u us -> (User.id u < next_id us)%nat.
Proof.
  unfold next_id. induction us as [|x us IH]; simpl; [done|].
  intros [<-|Hin]; [lia|]. specialize (IH Hin). lia.
Qed.

Lemma NoDup_map_snoc {A B} (f : A -> B) (l : list A) (x : A) :
  NoDup (map f l) -> (forall y, In y l -> f y <> f x) -> NoDup (map f (l ++ [x])).
Proof.
  intros Hl Hx. rewrite map_app. apply NoDup_app. split; [exact Hl|].
  split; [|apply NoDup_singleton].
  intros b Hb Hb'. apply list_elem_of_In in Hb, Hb'.
  apply in_map_iff in Hb as (y & <- & Hy). simpl in Hb'.
  destruct Hb' as [E|[]]. by apply (Hx y Hy).
Qed.

(** A new row under a free username and a free email, with the next id. *)
Lemma unique_new_row w w' name username email hashed active super :
  existsb (user_selected [ByUsername username]) (users w) = false ->
  existsb (user_selected [ByEmail email]) (users w) = false ->
  users w' = users w ++ [User.mk (next_id (users w)) name username email hashed
                           active super None false None] ->
  unique_principals w -> unique_principals w'.
Proof.
  intros Hname Hemail Husers (Hi & Hn & He). unfold unique_principals.
  rewrite Husers. repeat split; apply NoDup_map_snoc; try done; intros y Hin; simpl.
  - pose proof (next_id_above _ _ Hin). lia.
  - pose proof (existsb_false_all _ _ Hname y Hin) as Hy.
    rewrite selected_by_username in Hy. by apply String.eqb_neq.
  - pose proof (existsb_false_all _ _ Hemail y Hin) as Hy.
    rewrite selected_by_email in Hy. by apply String.eqb_neq.
Qed.

Lemma unique_redis_set now k v ex : keeps_unique (RedisStorage_set now k v ex).
Proof.
  apply unique_frame. intros w. unfold RedisStorage_set.
  destruct (reachable (cache w)); [|done].
  destruct ex as [s|]; [destruct (s <=? 0)|]; done.
Qed.

Lemma unique_redis_get now k d : keeps_unique (RedisStorage_get now k d).
Proof.
  apply unique_frame. intros w. unfold RedisStorage_get.
  by destruct (reachable (cache w)), d.
Qed.

Lemma unique_enqueue f kw : keeps_unique (redis_queue_enqueue f kw).
Proof.
  apply unique_frame. intros w. unfold redis_queue_enqueue.
  by destruct (queue_reachable w).
Qed.

Lemma unique_fresh : keeps_unique fresh.
Proof. by apply unique_frame. Qed.

Lemma unique_blacklist_create e : keeps_unique (crud_token_blacklist_create e).
Proof. by apply unique_frame. Qed.

Lemma unique_is_rate_limited now s p l d :
  keeps_unique (is_rate_limited now s p l d).
Proof. by apply unique_frame. Qed.

Lemma unique_add_task f kw : keeps_unique (add_task f kw).
Proof. by apply unique_frame. Qed.

Lemma unique_users_update patch filters :
  keeps_unique (crud_users_update patch filters).
Proof.
  apply unique_rewrite. intros u.
  destruct (user_selected filters u); [|done]. by destruct patch.
Qed.

Lemma unique_users_delete filters : keeps_unique (crud_users_delete filters).
Proof.
  apply unique_rewrite. intros u. by destruct (user_selected filters u).
Qed.

Lemma unique_users_update_tier t filters :
  keeps_unique (crud_users_update_tier t filters).
Proof.
  apply unique_rewrite. intros u. by destruct (user_selected filters u).
Qed.

Lemma unique_users_db_delete filters : keeps_unique (crud_users_db_delete filters).
Proof. apply unique_purge. Qed.

Create HintDb unique discriminated.
#[local] Hint Resolve unique_ret unique_raise unique_gets unique_fresh
  unique_redis_set unique_redis_get unique_enqueue unique_blacklist_create
  unique_is_rate_limited unique_add_task unique_users_update unique_users_delete
  unique_users_update_tier unique_users_db_delete : unique.

Ltac unique_step :=
  match goal with
  | |- keeps_unique (bind _ _) => apply unique_bind; [| intros ?]
  | |- keeps_unique (try_except_JWTError _ _) => apply unique_try_JWTError
  | |- keeps_unique (match ?x with _ => _ end) => destruct x
  | |- keeps_unique _ => solve [auto with unique]
  end.

Ltac unique := repeat unique_step.

Lemma unique_verify_token now t e : keeps_unique (verify_token now t e).
Proof. apply unique_frame. intros w. by rewrite verify_token_eval. Qed.

Lemma unique_get_current_user now t : keeps_unique (get_current_user now t).
Proof.
  apply unique_frame. intros w. rewrite get_current_user_eval.
  destruct (verify_token now t ACCESS w) as [[[d|]|e] w']; try done.
  destruct (principal_for _ w) as [u|]; [|done]. by destruct (User.is_active u).
Qed.

Lemma unique_create_verification_token now e t :
  keeps_unique (create_verification_token now e t).
Proof. unfold create_verification_token. unique. Qed.

Lemma unique_register_user now user_in : keeps_unique (register_user now user_in).
Proof.
  intros w Hw. rewrite register_user_eval.
  destruct (existsb (user_selected [ByUsername (UserCreate.username user_in)])
              (users w)) eqn:Hname; [exact Hw|].
  destruct (existsb (user_selected [ByEmail (UserCreate.email user_in)])
              (users w)) eqn:Hemail; [exact Hw|]. cbv zeta.
  match goal with
  | |- context [create_verification_token _ _ _ ?W] =>
      assert (unique_principals W) as HW by (by eapply unique_new_row);
      pose proof (unique_create_verification_token now
                    (UserCreate.email user_in) VERIFY_ACCOUNT W HW) as H2;
      destruct (create_verification_token now (UserCreate.email user_in)
                  VERIFY_ACCOUNT W) as [[token|e] w2]
  end; [|exact H2].
  cbn [snd] in H2.
  match goal with
  | |- context [redis_queue_enqueue ?f ?kw w2] =>
      pose proof (unique_enqueue f kw w2 H2) as H3;
      destruct (redis_queue_enqueue f kw w2) as [[job|e] w3]
  end; exact H3.
Qed.

Lemma unique_create_user user : keeps_unique (create_user user).
Proof.
  intros w Hw. unfold create_user, bind at 1, crud_users_exists, gets.
  destruct (existsb (user_selected [ByEmail (UserCreate.email user)])
              (users w)) eqn:Hemail; [exact Hw|].
  unfold bind at 1.
  destruct (existsb (user_selected [ByUsername (UserCreate.username user)])
              (users w)) eqn:Hname; [exact Hw|].
  unfold bind, get_password_hash, fresh, ret, crud_users_create. cbn [snd].
  by eapply unique_new_row.
Qed.

#[local] Hint Resolve unique_verify_token unique_get_current_user
  unique_create_verification_token unique_register_user unique_create_user
  : unique.

(** X15: every call of a handler, whatever it answers, leads from a user
    table in which ids, usernames and emails are pairwise distinct to
    one in which they still are: registration and creation refuse a
    taken username or email and take the next id, and no other handler
    changes any of the three. *)
Theorem principals_stay_unique (c : Call) (now : Z) (token : string)
    (a : AdminCall) (w : World) :
  unique_principals w ->
  unique_principals (after c w) /\ unique_principals (after_admin now token a w).
Proof.
  intros Hw. split.
  - revert w Hw. destruct c; simpl;
      match goal with |- forall w, _ -> unique_principals (?m w).2 =>
        change (keeps_unique m) end.
    + unfold login_for_access_token, authenticate_user, verify_password,
        create_access_token, create_refresh_token, crud_users_get. unique.
    + unfold refresh_access_token, create_access_token, create_refresh_token,
        crud_users_get. unique.
    + unfold logout, blacklist_tokens, for_each, jwt_decode_call,
        datetime_fromtimestamp. unique.
    + auto with unique.
    + unfold verify_account, verify_token_from_redis, crud_users_get. unique.
    + unfold request_password_reset, crud_users_get. unique.
    + unfold reset_password, verify_token_from_redis, crud_users_get,
        get_password_hash. unique.
    + unfold delete_user_me, blacklist_token, jwt_decode_call,
        datetime_fromtimestamp. unique.
    + auto with unique.
    + unfold rate_limiter_dependency, resolve_rate_limit, crud_tiers_get,
        crud_rate_limits_get. unique.
  - revert w Hw. destruct a; simpl;
      match goal with |- forall w, _ -> unique_principals (?m w).2 =>
        change (keeps_unique m) end;
      unfold with_superuser, get_current_superuser.
    + unique.
    + unfold delete_user, crud_users_get. unique.
    + unfold delete_db_user, crud_users_exists. unique.
    + unfold update_user_tier, crud_users_get, crud_tiers_get. unique.
Qed.

(** ** The superuser's endpoints *)

Lemma get_current_user_Return now token w u w' :
  get_current_user now token w = (Return u, w') ->
  w' = w /\
  blacklisted token w = false /\
  exists payload name,
    jwt_decode now token = inr payload /\
    Claims.sub payload = Some name /\
    Claims.token_type payload = Some (TokenType_value ACCESS) /\
    principal_for name w = Some u /\
    User.is_active u = true.
Proof.
  rewrite get_current_user_eval.
  destruct (verify_token now token ACCESS w) as [[[data|]|e] w0] eqn:Hv;
    try discriminate.
  apply verify_token_Some in Hv as (Hfree & payload & Hd & Hs & Ht).
  destruct (principal_for _ w) as [user|] eqn:Hp; [|discriminate].
  destruct (User.is_active user) eqn:Ha; [|discriminate].
  intros [= <- <-]. split; [done|]. split; [done|].
  by exists payload, (username_or_email data).
Qed.

Lemma get_current_user_Raise now token w e w' :
  get_current_user now token w = (Raise e, w') ->
  w' = w /\ exists detail, e = HTTPException Unauthorized detail.
Proof.
  rewrite get_current_user_eval.
  destruct (verify_token now token ACCESS w) as [[[data|]|e0] w0];
    [|intros [= <- <-]; eauto..].
  destruct (principal_for _ w) as [user|]; [|intros [= <- <-]; eauto].
  destruct (User.is_active user); [discriminate|].
  intros [= <- <-]. unfold not_activated. eauto.
Qed.

(** X16: an endpoint behind the superuser dependency runs only for an
    access token that is not revoked, is accepted by the codec, and names
    a principal that is not soft-deleted, is active and is a superuser.
    For every other caller the endpoint is not run: nothing changes, and
    the answer is Unauthorized, or Forbidden for a principal without the
    privilege. *)
Theorem superuser_endpoints_guarded {A} (now : Z) (token : string)
    (endpoint : M A) (w : World) :
  (forall a w',
      with_superuser now token endpoint w = (Return a, w') ->
      endpoint w = (Return a, w') /\
      blacklisted token w = false /\
      exists payload name u,
        jwt_decode now token = inr payload /\
        Claims.sub payload = Some name /\
        Claims.token_type payload = Some (TokenType_value ACCESS) /\
        principal_for name w = Some u /\
        User.is_active u = true /\
        User.is_superuser u = true) /\
  (forall e w',
      with_superuser now token endpoint w = (Raise e, w') ->
      endpoint w = (Raise e, w') \/
      (w' = w /\
       (e = HTTPException Forbidden "You do not have enough privileges." \/
        exists detail, e = HTTPException Unauthorized detail))).
Proof.
  unfold with_superuser, get_current_superuser, bind.
  destruct (get_current_user now token w) as [[u|e0] w0] eqn:Hcur.
  - apply get_current_user_Return in Hcur
      as (-> & Hfree & payload & name & Hd & Hs & Ht & Hp & Ha).
    destruct (User.is_superuser u) eqn:Hsuper; simpl.
    + split.
      * intros a w' Hrun. destruct (endpoint w) as [[a'|e'] w1]; [|discriminate].
        split; [done|]. split; [done|]. by exists payload, name, u.
      * intros e w' Hrun. left.
        by destruct (endpoint w) as [[a'|e'] w1].
    + split; [discriminate|]. intros e w' [= <- <-]. right. eauto.
  - apply get_current_user_Raise in Hcur as (-> & detail & ->).
    split; [discriminate|]. intros e w' [= <- <-]. right. eauto.
Qed.

(** ** Tiers and their rules *)

Lemma crud_tiers_get_id tid tier w w' :
  crud_tiers_get tid w = (Return (Some tier), w') ->
  tid = Some (Tier.id tier) /\ In tier (tiers w).
Proof.
  unfold crud_tiers_get, gets. destruct tid as [i|]; [|discriminate].
  intros [= Hfind _]. apply find_some in Hfind as [Hin Hid].
  apply Nat.eqb_eq in Hid. by subst i.
Qed.

Lemma firstn_subset {A} (n : nat) (l : list A) (x : A) :
  In x (firstn n l) -> In x l.
Proof.
  revert n. induction l as [|y l IH]; intros [|n]; simpl; try tauto.
  intros [->|Hin]; eauto.
Qed.

(** X17: what the limiter applies and what the user is shown.  A user
    without tier is shown no rules and gets the default.  A user whose
    tier exists is shown one page of that tier's rules: every rule shown
    is a rule of the tier, and as many are shown as the tier has, up to
    the page size of 100.  While the tier has no more rules than a page
    holds, the rules shown are exactly the rules of the tier, and the
    rule the limiter picks for a path is among them.  For a user whose
    tier row is missing the limiter quietly applies the default, while
    the listing endpoint answers NotFound. *)
Theorem listed_rules_match_limiter (request : Request.t) (path : string)
    (u : User.t) (w : World) :
  (User.tier_id u = None ->
   read_user_me_rate_limits u w = (Return (u, []), w) /\
   resolve_rate_limit request path (Some u) w =
     (Return (inl (User.id u), DEFAULT_LIMIT, DEFAULT_PERIOD), w)) /\
  (forall tier,
      crud_tiers_get (User.tier_id u) w = (Return (Some tier), w) ->
      exists rules,
        read_user_me_rate_limits u w = (Return (u, rules), w) /\
        (forall r, In r rules ->
                   In r (rate_limits w) /\ RateLimitRule.tier_id r = Tier.id tier) /\
        length rules =
          Nat.min GET_MULTI_DEFAULT_LIMIT
            (length (List.filter
                       (fun r => Nat.eqb (RateLimitRule.tier_id r) (Tier.id tier))
                       (rate_limits w))) /\
        (length (List.filter
                   (fun r => Nat.eqb (RateLimitRule.tier_id r) (Tier.id tier))
                   (rate_limits w)) <= GET_MULTI_DEFAULT_LIMIT ->
         (forall r, In r rules <->
                    In r (rate_limits w) /\
                    RateLimitRule.tier_id r = Tier.id tier) /\
         forall rule,
           crud_rate_limits_get (Tier.id tier) path w = (Return (Some rule), w) ->
           In rule rules /\
           RateLimitRule.path rule = path /\
           resolve_rate_limit request path (Some u) w =
             (Return (inl (User.id u), RateLimitRule.limit rule,
                      RateLimitRule.period rule), w))%nat) /\
  (User.tier_id u <> None ->
   crud_tiers_get (User.tier_id u) w = (Return None, w) ->
   read_user_me_rate_limits u w =
     (Raise (HTTPException NotFound "Tier not found"), w) /\
   resolve_rate_limit request path (Some u) w =
     (Return (inl (User.id u), DEFAULT_LIMIT, DEFAULT_PERIOD), w)).
Proof.
  split; [|split].
  - intros Hnone. unfold read_user_me_rate_limits, resolve_rate_limit, bind,
      crud_tiers_get, gets. by rewrite Hnone.
  - intros tier Htier.
    pose proof (crud_tiers_get_id _ _ _ _ Htier) as [Hid _].
    set (all := List.filter
                  (fun r => Nat.eqb (RateLimitRule.tier_id r) (Tier.id tier))
                  (rate_limits w)).
    exists (firstn GET_MULTI_DEFAULT_LIMIT all).
    assert (forall r, In r all <->
                      In r (rate_limits w) /\
                      RateLimitRule.tier_id r = Tier.id tier) as Hall
      by (intros r; unfold all; rewrite filter_In, Nat.eqb_eq; tauto).
    split; [|split; [|split]].
    + unfold read_user_me_rate_limits.
      destruct (User.tier_id u) as [t|] eqn:Et; [|discriminate].
      unfold bind at 1. by rewrite Htier.
    + intros r Hin. apply Hall. by eapply firstn_subset.
    + apply length_firstn.
    + intros Hfits. rewrite firstn_all2 by exact Hfits.
      split; [exact Hall|].
      intros rule Hrule. pose proof Hrule as Hfind.
      unfold crud_rate_limits_get, gets in Hfind. injection Hfind as Hfind.
      apply find_some in Hfind as [Hin Hsel].
      apply andb_prop in Hsel as [Ht Hp].
      apply String.eqb_eq in Hp. split; [|split; [exact Hp|]].
      * apply Hall. split; [exact Hin|]. by apply Nat.eqb_eq.
      * unfold resolve_rate_limit, bind at 1. rewrite Htier.
        unfold bind. by rewrite Hrule.
  - intros Hsome Htier. destruct (User.tier_id u) as [t|] eqn:Ht; [|done].
    unfold read_user_me_rate_limits, resolve_rate_limit. rewrite Ht.
    unfold bind. by rewrite Htier.
Qed.

Lemma update_user_tier_eval username t w :
  update_user_tier username t w =
  match find (user_selected [ByUsername username]) (users w) with
  | Some db_user =>
      match find (fun x => Nat.eqb (Tier.id x) t) (tiers w) with
      | Some _ =>
          (Return ("User " +:+ User.name db_user +:+ " Tier updated"),
           with_users
             (map (fun u =>
                     if user_selected [ByUsername username] u
                     then User.mk (User.id u) (User.name u) (User.username u)
                            (User.email u) (User.hashed_password u)
                            (User.is_active u) (User.is_superuser u) (Some t)
                            (User.is_deleted u) (User.last_login u)
                     else u)
                  (users w))
             w)
      | None => (Raise (HTTPException NotFound "Tier not found"), w)
      end
  | None => (Raise (HTTPException NotFound "User not found"), w)
  end.
Proof.
  unfold update_user_tier, bind at 1, crud_users_get, gets.
  destruct (find _ (users w)) as [db_user|]; [|reflexivity].
  unfold bind at 1, crud_tiers_get, gets.
  destruct (find _ (tiers w)) as [tier|]; reflexivity.
Qed.

(** X18: a tier change takes effect at the next request.  With a row
    under the username and the tier in the tier table, update-user-tier
    answers "User <name> Tier updated", and it succeeds in no other case.
    The table of users after it is the table before it, row by row and in
    the same order, with [tier_id] set on the rows under the username and
    every other row, and every other field of those rows, as it was;
    nothing else in the world changes.  The limiter then resolves a user
    under that username to the new tier's rule for the path, or to the
    default when the tier has none.  An unknown tier is refused with
    NotFound and changes nothing. *)
Theorem tier_change_takes_effect (username : string) (t : nat) (w : World)
    (request : Request.t) (path : string) :
  (forall db_user tier,
      find (fun u => String.eqb (User.username u) username) (users w)
        = Some db_user ->
      find (fun x => Nat.eqb (Tier.id x) t) (tiers w) = Some tier ->
      exists w1,
        update_user_tier username t w =
          (Return ("User " +:+ User.name db_user +:+ " Tier updated"), w1)) /\
  (forall msg w1,
      update_user_tier username t w = (Return msg, w1) ->
      (exists tier, In tier (tiers w) /\ Tier.id tier = t) /\
      (exists db_user, In db_user (users w) /\ User.username db_user = username) /\
      w1 = with_users
             (map (fun u =>
                     if String.eqb (User.username u) username
                     then User.mk (User.id u) (User.name u) (User.username u)
                            (User.email u) (User.hashed_password u)
                            (User.is_active u) (User.is_superuser u) (Some t)
                            (User.is_deleted u) (User.last_login u)
                     else u)
                  (users w))
             w /\
      length (users w1) = length (users w) /\
      (forall i u,
          users w !! i = Some u ->
          exists u',
            users w1 !! i = Some u' /\
            (User.username u <> username -> u' = u) /\
            (User.username u = username ->
             User.tier_id u' = Some t /\
             User.id u' = User.id u /\ User.name u' = User.name u /\
             User.username u' = User.username u /\ User.email u' = User.email u /\
             User.hashed_password u' = User.hashed_password u /\
             User.is_active u' = User.is_active u /\
             User.is_superuser u' = User.is_superuser u /\
             User.is_deleted u' = User.is_deleted u /\
             User.last_login u' = User.last_login u)) /\
      (forall u,
          In u (users w1) -> User.username u = username ->
          User.tier_id u = Some t /\
          resolve_rate_limit request path (Some u) w1 =
            match find (fun r => Nat.eqb (RateLimitRule.tier_id r) t
                                 && String.eqb (RateLimitRule.path r) path)
                    (rate_limits w) with
            | Some rule =>
                (Return (inl (User.id u), RateLimitRule.limit rule,
                         RateLimitRule.period rule), w1)
            | None =>
                (Return (inl (User.id u), DEFAULT_LIMIT, DEFAULT_PERIOD), w1)
            end)) /\
  (find (fun x => Nat.eqb (Tier.id x) t) (tiers w) = None ->
   exists detail,
     update_user_tier username t w = (Raise (HTTPException NotFound detail), w)).
Proof.
  rewrite update_user_tier_eval.
  rewrite (find_pointwise (user_selected [ByUsername username])
             (fun u => String.eqb (User.username u) username))
    by apply selected_by_username.
  split; [|split].
  - intros db_user tier -> ->. eauto.
  - intros msg w1.
    destruct (find _ (users w)) as [db_user|] eqn:Huser; [|discriminate].
    destruct (find _ (tiers w)) as [tier|] eqn:Htier; [|discriminate].
    intros Hrun.
    set (f := fun u : User.t =>
                if String.eqb (User.username u) username
                then User.mk (User.id u) (User.name u) (User.username u)
                       (User.email u) (User.hashed_password u)
                       (User.is_active u) (User.is_superuser u) (Some t)
                       (User.is_deleted u) (User.last_login u)
                else u).
    assert (w1 = with_users (map f (users w)) w) as ->.
    { injection Hrun as _ <-. f_equal. apply map_ext. intros u.
      by rewrite andb_true_r. }
    clear Hrun. pose proof (find_some _ _ Htier) as [Hin Hid].
    apply Nat.eqb_eq in Hid.
    pose proof (find_some _ _ Huser) as [Hrow Hname]. apply String.eqb_eq in Hname.
    split; [by exists tier|]. split; [by exists db_user|].
    split; [reflexivity|]. split; [|split].
    + cbn [users with_users]. apply length_map.
    + intros i u Hi. exists (f u). cbn [users with_users].
      split; [by rewrite list_lookup_fmap, Hi|]. unfold f.
      destruct (String.eqb_spec (User.username u) username) as [Heq|Hne].
      * split; [done|]. intros _. cbn. by repeat split.
      * by split.
    + intros u Hu Hname'. cbn [users with_users] in Hu.
      apply in_map_iff in Hu as (u0 & Hu0 & _). unfold f in Hu0.
      destruct (String.eqb_spec (User.username u0) username) as [Heq|Hne].
      * subst u. split; [reflexivity|].
        unfold resolve_rate_limit, bind, crud_tiers_get, crud_rate_limits_get, gets.
        cbn [User.tier_id User.id tiers rate_limits with_users].
        rewrite Htier, Hid. cbn [rate_limits with_users]. unfold ret.
        by destruct (find _ (rate_limits w)).
      * by subst u0.
  - intros Hnone. rewrite Hnone. destruct (find _ (users w)); eauto.
Qed.

(** ** The first-superuser migration *)

Lemma upgrade_eval settings w :
  upgrade settings w =
  (Return tt,
   if existsb User.is_superuser (users w) then w
   else
     with_users
       (users w ++
          [User.mk (next_id (users w)) (Admin.name settings)
             (Admin.username settings) (Admin.email settings)
             (bcrypt_hashpw (entropy w) (Admin.password settings))
             true true None false None])
       (with_entropy (S (S (entropy w))) w)).
Proof.
  unfold upgrade, bind at 1, gets.
  destruct (find User.is_superuser (users w)) as [u|] eqn:Hfind.
  - apply find_some in Hfind as [Hin Hs].
    replace (existsb User.is_superuser (users w)) with true; [reflexivity|].
    symmetry. apply existsb_exists. eauto.
  - replace (existsb User.is_superuser (users w)) with false.
    + reflexivity.
    + symmetry. apply not_true_is_false. intros Hex.
      apply existsb_exists in Hex as (u & Hin & Hs).
      by rewrite (find_none _ _ Hfind u Hin) in Hs.
Qed.

(** X19: the migration's upgrade is idempotent and leaves a superuser
    behind.  On a table that already holds a superuser, soft-deleted or
    not, it changes nothing; otherwise, the administrator's username and
    email being free, it adds exactly one row, an active superuser; run
    again, it changes nothing. *)
Theorem upgrade_idempotent (settings : Admin.t) (w : World) :
  existsb User.is_superuser (users w) = true \/
  (existsb (user_selected [ByUsername (Admin.username settings)]) (users w) = false /\
   existsb (user_selected [ByEmail (Admin.email settings)]) (users w) = false) ->
  existsb User.is_superuser (users (upgrade settings w).2) = true /\
  upgrade settings (upgrade settings w).2 = (Return tt, (upgrade settings w).2) /\
  (existsb User.is_superuser (users w) = true ->
   upgrade settings w = (Return tt, w)) /\
  (existsb User.is_superuser (users w) = false ->
   exists row,
     users (upgrade settings w).2 = users w ++ [row] /\
     User.username row = Admin.username settings /\
     User.is_active row = true /\ User.is_superuser row = true /\
     User.is_deleted row = false /\
     (unique_principals w -> unique_principals (upgrade settings w).2)).
Proof.
  intros Hpre.
  assert (existsb User.is_superuser (users (upgrade settings w).2) = true) as Hsuper.
  { rewrite upgrade_eval. cbn [snd].
    destruct (existsb User.is_superuser (users w)) eqn:Hex; [exact Hex|].
    cbn [users with_users]. rewrite existsb_app. simpl. by rewrite orb_true_r. }
  split; [exact Hsuper|]. split; [|split].
  - rewrite (upgrade_eval settings (upgrade settings w).2). by rewrite Hsuper.
  - intros Hex. by rewrite upgrade_eval, Hex.
  - intros Hex. destruct Hpre as [Hex'|[Hname Hemail]]; [congruence|].
    rewrite upgrade_eval, Hex. eexists. split; [reflexivity|].
    do 4 (split; [reflexivity|]). intros Hw. by eapply unique_new_row.
Qed.

(** X20: downgrade undoes upgrade only on a table that had neither a
    superuser nor a row under the administrator's username: then the user
    table after upgrade and downgrade is the one before.  In any case no
    row is left under that username, whether or not upgrade had inserted
    it. *)
Theorem downgrade_undoes_upgrade (settings : Admin.t) (w : World) :
  existsb (user_selected [ByUsername (Admin.username settings)])
    (users (downgrade settings w).2) = false /\
  (existsb User.is_superuser (users w) = false ->
   existsb (user_selected [ByUsername (Admin.username settings)]) (users w) = false ->
   users (downgrade settings (upgrade settings w).2).2 = users w).
Proof.
  assert (forall us : list User.t,
    existsb (user_selected [ByUsername (Admin.username settings)]) us = false ->
    List.filter (fun u => negb (String.eqb (User.username u) (Admin.username settings)))
      us = us) as Hkeep.
  { induction us as [|u us IH]; simpl; [done|].
    rewrite andb_true_r. intros Hor. apply orb_false_elim in Hor as [Hu Hus].
    rewrite Hu. simpl. by rewrite IH. }
  split.
  - cbn [downgrade modify snd users with_users].
    apply not_true_is_false. intros Hex.
    apply existsb_exists in Hex as (u & Hin & Hsel).
    apply filter_In in Hin as [_ Hnot]. rewrite selected_by_username in Hsel.
    by rewrite Hsel in Hnot.
  - intros Hsuper Hfree. rewrite upgrade_eval, Hsuper.
    cbn [downgrade modify snd users with_users].
    rewrite List.filter_app, Hkeep by exact Hfree. simpl.
    rewrite String.eqb_refl. simpl. apply app_nil_r.
Qed.

(** ** The password pattern *)

Lemma match_any_branch pattern atoms at_start s :
  In atoms pattern -> match_here atoms at_start s = true ->
  match_any pattern at_start s = true.
Proof. intros Hin Hm. apply existsb_exists. eauto. Qed.

(** One character of a set is enough for [set+] at the head of a text. *)
Lemma match_here_plus member at_start c rest :
  member c = true ->
  match_here [Many 1 member] at_start (String c rest) = true.
Proof. intros Hc. destruct rest; simpl; by rewrite Hc. Qed.

Lemma match_any_alnum at_start c rest :
  is_alnum c = true ->
  match_any PASSWORD_PATTERN at_start (String c rest) = true.
Proof.
  unfold is_alnum. intros Hc.
  apply orb_prop in Hc as [Hc|Hdigit]; [apply orb_prop in Hc as [Hlower|Hupper]|].
  - apply (match_any_branch _ [Many 1 is_lower]); [simpl; tauto|].
    by apply match_here_plus.
  - apply (match_any_branch _ [Many 1 is_upper]); [simpl; tauto|].
    by apply match_here_plus.
  - apply (match_any_branch _ [Many 1 is_digit]); [simpl; tauto|].
    by apply match_here_plus.
Qed.

Lemma search_nonempty at_start c rest :
  search_from PASSWORD_PATTERN at_start (String c rest) = true.
Proof.
  revert at_start c. induction rest as [|c' rest IH]; intros at_start c.
  - cbn [search_from]. destruct (is_alnum c) eqn:Hc.
    + by rewrite match_any_alnum.
    + rewrite (match_any_branch _ [Many 1 (fun c => negb (is_alnum c)); Eol]);
        [reflexivity|simpl; tauto|].
      simpl. by rewrite Hc.
  - cbn [search_from]. cbn [search_from] in IH. rewrite IH. apply orb_true_r.
Qed.

(** X21: the password pattern does not ask for eight characters.
    Applied as a search, it accepts every string but the empty one;
    applied at the head of the text, it accepts every string that begins
    with a letter or a digit.  Either way a single letter passes. *)
Theorem password_pattern_accepts_short (s : string) :
  pattern_search PASSWORD_PATTERN s = str_truthy s /\
  (forall c rest,
      s = String c rest -> is_alnum c = true ->
      pattern_match PASSWORD_PATTERN s = true).
Proof.
  split.
  - destruct s as [|c rest]; [reflexivity|]. apply search_nonempty.
  - intros c rest -> Hc. by apply match_any_alnum.
Qed.

(** ** Refresh tokens are not single-use *)

(** X22: exchanging a refresh token changes nothing: the token is not
    put on the blacklist, so as long as the codec still accepts it the
    same token is exchanged again, any number of times. *)
Theorem refresh_token_reusable (now later : Z) (refresh_data : RefreshToken.t)
    (pair : Token.t) (w w' : World) :
  refresh_access_token now refresh_data w = (Return pair, w') ->
  jwt_decode later (RefreshToken.refresh_token refresh_data)
    = jwt_decode now (RefreshToken.refresh_token refresh_data) ->
  w' = w /\
  blacklisted (RefreshToken.refresh_token refresh_data) w' = false /\
  exists pair',
    refresh_access_token later refresh_data w' = (Return pair', w').
Proof.
  rewrite refresh_access_token_eval, verify_token_eval. intros Hrun Hsame.
  destruct (str_truthy _) eqn:Htruthy; [|discriminate].
  destruct (blacklisted _ w) eqn:Hfree; [discriminate|].
  destruct (jwt_decode now _) as [|payload] eqn:Hdecode; [discriminate|].
  destruct (Claims.sub payload) as [name|] eqn:Hsub; [|discriminate].
  destruct (claim_differs _ _) eqn:Htype; [discriminate|].
  simpl in Hrun.
  destruct (find _ (users w)) as [user|] eqn:Hfind; [|discriminate].
  destruct (User.is_active user) eqn:Hactive; [|discriminate].
  injection Hrun as _ <-.
  split; [reflexivity|]. split; [exact Hfree|].
  rewrite refresh_access_token_eval, verify_token_eval, Htruthy, Hfree, Hsame,
    Hsub, Htype.
  simpl. rewrite Hfind, Hactive. eauto.
Qed.

End Further.

(* ===================================================================== *)
(** * The further properties at work on the concrete worlds *)
(* ===================================================================== *)

Section FurtherEvaluation.
Existing Instance Demo.platform.

Lemma stored_value_visible_until_deadline_witness :
  RedisStorage_get 5 "k" false Demo.with_code = (Return (Some "v"), Demo.with_code) /\
  (RedisStorage_get 10 "k" false Demo.with_code).1 = Return None /\
  RedisStorage_exists 5 "k" Demo.with_code = (Return true, Demo.with_code).
Proof.
  destruct (stored_value_visible_until_deadline 0 5 "k" "v" 10 Demo.world Demo.with_code)
    as (Hlive & _ & Hexists); [vm_compute; reflexivity|].
  destruct (stored_value_visible_until_deadline 0 10 "k" "v" 10 Demo.world Demo.with_code)
    as (_ & Hdead & _); [vm_compute; reflexivity|].
  split; [apply Hlive; lia|]. split; [apply Hdead; lia|].
  rewrite Hexists. f_equal.
Defined.

Lemma other_keys_untouched_witness :
  redis_value 5 "TokenType.VERIFY_ACCOUNT:code-bob"
    (cache (RedisStorage_get 5 "k" true Demo.with_code).2)
  = redis_value 5 "TokenType.VERIFY_ACCOUNT:code-bob" (cache Demo.with_code).
Proof.
  apply (other_keys_untouched 5 5 "k" "TokenType.VERIFY_ACCOUNT:code-bob" "v"
           None true Demo.with_code).
  discriminate.
Defined.

Lemma unknown_code_refused_witness :
  exists w',
    verify_account 10 (EmailVerification.mk "b@x.com" "guess") Demo.world =
      (Raise (HTTPException BadRequest "Invalid or expired verification token"), w') /\
    users w' = users Demo.world.
Proof.
  destruct (proj1 (unknown_code_refused 10 (EmailVerification.mk "b@x.com" "guess")
                     (PasswordReset.mk "b@x.com" "guess" "Str1ngst!") Demo.world))
    as (w' & Hrun & Husers & _).
  - right. vm_compute. reflexivity.
  - exists w'. by split.
Defined.

Lemma reset_code_lost_when_cache_down_witness :
  exists w1,
    request_password_reset 10 (PasswordResetRequest.mk "a@x.com") Lab.cache_down =
      (Return "If your email is registered, you will receive password reset instructions",
       w1) /\
    cache w1 = cache Lab.cache_down /\
    reset_password 20 (PasswordReset.mk "a@x.com" "uuid-" "Str1ngst!") w1
      = (Raise (HTTPException BadRequest "Invalid or expired reset token"), w1).
Proof.
  destruct (reset_code_lost_when_cache_down 10 (PasswordResetRequest.mk "a@x.com")
              Lab.cache_down Demo.alice)
    as (w1 & Hrun & _ & Hcache & Hreset); [reflexivity..|].
  exists w1. split; [exact Hrun|]. split; [exact Hcache|].
  apply (Hreset 20 "a@x.com" "Str1ngst!").
Defined.

Lemma reset_code_does_not_verify_witness :
  exists w2,
    verify_account 20 (EmailVerification.mk "a@x.com" "uuid-")
      (create_verification_token 10 "a@x.com" RESET_PASSWORD Demo.world).2 =
      (Raise (HTTPException BadRequest "Invalid or expired verification token"), w2) /\
    users w2 = users Demo.world.
Proof.
  destruct (reset_code_does_not_verify 10 20 "a@x.com" "a@x.com" Demo.world
              (create_verification_token 10 "a@x.com" RESET_PASSWORD Demo.world).2
              "uuid-")
    as (w2 & Hrun & _ & Husers); [vm_compute; reflexivity..|].
  exists w2. by split.
Defined.

Lemma get_optional_user_agrees_witness :
  get_optional_user 10 (Some "BEARER access.alice") Demo.world =
    (Return (Some Demo.alice), Demo.world) /\
  get_optional_user 10 (Some "Basic access.alice") Demo.world =
    (Return None, Demo.world).
Proof.
  destruct (get_optional_user_agrees 10 Demo.world) as (_ & Hbad & Hgood). split.
  - exact (Hgood "BEARER" "access.alice" eq_refl eq_refl).
  - apply Hbad. left. vm_compute. discriminate.
Defined.

Lemma revoked_token_ends_session_witness :
  revoked "refresh.alice" Demo.after_logout /\
  get_current_user 20 "refresh.alice" Demo.after_logout =
    (Raise (HTTPException Unauthorized "User not authenticated."), Demo.after_logout) /\
  exists detail,
    refresh_access_token 20 (RefreshToken.mk "refresh.alice") Demo.after_logout =
      (Raise (HTTPException Unauthorized detail), Demo.after_logout).
Proof.
  assert (revoked "refresh.alice" Demo.after_logout) as Hrev.
  { apply (revoked_by_logout _ 10 (RefreshToken.mk "refresh.alice") "access.alice"
             "Logged out successfully" Demo.world).
    - vm_compute. reflexivity.
    - right. reflexivity. }
  split; [exact Hrev|].
  destruct (revoked_token_ends_session "refresh.alice" Demo.after_logout 20 Hrev)
    as (Hcur & _ & Hrefresh).
  by split.
Defined.

Lemma delete_user_me_leaves_refresh_witness :
  exists w' pair,
    delete_user_me 10 Demo.alice "access.alice" Demo.world = (Return "User deleted", w') /\
    blacklisted "access.alice" w' = true /\
    login_for_access_token 20 "alice" "wonderland" w' = (Raise wrong_credentials, w') /\
    refresh_access_token 20 (RefreshToken.mk "refresh.alice") w' = (Return pair, w').
Proof.
  destruct (delete_user_me_leaves_refresh 10 20 Demo.alice "access.alice"
              "refresh.alice"
              (Claims.mk (Some "alice") (Some "refresh") (Some 900000))
              "User deleted" Demo.world
              (delete_user_me 10 Demo.alice "access.alice" Demo.world).2)
    as (Hbl & Hlogin & pair & Hrefresh);
    try (vm_compute; reflexivity); [discriminate|].
  eexists _, pair. split; [vm_compute; reflexivity|].
  split; [exact Hbl|]. split; [apply (Hlogin "wonderland")|exact Hrefresh].
Defined.



Lemma register_enqueue_failure_leaves_account_witness :
  exists w1,
    register_user 0 Lab.dave Lab.queue_down = (Raise ConnectionError, w1) /\
    register_user 10 Lab.dave w1 =
      (Raise (HTTPException BadRequest "Username already exists"), w1).
Proof.
  destruct (register_enqueue_failure_leaves_account 0 10 Lab.dave Lab.queue_down)
    as (w1 & H1 & _ & _ & H2); try reflexivity.
  by exists w1.
Defined.

Lemma username_reserved_until_purged_witness :
  register_user 10 Demo.second_alice (delete_user "alice" Demo.world).2 =
    (Raise (HTTPException BadRequest "Username already exists"),
     (delete_user "alice" Demo.world).2) /\
  existsb (user_selected [ByUsername "alice"])
    (users (delete_db_user "alice" Demo.world).2) = false.
Proof.
  split.
  - apply (proj1 (username_reserved_until_purged "alice" "User deleted" Demo.world
                    (delete_user "alice" Demo.world).2));
      reflexivity.
  - apply (proj2 (username_reserved_until_purged "alice"
                    "User deleted from the database" Demo.world
                    (delete_db_user "alice" Demo.world).2)).
    reflexivity.
Defined.

Lemma principals_stay_unique_witness :
  unique_principals Demo.world /\
  unique_principals (after (RegisterUser 0 Lab.dave) Demo.world) /\
  unique_principals
    (after_admin 0 "access.alice" (AdminDeleteDbUser "bob") Demo.world).
Proof.
  assert (unique_principals Demo.world) as Hw.
  { repeat split; cbn; apply (bool_decide_unpack _); vm_compute; exact I. }
  split; [exact Hw|].
  apply (principals_stay_unique (RegisterUser 0 Lab.dave) 0 "access.alice"
           (AdminDeleteDbUser "bob") Demo.world Hw).
Defined.

Lemma superuser_endpoints_guarded_witness :
  with_superuser 10 "access.alice" (delete_db_user "bob") Demo.world =
    (Raise (HTTPException Forbidden "You do not have enough privileges."), Demo.world) /\
  (delete_db_user "bob" Demo.world =
     (Raise (HTTPException Forbidden "You do not have enough privileges."), Demo.world) \/
   (Demo.world = Demo.world /\
    (HTTPException Forbidden "You do not have enough privileges."
       = HTTPException Forbidden "You do not have enough privileges." \/
     exists detail,
       HTTPException Forbidden "You do not have enough privileges."
         = HTTPException Unauthorized detail))).
Proof.
  assert (with_superuser 10 "access.alice" (delete_db_user "bob") Demo.world =
    (Raise (HTTPException Forbidden "You do not have enough privileges."), Demo.world))
    as Hrun by (vm_compute; reflexivity).
  split; [exact Hrun|].
  apply (proj2 (superuser_endpoints_guarded 10 "access.alice" (delete_db_user "bob")
                  Demo.world) _ _ Hrun).
Defined.

Lemma listed_rules_match_limiter_witness :
  exists rules,
    read_user_me_rate_limits Demo.alice Demo.world = (Return (Demo.alice, rules), Demo.world) /\
    length rules = 1%nat /\
    In (RateLimitRule.mk 1 "/api/v1/posts" 3 60) rules /\
    resolve_rate_limit (Request.mk "/api/v1/posts" "10.0.0.7") "/api/v1/posts"
      (Some Demo.alice) Demo.world = (Return (inl 1%nat, 3%nat, 60), Demo.world).
Proof.
  destruct (proj1 (proj2 (listed_rules_match_limiter
                            (Request.mk "/api/v1/posts" "10.0.0.7") "/api/v1/posts"
                            Demo.alice Demo.world)) (Tier.mk 1 "free"))
    as (rules & Hread & _ & Hlength & Hfits); [reflexivity|].
  destruct Hfits as (_ & Hrule); [vm_compute; lia|].
  destruct (Hrule (RateLimitRule.mk 1 "/api/v1/posts" 3 60)) as (Hin & _ & Hres);
    [reflexivity|].
  by exists rules.
Defined.

Lemma tier_change_takes_effect_witness :
  exists w1,
    update_user_tier "bob" 1 Demo.world = (Return "User Bob Tier updated", w1) /\
    users w1 =
      [Demo.alice;
       User.mk 2 "Bob" "bob" "b@x.com" "$2b$builder" false false (Some 1%nat) false None;
       Demo.carol] /\
    resolve_rate_limit (Request.mk "/api/v1/posts" "10.0.0.7") "/api/v1/posts"
      (Some (User.mk 2 "Bob" "bob" "b@x.com" "$2b$builder" false false
               (Some 1%nat) false None)) w1
    = (Return (inl 2%nat, 3%nat, 60), w1).
Proof.
  destruct (tier_change_takes_effect "bob" 1 Demo.world
              (Request.mk "/api/v1/posts" "10.0.0.7") "/api/v1/posts")
    as (Hruns & Honly & _).
  destruct (Hruns Demo.bob (Tier.mk 1 "free")) as (w1 & Hrun); try reflexivity.
  destruct (Honly _ _ Hrun) as (_ & _ & Hw1 & _ & _ & Hrows).
  exists w1. split; [exact Hrun|].
  assert (users w1 =
            [Demo.alice;
             User.mk 2 "Bob" "bob" "b@x.com" "$2b$builder" false false
               (Some 1%nat) false None;
             Demo.carol]) as Husers by (rewrite Hw1; reflexivity).
  split; [exact Husers|].
  apply (Hrows (User.mk 2 "Bob" "bob" "b@x.com" "$2b$builder" false false
                  (Some 1%nat) false None)).
  - rewrite Husers. right. left. reflexivity.
  - reflexivity.
Defined.

Lemma upgrade_idempotent_witness :
  existsb User.is_superuser (users (upgrade Lab.admin Demo.world).2) = true /\
  upgrade Lab.admin (upgrade Lab.admin Demo.world).2 =
    (Return tt, (upgrade Lab.admin Demo.world).2).
Proof.
  destruct (upgrade_idempotent Lab.admin Demo.world) as (Hsuper & Hagain & _).
  - right. split; reflexivity.
  - by split.
Defined.

Lemma downgrade_undoes_upgrade_witness :
  users (downgrade Lab.admin (upgrade Lab.admin Demo.world).2).2 = users Demo.world.
Proof.
  apply (proj2 (downgrade_undoes_upgrade Lab.admin Demo.world)); reflexivity.
Defined.

Lemma password_pattern_accepts_short_witness :
  pattern_match PASSWORD_PATTERN "a" = true /\
  pattern_search PASSWORD_PATTERN "a" = true.
Proof.
  split.
  - apply (proj2 (password_pattern_accepts_short "a") "a"%char ""); reflexivity.
  - by rewrite (proj1 (password_pattern_accepts_short "a")).
Defined.

Lemma refresh_token_reusable_witness :
  exists pair',
    refresh_access_token 20 (RefreshToken.mk "refresh.alice") Demo.world =
      (Return pair', Demo.world).
Proof.
  destruct (refresh_token_reusable 10 20 (RefreshToken.mk "refresh.alice")
              (Token.mk "access.alice" "refresh.alice" "bearer")
              Demo.world Demo.world)
    as (_ & _ & Hagain); [vm_compute; reflexivity..|].
  exact Hagain.
Defined.

End FurtherEvaluation.

Section LabEvaluation.
Existing Instance Lab.platform.

(** alice logs in at second 3200; her tokens are used at second 3300. *)
Lemma login_tokens_authenticate_witness :
  exists w1,
    login_for_access_token 3200 "alice" "wonderland" Demo.world =
      (Return (Token.mk "access.alice" "refresh.alice" "bearer"), w1) /\
    get_current_user 3300 "access.alice" w1 =
      (Return (apply_patch (SetLastLogin 3200) Demo.alice), w1) /\
    verify_token 3300 "access.alice" REFRESH w1 = (Return None, w1) /\
    verify_token 3300 "refresh.alice" ACCESS w1 = (Return None, w1).
Proof.
  destruct (login_tokens_authenticate 3200 3300 "alice" "wonderland" Demo.world
              Demo.alice)
    as (pair & w1 & Hlogin & Hcur & _ & Ha & Hr); try reflexivity.
  assert (pair = Token.mk "access.alice" "refresh.alice" "bearer") as ->.
  { assert ((login_for_access_token 3200 "alice" "wonderland" Demo.world).1
            = Return (Token.mk "access.alice" "refresh.alice" "bearer")) as E
      by reflexivity.
    rewrite Hlogin in E. by injection E. }
  by exists w1.
Defined.

End LabEvaluation.
